(** * satellite-data-viewer: the acquire / extract / ingest pipeline

    A shallow embedding of [scripts/collect_data.py] and
    [scripts/upload_to_mysql.py], and the properties of the pipeline proved
    on it.

    Definitions:
    - [F64]      binary64 numbers (numpy's float64, Python's float) as Rocq's
                 primitive floats, and the rank that orders them;
    - [Py]       Python values, dictionaries, exceptions and early returns;
    - [Np]       the numpy operations the extractor and the generator call;
    - [Collect]  collect_data.py: acquisition, mock generation, extraction,
                 collection;
    - [Upload]   upload_to_mysql.py: extraction of the observation, upsert,
                 CSV backup, the run as a whole;
    - [Document] the record that travels from collector to ingestor;
    - [Examples], [UploadExamples]  small concrete worlds.

    Facts: [F64Facts], [NpFacts], [CollectFacts], [CollectorFacts],
    [ExtractorExamples], [UploadFacts], [UploadExampleFacts].

    Console output ([print]) is not modelled; the file system, the G-Portal
    service, the clock, the random generator and the MySQL server appear as
    fields of the worlds the scripts run in. *)

From Stdlib Require Import String Ascii.
From Stdlib Require Import ZArith List Bool Lia Floats.
From Stdlib Require Uint63 DecimalString.
Import ListNotations.
Set Warnings "-inexact-float,-register-all".
Local Open Scope string_scope.
Local Open Scope list_scope.

(* ================================================================== *)
(** * Binary64 *)
(* ================================================================== *)

Module F64.
Local Open Scope float_scope.

(** A number (anything but NaN) is ranked by a triple of integers, compared
    lexicographically: class and sign first, then exponent, then mantissa. *)
Definition key (x : spec_float) : option (Z * Z * Z) :=
  match x with
  | S754_nan => None
  | S754_infinity true => Some ((-2)%Z, 0%Z, 0%Z)
  | S754_finite true m e => Some ((-1)%Z, (- e)%Z, Z.neg m)
  | S754_zero _ => Some (0%Z, 0%Z, 0%Z)
  | S754_finite false m e => Some (1%Z, e, Z.pos m)
  | S754_infinity false => Some (2%Z, 0%Z, 0%Z)
  end.

Definition lex_lt (a b : Z * Z * Z) : Prop :=
  (fst (fst a) < fst (fst b) \/
   (fst (fst a) = fst (fst b) /\
    (snd (fst a) < snd (fst b) \/ (snd (fst a) = snd (fst b) /\ snd a < snd b))))%Z.

Definition lex_cmp (a b : Z * Z * Z) : comparison :=
  let '(a1, a2, a3) := a in
  let '(b1, b2, b3) := b in
  match (a1 ?= b1)%Z with
  | Eq => match (a2 ?= b2)%Z with Eq => (a3 ?= b3)%Z | c => c end
  | c => c
  end.

(** The rank of a float; meaningful when the float is not NaN. *)
Definition val (x : float) : Z * Z * Z :=
  match key (Prim2SF x) with Some a => a | None => (0%Z, 0%Z, 0%Z) end.

(** [float(n)] for a non-negative count. *)
Definition of_nat (n : nat) : float := PrimFloat.of_uint63 (Uint63.of_Z (Z.of_nat n)).

End F64.

(* ================================================================== *)
(** * Python values and control flow *)
(* ================================================================== *)

Module Py.

(** The values that travel through the two scripts and through the JSON
    document between them.  A [dict] keeps its keys in insertion order. *)
Inductive value : Type :=
| VNone
| VBool (b : bool)
| VInt (z : Z)
| VFloat (f : float)
| VStr (s : string)
| VList (l : list value)
| VDict (d : list (string * value)).

Definition dict := list (string * value).

(** [d.get(k)] on the entries of a dict. *)
Fixpoint dict_get (k : string) (d : dict) : option value :=
  match d with
  | [] => None
  | (k', v) :: d' => if String.eqb k k' then Some v else dict_get k d'
  end.

(** [k in d]. *)
Definition dict_in (k : string) (d : dict) : bool :=
  match dict_get k d with Some _ => true | None => false end.

(** [d[k] = v]: an existing key keeps its place, a new one goes last. *)
Fixpoint dict_set (k : string) (v : value) (d : dict) : dict :=
  match d with
  | [] => [(k, v)]
  | (k', v') :: d' =>
      if String.eqb k k' then (k, v) :: d' else (k', v') :: dict_set k v d'
  end.

(** Exceptions, each with the text [str(e)] gives.  The texts of exceptions
    raised inside libraries are representative, not literal. *)
Inductive exn : Type :=
| KeyError (msg : string)
| ValueError (msg : string)
| IndexError (msg : string)
| TypeError (msg : string)
| AttributeError (msg : string)
| OSError (msg : string)
| FileNotFoundError (msg : string)
| ImportError (msg : string)
| RuntimeError (msg : string)
| LibraryError (msg : string).

Definition str_of_exn (e : exn) : string :=
  match e with
  | KeyError m | ValueError m | IndexError m | TypeError m | AttributeError m
  | OSError m | FileNotFoundError m | ImportError m | RuntimeError m
  | LibraryError m => m
  end.

(** A block of statements either falls through with a value, executes a
    [return], or raises. *)
Inductive outcome (A : Type) : Type :=
| Ok (a : A)
| Return (v : value)
| Raise (e : exn).
Arguments Ok {A} a.
Arguments Return {A} v.
Arguments Raise {A} e.

Definition bind {A B : Type} (m : outcome A) (k : A -> outcome B) : outcome B :=
  match m with
  | Ok a => k a
  | Return v => Return v
  | Raise e => Raise e
  end.

(** [s.replace(c, '')] for a one-character [c]. *)
Fixpoint remove_char (c : ascii) (s : string) : string :=
  match s with
  | EmptyString => EmptyString
  | String a s' => if Ascii.eqb a c then remove_char c s' else String a (remove_char c s')
  end.

(** [s.lower()] on ASCII letters. *)
Definition lower_ascii (a : ascii) : ascii :=
  let n := nat_of_ascii a in
  if andb (65 <=? n)%nat (n <=? 90)%nat then ascii_of_nat (n + 32) else a.

Fixpoint lower (s : string) : string :=
  match s with
  | EmptyString => EmptyString
  | String a s' => String (lower_ascii a) (lower s')
  end.

(** [sub in s] on strings. *)
Fixpoint str_contains (sub s : string) : bool :=
  if String.prefix sub s then true
  else match s with
       | EmptyString => false
       | String _ s' => str_contains sub s'
       end.

(** [k in c] for a string [k] and a container [c] as Python decides it. *)
Definition contains (k : string) (c : value) : outcome bool :=
  match c with
  | VDict d => Ok (dict_in k d)
  | VStr s => Ok (str_contains k s)
  | VList l =>
      Ok (existsb (fun v => match v with VStr s => String.eqb s k | _ => false end) l)
  | _ => Raise (TypeError "argument is not iterable")
  end.

(** [c[k]] for a string key [k]. *)
Definition getitem (c : value) (k : string) : outcome value :=
  match c with
  | VDict d =>
      match dict_get k d with
      | Some v => Ok v
      | None => Raise (KeyError k)
      end
  | VStr _ => Raise (TypeError "string indices must be integers")
  | VList _ => Raise (TypeError "list indices must be integers or slices")
  | _ => Raise (TypeError "object is not subscriptable")
  end.

End Py.

Declare Scope py_scope.
Delimit Scope py_scope with py.
Notation "x <- m ;; k" := (Py.bind m (fun x => k))
  (at level 61, m at next level, right associativity) : py_scope.
Notation "'check' m ;; k" := (Py.bind m (fun _ => k))
  (at level 61, m at next level, right associativity) : py_scope.

(* ================================================================== *)
(** * numpy on two-dimensional float64 arrays *)
(* ================================================================== *)

Module Np.
Import Py.
Local Open Scope float_scope.
Local Open Scope nat_scope.

(** A 2-D float64 array is the list of its rows, so its cells read in C
    (row-major) order.  The second dimension of an array with no row is taken
    as 0. *)
Definition ndarray := list (list float).

Definition nrows (a : ndarray) : nat := length a.
Definition ncols (a : ndarray) : nat := length (hd [] a).
Definition shape (a : ndarray) : nat * nat := (nrows a, ncols a).

(** Every row has the array's width: what makes a list of rows an array. *)
Definition rectangular (a : ndarray) : Prop :=
  Forall (fun r => length r = ncols a) a.

(** [a.ravel()]. *)
Definition ravel (a : ndarray) : list float := concat a.

(** [a[i, j]] for non-negative indices. *)
Definition cell (a : ndarray) (i j : nat) : option float :=
  match nth_error a i with
  | Some r => nth_error r j
  | None => None
  end.

Definition getitem (a : ndarray) (idx : nat * nat) : outcome float :=
  match cell a (fst idx) (snd idx) with
  | Some x => Ok x
  | None => Raise (IndexError "index is out of bounds")
  end.

(** [a - x] and [a ** 2] and [np.sqrt(a)], cell by cell. *)
Definition sub_scalar (a : ndarray) (x : float) : ndarray :=
  map (map (fun v => (v - x)%float)) a.
Definition square (a : ndarray) : ndarray := map (map (fun v => (v * v)%float)) a.
Definition sqrt (a : ndarray) : ndarray := map (map PrimFloat.sqrt) a.

(** Broadcasting of two 2-D shapes: equal dimensions, or one of them 1. *)
Definition broadcast_dim (n m : nat) : option nat :=
  if n =? m then Some n
  else if n =? 1 then Some m
  else if m =? 1 then Some n
  else None.

Definition stretch_row (m : nat) (r : list float) : list float :=
  if length r =? m then r else repeat (hd nan r) m.

Definition stretch (n m : nat) (a : ndarray) : ndarray :=
  let a' := if nrows a =? n then a else repeat (hd [] a) n in
  map (stretch_row m) a'.

Fixpoint zip_with {A B C} (f : A -> B -> C) (l : list A) (l' : list B) : list C :=
  match l, l' with
  | x :: t, y :: t' => f x y :: zip_with f t t'
  | _, _ => []
  end.

(** [a + b]. *)
Definition add (a b : ndarray) : outcome ndarray :=
  match broadcast_dim (nrows a) (nrows b), broadcast_dim (ncols a) (ncols b) with
  | Some n, Some m =>
      Ok (zip_with (zip_with PrimFloat.add) (stretch n m a) (stretch n m b))
  | _, _ => Raise (ValueError "operands could not be broadcast together")
  end.

(** The scan of [np.argmin] on float64: a cell replaces the running minimum
    when it is not [>=] to it, and the scan stops at the first NaN. *)
Fixpoint argmin_loop (ip : list float) (i : nat) (mp : float) (min_ind : nat) : nat :=
  match ip with
  | [] => min_ind
  | x :: ip' =>
      if negb (mp <=? x)%float
      then (if is_nan x then i else argmin_loop ip' (S i) x i)
      else argmin_loop ip' (S i) mp min_ind
  end.

Definition argmin_flat (l : list float) : option nat :=
  match l with
  | [] => None
  | x :: l' => Some (if is_nan x then 0 else argmin_loop l' 1 x 0)
  end.

Definition argmin (a : ndarray) : outcome nat :=
  match argmin_flat (ravel a) with
  | Some k => Ok k
  | None => Raise (ValueError "attempt to get argmin of an empty sequence")
  end.

(** [np.unravel_index(k, shape)] in C order.  [k] comes from [argmin] on an
    array of that shape, so it is in range. *)
Definition unravel_index (k : nat) (shp : nat * nat) : nat * nat :=
  (k / snd shp, k mod snd shp).

(** [l[s:e]] for bounds that are not negative. *)
Definition slice {A} (s e : Z) (l : list A) : list A :=
  firstn (Z.to_nat (e - s)) (skipn (Z.to_nat s) l).

(** [a[i0:i1, j0:j1]]. *)
Definition slice2 (a : ndarray) (i0 i1 j0 j1 : Z) : ndarray :=
  map (slice j0 j1) (slice i0 i1 a).

(** [a[~np.isnan(a)]]: the cells that are numbers, flattened in C order. *)
Definition drop_nan (a : ndarray) : list float :=
  filter (fun x => negb (is_nan x)) (ravel a).

(** numpy's pairwise summation.  Fewer than 8 terms are added one by one;
    up to 128 terms go through eight running sums; longer inputs are split. *)
Definition sum_seq (init : float) (l : list float) : float :=
  fold_left PrimFloat.add l init.

Fixpoint sum_blocks (fuel : nat) (r : list float) (l : list float)
  : list float * list float :=
  match fuel with
  | 0 => (r, l)
  | S fuel' =>
      if 8 <=? length l
      then sum_blocks fuel' (zip_with PrimFloat.add r (firstn 8 l)) (skipn 8 l)
      else (r, l)
  end.

Definition sum_unrolled (l : list float) : float :=
  let '(r, rest) := sum_blocks (length l) (firstn 8 l) (skipn 8 l) in
  let r0 := nth 0 r 0%float in let r1 := nth 1 r 0%float in
  let r2 := nth 2 r 0%float in let r3 := nth 3 r 0%float in
  let r4 := nth 4 r 0%float in let r5 := nth 5 r 0%float in
  let r6 := nth 6 r 0%float in let r7 := nth 7 r 0%float in
  sum_seq (((r0 + r1) + (r2 + r3)) + ((r4 + r5) + (r6 + r7)))%float rest.

Fixpoint pairwise_sum_fuel (fuel : nat) (l : list float) : float :=
  let n := length l in
  if n <? 8 then sum_seq (-0)%float l
  else if n <=? 128 then sum_unrolled l
  else match fuel with
       | 0 => sum_unrolled l
       | S fuel' =>
           let n2 := n / 2 - (n / 2) mod 8 in
           (pairwise_sum_fuel fuel' (firstn n2 l) + pairwise_sum_fuel fuel' (skipn n2 l))%float
       end.

Definition pairwise_sum (l : list float) : float := pairwise_sum_fuel (length l) l.

(** [np.add.reduce] on a 1-D array: the identity, plus the pairwise sum (the
    identity only matters for the sign of a zero sum). *)
Definition sum (l : list float) : float := (0 + pairwise_sum l)%float.

(** [np.mean]: the sum over the count. *)
Definition mean (l : list float) : float := (sum l / F64.of_nat (length l))%float.

(** [np.var] with [ddof = 0], and [np.std], its square root. *)
Definition var (l : list float) : float :=
  let arrmean := mean l in
  let x := map (fun v => (v - arrmean)%float) l in
  (sum (map (fun v => (v * v)%float) x) / F64.of_nat (length l))%float.

Definition std (l : list float) : float := PrimFloat.sqrt (var l).

(** [np.minimum.reduce] and [np.maximum.reduce]: numpy's loop keeps the
    running value when it compares [<=] (for the maximum, [>=]) to the next
    cell or is NaN, so of two zeros of opposite sign the earlier one stays. *)
Definition minimum (a b : float) : float :=
  if orb (a <=? b)%float (is_nan a) then a else b.
Definition maximum (a b : float) : float :=
  if orb (b <=? a)%float (is_nan a) then a else b.

Definition amin (l : list float) : float :=
  match l with [] => nan | x :: l' => fold_left minimum l' x end.
Definition amax (l : list float) : float :=
  match l with [] => nan | x :: l' => fold_left maximum l' x end.

(** [np.clip(x, lo, hi)] on one cell. *)
Definition clip1 (lo hi x : float) : float :=
  if (x <? lo)%float then lo else if (hi <? x)%float then hi else x.
Definition clip (a : ndarray) (lo hi : float) : ndarray := map (map (clip1 lo hi)) a.

(** [np.linspace(start, stop, num)] with the end point, for [num > 1]. *)
Definition linspace (start stop : float) (num : nat) : list float :=
  let div := F64.of_nat (num - 1) in
  let delta := (stop - start)%float in
  let step := (delta / div)%float in
  let y i :=
    if (step =? 0)%float
    then (F64.of_nat i / div * delta + start)%float
    else (F64.of_nat i * step + start)%float in
  map y (seq 0 (num - 1)) ++ [stop].

(** [np.meshgrid(x, y)]: the first grid repeats [x] along rows, the second
    repeats each element of [y] along its row. *)
Definition meshgrid (x y : list float) : ndarray * ndarray :=
  (map (fun _ => x) y, map (fun v => map (fun _ => v) x) y).

End Np.

(* ================================================================== *)
(** * collect_data.py *)
(* ================================================================== *)

Module Collect.
Import Py.
Local Open Scope py_scope.

(** ** The world of the collector *)

(** An HDF5 file: each dataset under its full path, such as
    [Geometry_data/Latitude] or [Image_data/LST].  Datasets are 2-D float64
    arrays; the attributes the mock generator writes are never read back. *)
Definition hdf5 := list (string * Np.ndarray).

(** What a path of the scratch directory holds. *)
Inductive file : Type :=
| Hdf5 (f : hdf5)
| NotHdf5.

(** What the G-Portal client does for one acquisition: [gportal.datasets],
    [gportal.search] over the bounding box and the three days around the
    target date, then [gportal.download] of the first product found. *)
Inductive service_reply : Type :=
| ServiceRaises (e : exn)
| NoProducts
| NothingDownloaded
| Downloaded (path : string) (content : option file).

(** The acquisition routines, for the ghost log of calls. *)
Inductive call : Type :=
| CallMock (product_type : string)
| CallReal (product_type : string).

(** What the script reads and never changes. *)
Record Env : Type := {
  NUMPY_AVAILABLE : bool;
  H5PY_AVAILABLE : bool;
  GPORTAL_AVAILABLE : bool;
  environ : string -> option string;
  (** product type, bounding box, target date *)
  gportal_service : string -> list float -> string -> service_reply;
  (** [h5py.File(path, 'w')] succeeds in the scratch directory *)
  temp_writable : bool;
  (** the standard normal deviate of draw [n] at cell [k] *)
  standard_normal : nat -> nat -> float;
  (** [datetime.now().isoformat()] *)
  now_isoformat : string
}.

(** What the script changes: the scratch directory, and two ghost fields,
    the log of acquisition calls and the number of random draws so far. *)
Record State : Type := {
  fs : list (string * file);
  calls : list call;
  draws : nat
}.

Definition TEMP_DIR : string := "data/temp/".

Fixpoint fs_get (p : string) (l : list (string * file)) : option file :=
  match l with
  | [] => None
  | (p', c) :: l' => if String.eqb p p' then Some c else fs_get p l'
  end.

Definition fs_put (p : string) (c : file) (l : list (string * file))
  : list (string * file) := (p, c) :: l.

Fixpoint hdf5_get (p : string) (f : hdf5) : option Np.ndarray :=
  match f with
  | [] => None
  | (p', a) :: f' => if String.eqb p p' then Some a else hdf5_get p f'
  end.

Definition log (c : call) (st : State) : State :=
  {| fs := fs st; calls := calls st ++ [c]; draws := draws st |}.

(** ** get_gportal_credentials (lines 68-83) *)

Definition environ_get (env : Env) (k default : string) : string :=
  match environ env k with Some v => v | None => default end.

Definition is_empty (s : string) : bool :=
  match s with EmptyString => true | _ => false end.

Definition get_gportal_credentials (env : Env) : option (string * string) :=
  let username := environ_get env "GPORTAL_USERNAME" "" in
  let password := environ_get env "GPORTAL_PASSWORD" "" in
  if orb (is_empty username) (is_empty password) then None
  else Some (username, password).

(** ** search_and_download_real (lines 86-165) *)

Definition search_and_download_real (env : Env) (st : State)
    (lat lon : float) (target_date product_type : string)
  : option string * State :=
  let st := log (CallReal product_type) st in
  if negb (GPORTAL_AVAILABLE env) then (None, st)
  else
    match get_gportal_credentials env with
    | None => (None, st)
    | Some _ =>
        if negb (orb (String.eqb product_type "LST") (String.eqb product_type "NDVI"))
        then (None, st)
        else
          let bbox := [(lon - 0.5)%float; (lat - 0.5)%float;
                       (lon + 0.5)%float; (lat + 0.5)%float] in
          match gportal_service env product_type bbox target_date with
          | ServiceRaises _ => (None, st)
          | NoProducts => (None, st)
          | NothingDownloaded => (None, st)
          | Downloaded path content =>
              (Some path,
               match content with
               | Some c => {| fs := fs_put path c (fs st); calls := calls st;
                              draws := draws st |}
               | None => st
               end)
          end
    end.

(** ** create_mock_hdf5 (lines 168-234) *)

(** [np.random.normal(mean, std, (100, 100))], from the deviates of one draw. *)
Definition random_normal (env : Env) (draw : nat) (mean std : float) : Np.ndarray :=
  map (fun r =>
         map (fun c => (mean + std * standard_normal env draw (r * 100 + c))%float)
             (seq 0 100))
      (seq 0 100).

Definition mock_data (env : Env) (draw : nat) (product_type : string) : Np.ndarray :=
  if String.eqb product_type "LST"
  then Np.clip (random_normal env draw 291.5%float 3.0%float) 273.0%float 320.0%float
  else Np.clip (random_normal env draw 0.75%float 0.08%float) 0.0%float 1.0%float.

Definition mock_file (env : Env) (draw : nat) (lat lon : float) (product_type : string)
  : hdf5 :=
  let lat_range := Np.linspace (lat - 0.5)%float (lat + 0.5)%float 100 in
  let lon_range := Np.linspace (lon - 0.5)%float (lon + 0.5)%float 100 in
  let '(lon_grid, lat_grid) := Np.meshgrid lon_range lat_range in
  [ ("Geometry_data/Latitude", lat_grid);
    ("Geometry_data/Longitude", lon_grid);
    (String.append "Image_data/" product_type, mock_data env draw product_type) ].

Definition mock_path (target_date product_type : string) : string :=
  let date_str := remove_char "-"%char target_date in
  let filename :=
    String.append "GC1SG1_"
      (String.append date_str
         (String.append "01D01D_" (String.append product_type "_MOCK.h5"))) in
  String.append TEMP_DIR filename.

Definition create_mock_hdf5 (env : Env) (st : State)
    (lat lon : float) (target_date product_type : string)
  : option string * State :=
  let st := log (CallMock product_type) st in
  if orb (negb (H5PY_AVAILABLE env)) (negb (NUMPY_AVAILABLE env)) then (None, st)
  else
    let output_path := mock_path target_date product_type in
    if negb (temp_writable env) then (None, st)
    else
      (Some output_path,
       {| fs := fs_put output_path
                  (Hdf5 (mock_file env (draws st) lat lon product_type)) (fs st);
          calls := calls st;
          draws := S (draws st) |}).

(** ** extract_pixel_value (lines 237-325) *)

(** Lines 254-274: the datasets, the distance grid, the nearest cell and its
    value. *)
Record pixel_match : Type := {
  m_data : Np.ndarray;
  m_lat_grid : Np.ndarray;
  m_lon_grid : Np.ndarray;
  m_distances : Np.ndarray;
  m_idx : nat * nat;
  m_pixel_value : float
}.

Definition open_hdf5 (st : State) (hdf5_path : string) : outcome hdf5 :=
  match fs_get hdf5_path (fs st) with
  | Some (Hdf5 f) => Ok f
  | Some NotHdf5 => Raise (OSError "Unable to open file (file signature not found)")
  | None => Raise (FileNotFoundError "Unable to open file (No such file or directory)")
  end.

Definition dataset (f : hdf5) (path : string) : outcome Np.ndarray :=
  match hdf5_get path f with
  | Some a => Ok a
  | None => Raise (KeyError "Unable to open object (object does not exist)")
  end.

(** [np.sqrt((lat_grid - lat)**2 + (lon_grid - lon)**2)] on one cell. *)
Definition distance (lat lon la lo : float) : float :=
  PrimFloat.sqrt ((la - lat) * (la - lat) + (lo - lon) * (lo - lon))%float.

Definition distance_grid (lat_grid lon_grid : Np.ndarray) (lat lon : float)
  : outcome Np.ndarray :=
  s <- Np.add (Np.square (Np.sub_scalar lat_grid lat))
              (Np.square (Np.sub_scalar lon_grid lon)) ;;
  Ok (Np.sqrt s).

Definition locate (st : State) (hdf5_path : string) (lat lon : float)
    (dataset_name : string) : outcome pixel_match :=
  f <- open_hdf5 st hdf5_path ;;
  let data_path := String.append "Image_data/" dataset_name in
  match hdf5_get data_path f with
  | None =>
      Return (VDict [("error",
        VStr (String.append "データセット " (String.append data_path " が見つかりません")))])
  | Some data =>
      lat_grid <- dataset f "Geometry_data/Latitude" ;;
      lon_grid <- dataset f "Geometry_data/Longitude" ;;
      distances <- distance_grid lat_grid lon_grid lat lon ;;
      k <- Np.argmin distances ;;
      let min_idx := Np.unravel_index k (Np.shape distances) in
      pixel_value <- Np.getitem data min_idx ;;
      Ok {| m_data := data; m_lat_grid := lat_grid; m_lon_grid := lon_grid;
            m_distances := distances; m_idx := min_idx;
            m_pixel_value := pixel_value |}
  end.

(** Lines 283-291: the 5x5 window around the cell, cut at the array's edges,
    and its cells that are numbers. *)
Definition window_size : Z := 5.

Definition window_data (data : Np.ndarray) (min_idx : nat * nat) : Np.ndarray :=
  let i := Z.of_nat (fst min_idx) in
  let j := Z.of_nat (snd min_idx) in
  let i_start := Z.max 0 (i - window_size / 2) in
  let i_end := Z.min (Z.of_nat (Np.nrows data)) (i + window_size / 2 + 1) in
  let j_start := Z.max 0 (j - window_size / 2) in
  let j_end := Z.min (Z.of_nat (Np.ncols data)) (j + window_size / 2 + 1) in
  Np.slice2 data i_start i_end j_start j_end.

Definition window_data_clean (data : Np.ndarray) (min_idx : nat * nat) : list float :=
  Np.drop_nan (window_data data min_idx).

(** Lines 293-305. *)
Definition window_stats (dataset_name : string) (clean : list float) : value :=
  if (0 <? length clean)%nat then
    let stats :=
      [ ("mean", VFloat (Np.mean clean));
        ("std", VFloat (Np.std clean));
        ("min", VFloat (Np.amin clean));
        ("max", VFloat (Np.amax clean)) ] in
    if String.eqb dataset_name "LST"
    then VDict (dict_set "mean_celsius" (VFloat (Np.mean clean - 273.15)%float) stats)
    else VDict stats
  else VNone.

(** Lines 276-280 and 307-322. *)
Definition build_result (dataset_name : string) (m : pixel_match) : outcome value :=
  let pixel_value := m_pixel_value m in
  let pixel_value_celsius :=
    if String.eqb dataset_name "LST" then Some (pixel_value - 273.15)%float else None in
  let '(i, j) := m_idx m in
  let stats := window_stats dataset_name (window_data_clean (m_data m) (m_idx m)) in
  latitude <- Np.getitem (m_lat_grid m) (m_idx m) ;;
  longitude <- Np.getitem (m_lon_grid m) (m_idx m) ;;
  let result :=
    [ ("dataset", VStr dataset_name);
      ("pixel_value", VFloat pixel_value);
      ("pixel_location",
         VDict [ ("row", VInt (Z.of_nat i)); ("col", VInt (Z.of_nat j));
                 ("latitude", VFloat latitude); ("longitude", VFloat longitude) ]);
      ("window_statistics", stats) ] in
  match pixel_value_celsius with
  | Some c => Ok (VDict (dict_set "pixel_value_celsius" (VFloat c) result))
  | None => Ok (VDict result)
  end.

Definition extract_body (st : State) (hdf5_path : string) (lat lon : float)
    (dataset_name : string) : outcome value :=
  m <- locate st hdf5_path lat lon dataset_name ;;
  build_result dataset_name m.

Definition extract_pixel_value (env : Env) (st : State) (hdf5_path : string)
    (lat lon : float) (dataset_name : string) : value :=
  if orb (negb (H5PY_AVAILABLE env)) (negb (NUMPY_AVAILABLE env))
  then VDict [("error", VStr "h5pyまたはnumpyが必要です")]
  else
    match extract_body st hdf5_path lat lon dataset_name with
    | Ok v => v
    | Return v => v
    | Raise e =>
        VDict [("error", VStr (String.append "データ抽出エラー: " (str_of_exn e)))]
    end.

(** ** collect_satellite_data (lines 328-386) *)

Definition no_file_error : value := VDict [("error", VStr "ファイル取得失敗")].

(** [result["observations"][key] = v]. *)
Definition set_observation (key : string) (v : value) (result : dict) : dict :=
  match dict_get "observations" result with
  | Some (VDict obs) => dict_set "observations" (VDict (dict_set key v obs)) result
  | _ => result
  end.

(** [hdf5_path.exists()]. *)
Definition exists_ (st : State) (p : string) : bool :=
  match fs_get p (fs st) with Some _ => true | None => false end.

(** One turn of the loop over the products (lines 354-384). *)
Definition collect_product (env : Env) (lat lon : float) (target_date : string)
    (use_mock : bool) (acc : dict * State) (product_type : string) : dict * State :=
  let '(result, st) := acc in
  let '(hdf5_path, st) :=
    if orb use_mock (negb (GPORTAL_AVAILABLE env))
    then create_mock_hdf5 env st lat lon target_date product_type
    else search_and_download_real env st lat lon target_date product_type in
  let observation :=
    match hdf5_path with
    | Some p =>
        if exists_ st p then
          match extract_pixel_value env st p lat lon product_type with
          | VDict extraction =>
              if negb (dict_in "error" extraction) then VDict extraction
              else VDict [("error",
                     match dict_get "error" extraction with
                     | Some e => e
                     | None => VNone
                     end)]
          | other => other
          end
        else no_file_error
    | None => no_file_error
    end in
  (set_observation (lower product_type) observation result, st).

Definition collect_satellite_data (env : Env) (st : State) (lat lon : float)
    (target_date : string) (use_mock : bool) : dict * State :=
  let result :=
    [ ("location",
         VDict [ ("latitude", VFloat lat); ("longitude", VFloat lon);
                 ("name", VStr "Observation Point") ]);
      ("observation_date", VStr target_date);
      ("processing_time", VStr (now_isoformat env));
      ("data_source", VStr (if use_mock then "mock" else "gportal"));
      ("observations", VDict []) ] in
  fold_left (collect_product env lat lon target_date use_mock) ["LST"; "NDVI"]
            (result, st).

(** The entry of one product in a collected record. *)
Definition observation_of (result : dict) (key : string) : option value :=
  match dict_get "observations" result with
  | Some (VDict obs) => dict_get key obs
  | _ => None
  end.

(** ** Notions the further facts are stated with *)

(** The range the generator clips a product's values to (lines 213 and 220). *)
Definition clip_range (product_type : string) : float * float :=
  if String.eqb product_type "LST" then (273.0, 320.0)%float else (0.0, 1.0)%float.

End Collect.

(* ================================================================== *)
(** * collect_data.py: the script's entry point *)
(* ================================================================== *)

(** [main] (lines 389-436), after the command line is parsed. *)
Module CollectMain.
Import Py Collect.

(** The parsed command line (lines 390-400). *)
Record Args : Type := {
  lat : float;
  lon : float;
  date : string;
  output : string;
  mock : bool
}.

(** What the run needs of the file system outside the scratch files:
    [ensure_directories] (lines 62-65) can create the two data directories,
    and the output's parent directory can be created and the output opened
    for writing (lines 424-427).  A failure of either is an [OSError] nothing
    catches: the interpreter prints the traceback and exits with status 1. *)
Record Host : Type := {
  directories_creatable : bool;
  output_writable : bool
}.

(** The exit status, the scratch state, and the document written, if any. *)
Definition main (env : Env) (host : Host) (args : Args) (st : State)
  : Z * State * option (string * value) :=
  if negb (directories_creatable host) then (1%Z, st, None)
  else if orb (negb (NUMPY_AVAILABLE env)) (negb (H5PY_AVAILABLE env))
  then (1%Z, st, None)
  else
    let '(result, st) :=
      collect_satellite_data env st (lat args) (lon args) (date args) (mock args) in
    if negb (output_writable host) then (1%Z, st, None)
    else (0%Z, st, Some (output args, VDict result)).

Definition status (run : Z * State * option (string * value)) : Z := fst (fst run).
Definition final (run : Z * State * option (string * value)) : State := snd (fst run).
Definition written (run : Z * State * option (string * value))
  : option (string * value) := snd run.

End CollectMain.

(* ================================================================== *)
(** * upload_to_mysql.py *)
(* ================================================================== *)

Module Upload.
Import Py.
Local Open Scope py_scope.

(** ** The world of the ingestor *)

Record location_row : Type := { loc_id : Z; loc_name : string }.

(** A row of [observations]; the table has a unique key on
    [(location_id, observation_date)]. *)
Record observation_row : Type := {
  row_location_id : Z;
  row_observation_date : value;
  row_lst : value;
  row_ndvi : value
}.

Record database : Type := {
  locations : list location_row;
  observations : list observation_row
}.

(** A line of a backup CSV file. *)
Inductive csv_line : Type :=
| Header (fieldnames : list string)
| Line (location_id : Z) (observation_date lst ndvi : value) (error : string).

(** [MYSQL_PORT] as [int(os.environ.get('MYSQL_PORT', 3306))] reads it. *)
Inductive port_setting : Type :=
| PortUnset
| PortNumber (n : Z)
| PortNotANumber.

Record World : Type := {
  PYMYSQL_AVAILABLE : bool;
  (** the files the input path may name: the parsed document, or [None] for a
      file that is not JSON *)
  json_files : list (string * option value);
  MYSQL_PORT : port_setting;
  (** [Some msg]: the call raises [pymysql.Error] with that text *)
  connect_error : option string;
  select_error : option string;
  execute_error : option string;
  commit_error : option string;
  (** the committed state of the store *)
  db : database;
  backup_dir : list (string * list csv_line);
  (** [datetime.now().strftime('%Y%m%d_%H%M%S')] *)
  now_stamp : string;
  (** ghost: how many times [pymysql.connect] was called *)
  connects : nat
}.

(** An open connection: the observations as its transaction sees them. *)
Record connection : Type := { tx_observations : list observation_row }.

Record Args : Type := { input : string; location_id : Z; backup_only : bool }.

(** The dict [extract_observation_data] builds, with its three fixed keys. *)
Record Observation : Type := {
  observation_date : value;
  lst : value;
  ndvi : value
}.

Definition set_db (w : World) (d : database) : World :=
  {| PYMYSQL_AVAILABLE := PYMYSQL_AVAILABLE w; json_files := json_files w;
     MYSQL_PORT := MYSQL_PORT w; connect_error := connect_error w;
     select_error := select_error w; execute_error := execute_error w;
     commit_error := commit_error w; db := d; backup_dir := backup_dir w;
     now_stamp := now_stamp w; connects := connects w |}.

Definition set_backup_dir (w : World) (b : list (string * list csv_line)) : World :=
  {| PYMYSQL_AVAILABLE := PYMYSQL_AVAILABLE w; json_files := json_files w;
     MYSQL_PORT := MYSQL_PORT w; connect_error := connect_error w;
     select_error := select_error w; execute_error := execute_error w;
     commit_error := commit_error w; db := db w; backup_dir := b;
     now_stamp := now_stamp w; connects := connects w |}.

Definition count_connect (w : World) : World :=
  {| PYMYSQL_AVAILABLE := PYMYSQL_AVAILABLE w; json_files := json_files w;
     MYSQL_PORT := MYSQL_PORT w; connect_error := connect_error w;
     select_error := select_error w; execute_error := execute_error w;
     commit_error := commit_error w; db := db w; backup_dir := backup_dir w;
     now_stamp := now_stamp w; connects := S (connects w) |}.

Fixpoint lookup {A} (k : string) (l : list (string * A)) : option A :=
  match l with
  | [] => None
  | (k', v) :: l' => if String.eqb k k' then Some v else lookup k l'
  end.

Fixpoint update {A} (k : string) (v : A) (l : list (string * A)) : list (string * A) :=
  match l with
  | [] => [(k, v)]
  | (k', v') :: l' => if String.eqb k k' then (k, v) :: l' else (k', v') :: update k v l'
  end.

(** ** get_mysql_config (lines 55-80) and connect_to_mysql (lines 83-112) *)

Definition get_mysql_config (w : World) : outcome Z :=
  match MYSQL_PORT w with
  | PortUnset => Ok 3306%Z
  | PortNumber n => Ok n
  | PortNotANumber => Raise (ValueError "invalid literal for int() with base 10")
  end.

Definition connect_to_mysql (w : World) : outcome connection * World :=
  if negb (PYMYSQL_AVAILABLE w)
  then (Raise (ImportError "pymysqlがインストールされていません"), w)
  else
    let w := count_connect w in
    match connect_error w with
    | Some msg => (Raise (LibraryError msg), w)
    | None => (Ok {| tx_observations := observations (db w) |}, w)
    end.

(** ** load_json_data (lines 115-134) *)

Definition load_json_data (w : World) (json_path : string) : outcome value :=
  match lookup json_path (json_files w) with
  | None =>
      Raise (FileNotFoundError (String.append "JSONファイルが見つかりません: " json_path))
  | Some None => Raise (ValueError "Expecting value")
  | Some (Some data) => Ok data
  end.

(** ** extract_observation_data (lines 137-165) *)

(** Python's built-in [round(x, ndigits)] on a float, for [ndigits >= 0] as
    both call sites have it: the exact value of [x] is rounded to [ndigits]
    decimals, ties to even, and the decimal result is converted back to the
    nearest binary64. *)
Definition round_half_even (num den : Z) : Z :=
  let q := (num / den)%Z in
  let r := (num mod den)%Z in
  match (2 * r ?= den)%Z with
  | Lt => q
  | Gt => (q + 1)%Z
  | Eq => if Z.even q then q else (q + 1)%Z
  end.

Definition round (x : float) (ndigits : nat) : float :=
  match Prim2SF x with
  | S754_finite s m e =>
      if (323 <? ndigits)%nat then x
      else
        let p := (10 ^ Z.of_nat ndigits)%Z in
        let num := (Z.pos m * 2 ^ Z.max e 0 * p)%Z in
        let den := (2 ^ Z.max (- e) 0)%Z in
        match round_half_even num den with
        | Z.pos k =>
            SF2Prim (SF64div (S754_finite s k 0) (S754_finite false (Z.to_pos p) 0))
        | _ => if s then (-0)%float else 0%float
        end
  | _ => x
  end.

Definition py_round (v : value) (ndigits : nat) : outcome value :=
  match v with
  | VFloat x => Ok (VFloat (round x ndigits))
  | VInt z => Ok (VInt z)
  | VBool b => Ok (VInt (if b then 1 else 0))
  | _ => Raise (TypeError "type doesn't define __round__ method")
  end.

(** [json_data.get(k)]. *)
Definition get (json_data : value) (k : string) : outcome value :=
  match json_data with
  | VDict d => Ok (match dict_get k d with Some v => v | None => VNone end)
  | _ => Raise (AttributeError "object has no attribute 'get'")
  end.

(** Lines 154-157 and 160-163: one product's field, rounded. *)
Definition extract_field (json_data : value) (product field : string) (ndigits : nat)
  : outcome value :=
  has_observations <- contains "observations" json_data ;;
  if negb has_observations then Ok VNone
  else
    observations <- getitem json_data "observations" ;;
    has_product <- contains product observations ;;
    if negb has_product then Ok VNone
    else
      product_data <- getitem observations product ;;
      has_error <- contains "error" product_data ;;
      if has_error then Ok VNone
      else
        has_field <- contains field product_data ;;
        if negb has_field then Ok VNone
        else
          v <- getitem product_data field ;;
          py_round v ndigits.

Definition extract_observation_data (json_data : value) : outcome Observation :=
  date <- get json_data "observation_date" ;;
  lst_value <- extract_field json_data "lst" "pixel_value_celsius" 2 ;;
  ndvi_value <- extract_field json_data "ndvi" "pixel_value" 3 ;;
  Ok {| observation_date := date; lst := lst_value; ndvi := ndvi_value |}.

(** ** insert_observation (lines 168-218) *)

(** Two rows collide on the unique key when the location ids are equal and the
    dates are the same string; a NULL date collides with nothing. *)
Definition same_key (location_id : Z) (date : value) (r : observation_row) : bool :=
  andb (Z.eqb (row_location_id r) location_id)
       match row_observation_date r, date with
       | VStr a, VStr b => String.eqb a b
       | _, _ => false
       end.

(** [INSERT ... ON DUPLICATE KEY UPDATE lst = VALUES(lst), ndvi = VALUES(ndvi)]. *)
Fixpoint upsert (location_id : Z) (date lst_value ndvi_value : value)
    (rows : list observation_row) : list observation_row :=
  match rows with
  | [] =>
      [ {| row_location_id := location_id; row_observation_date := date;
           row_lst := lst_value; row_ndvi := ndvi_value |} ]
  | r :: rows' =>
      if same_key location_id date r
      then {| row_location_id := row_location_id r;
              row_observation_date := row_observation_date r;
              row_lst := lst_value; row_ndvi := ndvi_value |} :: rows'
      else r :: upsert location_id date lst_value ndvi_value rows'
  end.

(** The affected-row count only selects a console message, so it is left out.
    A failed statement or commit is rolled back to the committed state. *)
Definition insert_observation (w : World) (conn : connection) (location_id : Z)
    (observation : Observation) : bool * connection * World :=
  let rolled_back := {| tx_observations := observations (db w) |} in
  match execute_error w with
  | Some _ => (false, rolled_back, w)
  | None =>
      let rows := upsert location_id (observation_date observation)
                         (lst observation) (ndvi observation) (tx_observations conn) in
      match commit_error w with
      | Some _ => (false, rolled_back, w)
      | None =>
          (true, {| tx_observations := rows |},
           set_db w {| locations := locations (db w); observations := rows |})
      end
  end.

(** ** save_to_csv_backup (lines 221-254) *)

Definition fieldnames : list string :=
  ["location_id"; "observation_date"; "lst"; "ndvi"; "error"].

Definition backup_file (w : World) : string :=
  String.append "backup_" (String.append (now_stamp w) ".csv").

Definition save_to_csv_backup (w : World) (observation : Observation)
    (location_id : Z) (error_message : option string) : World :=
  let file_exists := lookup (backup_file w) (backup_dir w) in
  let before :=
    match file_exists with
    | Some lines => lines
    | None => [Header fieldnames]
    end in
  let row :=
    Line location_id (observation_date observation) (lst observation)
         (ndvi observation)
         match error_message with Some m => m | None => "" end in
  set_backup_dir w (update (backup_file w) (before ++ [row]) (backup_dir w)).

(** ** verify_location_exists (lines 257-283) *)

Definition verify_location_exists (w : World) (conn : connection) (location_id : Z)
  : bool :=
  match select_error w with
  | Some _ => false
  | None => existsb (fun l => Z.eqb (loc_id l) location_id) (locations (db w))
  end.

(** ** main (lines 286-374) *)

(** [str(n)] for an int. *)
Definition str_of_int (n : Z) : string := DecimalString.NilZero.string_of_int (Z.to_int n).

Definition unknown_location_message (location_id : Z) : string :=
  String.append "観測地点ID="
    (String.append (str_of_int location_id) " が存在しません").

(** The exit status and the world the run leaves. *)
Definition main (args : Args) (w : World) : Z * World :=
  match load_json_data w (input args) with
  | Raise _ | Return _ => (1%Z, w)
  | Ok json_data =>
      match extract_observation_data json_data with
      | Raise _ | Return _ => (1%Z, w)
      | Ok observation =>
          if backup_only args
          then (0%Z, save_to_csv_backup w observation (location_id args) None)
          else
            match get_mysql_config w with
            | Raise _ | Return _ => (1%Z, w)
            | Ok _ =>
                if negb (PYMYSQL_AVAILABLE w)
                then (1%Z, save_to_csv_backup w observation (location_id args)
                                              (Some "pymysql未インストール"))
                else
                  match connect_to_mysql w with
                  | (Raise e, w) =>
                      (1%Z, save_to_csv_backup w observation (location_id args)
                                              (Some (str_of_exn e)))
                  | (Return _, w) => (1%Z, w)
                  | (Ok conn, w) =>
                      if negb (verify_location_exists w conn (location_id args))
                      then (1%Z, save_to_csv_backup w observation (location_id args)
                              (Some (unknown_location_message (location_id args))))
                      else
                        let '(success, _, w) :=
                          insert_observation w conn (location_id args) observation in
                        if success then (0%Z, w)
                        else (1%Z, save_to_csv_backup w observation (location_id args)
                                (Some "データ挿入に失敗しました"))
                  end
            end
      end
  end.

(** ** Notions the claims are stated with *)

(** The rows of the table under one key. *)
Definition rows_of (location_id : Z) (date : string) (rows : list observation_row)
  : list observation_row :=
  filter (same_key location_id (VStr date)) rows.

(** The table's unique key: no key has two rows. *)
Definition unique_key (rows : list observation_row) : Prop :=
  forall location_id date, length (rows_of location_id date rows) <= 1.

(** What the run's backup file holds before a row is appended: its lines if
    it exists, the header if it is about to be created. *)
Definition backup_before (w : World) : list csv_line :=
  match lookup (backup_file w) (backup_dir w) with
  | Some lines => lines
  | None => [Header fieldnames]
  end.

(** From [w] to [w'] exactly one line went to the run's backup file, and no
    other backup file changed. *)
Definition appended (w w' : World) (line : csv_line) : Prop :=
  lookup (backup_file w) (backup_dir w') = Some (backup_before w ++ [line]) /\
  forall f, f <> backup_file w -> lookup f (backup_dir w') = lookup f (backup_dir w).

(** ** Notions the further facts are stated with *)

(** The store accepts the run's row: the driver is present, the connection
    opens, the location is found and neither the statement nor the commit
    fails. *)
Definition store_accepts (args : Args) (w : World) : Prop :=
  PYMYSQL_AVAILABLE w = true /\ connect_error w = None /\ select_error w = None /\
  existsb (fun l => Z.eqb (loc_id l) (location_id args)) (locations (db w)) = true /\
  execute_error w = None /\ commit_error w = None.

(** What the run writes beside a failed upload (lines 336, 360). *)
Definition failure_cause (args : Args) (w : World) : string :=
  if negb (PYMYSQL_AVAILABLE w) then "pymysql未インストール"
  else
    match connect_error w with
    | Some msg => msg
    | None =>
        if verify_location_exists w {| tx_observations := observations (db w) |}
             (location_id args)
        then "データ挿入に失敗しました"
        else unknown_location_message (location_id args)
    end.

(** The world a successful upload leaves. *)
Definition uploaded (args : Args) (w : World) (o : Observation) : World :=
  set_db (count_connect w)
    {| locations := locations (db w);
       observations :=
         upsert (location_id args) (observation_date o) (lst o) (ndvi o)
                (observations (db w)) |}.

(** A backup file as the script leaves it: the header, then data lines only. *)
Definition backup_well_formed (lines : list csv_line) : Prop :=
  exists rows,
    lines = Header fieldnames :: rows /\
    Forall (fun l => match l with Line _ _ _ _ _ => True | Header _ => False end) rows.

End Upload.

(* ================================================================== *)
(** * The document between collector and ingestor *)
(* ================================================================== *)

(** The ObservationRecord as the specification's interface section describes
    it, and its serialized form as the ingestor reads it back. *)
Module Document.
Import Py.

Record PixelLocation : Type := {
  row : Z; col : Z; latitude : float; longitude : float
}.

Record WindowStatistics : Type := {
  mean : float; std : float; min : float; max : float;
  mean_celsius : option float
}.

Record Payload : Type := {
  dataset : string;
  pixel_value : float;
  pixel_value_celsius : option float;
  pixel_location : PixelLocation;
  window_statistics : option WindowStatistics
}.

(** A product's entry: a success payload, or [{"error": string}]. *)
Inductive ProductResult : Type :=
| Success (p : Payload)
| Failure (error : string).

Record ObservationRecord : Type := {
  location_latitude : float;
  location_longitude : float;
  location_name : string;
  observation_date : string;
  processing_time : string;
  data_source : string;
  lst : ProductResult;
  ndvi : ProductResult
}.

Definition optional (k : string) (v : option float) : dict :=
  match v with Some x => [(k, VFloat x)] | None => [] end.

Definition statistics_to_json (s : option WindowStatistics) : value :=
  match s with
  | Some s =>
      VDict ([ ("mean", VFloat (mean s)); ("std", VFloat (std s));
               ("min", VFloat (min s)); ("max", VFloat (max s)) ]
             ++ optional "mean_celsius" (mean_celsius s))
  | None => VNone
  end.

Definition product_to_json (p : ProductResult) : value :=
  match p with
  | Success p =>
      VDict ([ ("dataset", VStr (dataset p));
               ("pixel_value", VFloat (pixel_value p));
               ("pixel_location",
                  VDict [ ("row", VInt (row (pixel_location p)));
                          ("col", VInt (col (pixel_location p)));
                          ("latitude", VFloat (latitude (pixel_location p)));
                          ("longitude", VFloat (longitude (pixel_location p))) ]);
               ("window_statistics", statistics_to_json (window_statistics p)) ]
             ++ optional "pixel_value_celsius" (pixel_value_celsius p))
  | Failure e => VDict [("error", VStr e)]
  end.

Definition to_json (r : ObservationRecord) : value :=
  VDict [ ("location",
             VDict [ ("latitude", VFloat (location_latitude r));
                     ("longitude", VFloat (location_longitude r));
                     ("name", VStr (location_name r)) ]);
          ("observation_date", VStr (observation_date r));
          ("processing_time", VStr (processing_time r));
          ("data_source", VStr (data_source r));
          ("observations",
             VDict [ ("lst", product_to_json (lst r));
                     ("ndvi", product_to_json (ndvi r)) ]) ].

(** "Rounded to [ndigits] decimal places", in the specification's words, for
    a binary64 [x] and its rounded value [y].  A finite non-zero [x] is
    [+-num / den] exactly once scaled by [10^ndigits]; [y] is the binary64
    nearest to [+-k / 10^ndigits], for an integer [k] at distance at most 1/2
    from the scaled [|x|], the even one when two integers are equally near.
    A zero, an infinity and NaN are their own rounded values. *)
Definition rounded_to (ndigits : nat) (x y : float) : Prop :=
  match Prim2SF x with
  | S754_finite s m e =>
      let num := (Z.pos m * 2 ^ Z.max e 0 * 10 ^ Z.of_nat ndigits)%Z in
      let den := (2 ^ Z.max (- e) 0)%Z in
      exists k : Z,
        (0 <= k)%Z /\
        (Z.abs (2 * num - 2 * k * den) <= den)%Z /\
        (Z.abs (2 * num - 2 * k * den) = den -> Z.even k = true) /\
        y = match k with
            | Z.pos k' =>
                SF2Prim (SF64div (S754_finite s k' 0)
                           (S754_finite false (Z.to_pos (10 ^ Z.of_nat ndigits)) 0))
            | _ => if s then (-0)%float else 0%float
            end
  | _ => y = x
  end.

(** The values the ingestor stores for a record: each product's value
    rounded, or [None] for a product that failed. *)
Definition stored_lst (r : ObservationRecord) : value :=
  match lst r with
  | Success p =>
      match pixel_value_celsius p with
      | Some c => VFloat (Upload.round c 2)
      | None => VNone
      end
  | Failure _ => VNone
  end.

Definition stored_ndvi (r : ObservationRecord) : value :=
  match ndvi r with
  | Success p => VFloat (Upload.round (pixel_value p) 3)
  | Failure _ => VNone
  end.

End Document.

(* ================================================================== *)
(** * Example worlds *)
(* ================================================================== *)

Module Examples.
Import Py Collect.

(** A one-row file: latitudes 0, longitudes 0, 1, 2, and the given data. *)
Definition row_file (name : string) (data : list float) : hdf5 :=
  [ ("Geometry_data/Latitude", [[0; 0; 0]]%float);
    ("Geometry_data/Longitude", [[0; 1; 2]]%float);
    (String.append "Image_data/" name, [data]) ].

(** A one-cell file. *)
Definition cell_file (name : string) (x : float) : hdf5 :=
  [ ("Geometry_data/Latitude", [[0]]%float);
    ("Geometry_data/Longitude", [[0]]%float);
    (String.append "Image_data/" name, [[x]]) ].

Definition scratch (f : hdf5) : State :=
  {| fs := [("data/temp/a.h5", Hdf5 f)]; calls := []; draws := 0 |}.

Definition empty_scratch : State := {| fs := []; calls := []; draws := 0 |}.

(** Every library present, no credentials, a service that finds nothing. *)
Definition env_no_credentials : Env :=
  {| NUMPY_AVAILABLE := true; H5PY_AVAILABLE := true; GPORTAL_AVAILABLE := true;
     environ := fun _ => None;
     gportal_service := fun _ _ _ => NoProducts;
     temp_writable := true;
     standard_normal := fun _ k => (if Nat.even k then 0.5 else -1.25)%float;
     now_isoformat := "2026-01-08T12:00:00" |}.

(** Credentials set, and a service that delivers a small file. *)
Definition env_remote : Env :=
  {| NUMPY_AVAILABLE := true; H5PY_AVAILABLE := true; GPORTAL_AVAILABLE := true;
     environ := fun k => Some "secret";
     gportal_service := fun product _ _ =>
       Downloaded (String.append "data/temp/" product)
                  (Some (Hdf5 (row_file product [290.5; 291.0; 291.5]%float)));
     temp_writable := true;
     standard_normal := fun _ _ => 0%float;
     now_isoformat := "2026-01-08T12:00:00" |}.

(** The client library missing. *)
Definition env_no_client : Env :=
  {| NUMPY_AVAILABLE := true; H5PY_AVAILABLE := true; GPORTAL_AVAILABLE := false;
     environ := fun _ => None;
     gportal_service := fun _ _ _ => NoProducts;
     temp_writable := true;
     standard_normal := fun _ k => (if Nat.even k then 0.5 else -1.25)%float;
     now_isoformat := "2026-01-08T12:00:00" |}.

(** A one-row file with the given coordinates and data. *)
Definition strip_file (name : string) (lat lon data : list float) : hdf5 :=
  [ ("Geometry_data/Latitude", [lat]);
    ("Geometry_data/Longitude", [lon]);
    (String.append "Image_data/" name, [data]) ].

(** The match of the query (0, 1) in a one-row file. *)
Definition row_match (data : list float) (x : float) : pixel_match :=
  {| m_data := [data];
     m_lat_grid := [[0; 0; 0]]%float;
     m_lon_grid := [[0; 1; 2]]%float;
     m_distances := [[1; 0; 1]]%float;
     m_idx := (0, 1);
     m_pixel_value := x |}.

(** The match of the query (0, 0) in a one-cell file. *)
Definition cell_match (x : float) : pixel_match :=
  {| m_data := [[x]];
     m_lat_grid := [[0]]%float;
     m_lon_grid := [[0]]%float;
     m_distances := [[0]]%float;
     m_idx := (0, 0);
     m_pixel_value := x |}.

Definition entries (v : value) : dict :=
  match v with VDict d => d | _ => [] end.

(** The window statistic [k] of an extraction result. *)
Definition statistic (v : value) (k : string) : option value :=
  match v with
  | VDict r =>
      match dict_get "window_statistics" r with
      | Some (VDict stats) => dict_get k stats
      | _ => None
      end
  | _ => None
  end.

End Examples.

Module UploadExamples.
Import Py Upload.

(** A record with both products extracted. *)
Definition example_record : Document.ObservationRecord :=
  {| Document.location_latitude := 32.8032;
     Document.location_longitude := 130.7075;
     Document.location_name := "Observation Point";
     Document.observation_date := "2026-01-08";
     Document.processing_time := "2026-01-08T12:00:00";
     Document.data_source := "mock";
     Document.lst := Document.Success
       {| Document.dataset := "LST";
          Document.pixel_value := 291.0;
          Document.pixel_value_celsius := Some 17.850000000000023%float;
          Document.pixel_location :=
            {| Document.row := 49; Document.col := 49;
               Document.latitude := 32.798149494949492;
               Document.longitude := 130.70244949494952 |};
          Document.window_statistics := None |};
     Document.ndvi := Document.Success
       {| Document.dataset := "NDVI";
          Document.pixel_value := 0.65432;
          Document.pixel_value_celsius := None;
          Document.pixel_location :=
            {| Document.row := 49; Document.col := 49;
               Document.latitude := 32.798149494949492;
               Document.longitude := 130.70244949494952 |};
          Document.window_statistics := None |} |}.

Definition example_observation : Observation :=
  {| observation_date := VStr "2026-01-08";
     lst := VFloat 17.85; ndvi := VFloat 0.654 |}.

Definition earlier_observation : Observation :=
  {| observation_date := VStr "2026-01-08";
     lst := VFloat 16.2; ndvi := VNone |}.

(** A reachable store that knows location 1 and holds one older row. *)
Definition world_store : World :=
  {| PYMYSQL_AVAILABLE := true;
     json_files := [("data.json", Some (Document.to_json example_record))];
     MYSQL_PORT := PortUnset;
     connect_error := None; select_error := None;
     execute_error := None; commit_error := None;
     db := {| locations := [ {| loc_id := 1; loc_name := "Kumamoto" |} ];
              observations :=
                [ {| row_location_id := 1; row_observation_date := VStr "2026-01-07";
                     row_lst := VFloat 15.5; row_ndvi := VFloat 0.7 |} ] |};
     backup_dir := [];
     now_stamp := "20260108_120000";
     connects := 0 |}.

(** The same world after a backup written within the same second. *)
Definition world_with_backup : World :=
  set_backup_dir world_store
    [ ("backup_20260108_120000.csv",
       [ Header fieldnames;
         Line 7 (VStr "2026-01-08") (VFloat 12.5) (VFloat 0.5) "" ]) ].

Definition args_backup_only : Args :=
  {| input := "data.json"; location_id := 1; backup_only := true |}.

Definition args_unknown_location : Args :=
  {| input := "data.json"; location_id := 99; backup_only := false |}.

Definition connection0 : connection :=
  {| tx_observations := observations (db world_store) |}.

(** A record whose two acquisitions failed, and a store that holds values
    for its date. *)
Definition failed_record : Document.ObservationRecord :=
  {| Document.location_latitude := 32.8032;
     Document.location_longitude := 130.7075;
     Document.location_name := "Observation Point";
     Document.observation_date := "2026-01-08";
     Document.processing_time := "2026-01-09T12:00:00";
     Document.data_source := "gportal";
     Document.lst := Document.Failure "ファイル取得失敗";
     Document.ndvi := Document.Failure "ファイル取得失敗" |}.

Definition world_with_values : World :=
  {| PYMYSQL_AVAILABLE := true;
     json_files := [("failed.json", Some (Document.to_json failed_record))];
     MYSQL_PORT := PortUnset;
     connect_error := None; select_error := None;
     execute_error := None; commit_error := None;
     db := {| locations := [ {| loc_id := 1; loc_name := "Kumamoto" |} ];
              observations :=
                [ {| row_location_id := 1; row_observation_date := VStr "2026-01-08";
                     row_lst := VFloat 17.85; row_ndvi := VFloat 0.654 |} ] |};
     backup_dir := [];
     now_stamp := "20260109_120000";
     connects := 0 |}.

(** A store whose INSERT statement fails. *)
Definition world_failing_insert : World :=
  {| PYMYSQL_AVAILABLE := true;
     json_files := [("data.json", Some (Document.to_json example_record))];
     MYSQL_PORT := PortNumber 3307;
     connect_error := None; select_error := None;
     execute_error := Some "Deadlock found when trying to get lock";
     commit_error := None;
     db := db world_store;
     backup_dir := [];
     now_stamp := "20260108_120000";
     connects := 0 |}.

End UploadExamples.

(* ================================================================== *)
(** * Facts about binary64 order *)
(* ================================================================== *)

Module F64Facts.
Import F64.
Local Open Scope float_scope.

Lemma SFcompare_key x y :
  SFcompare x y =
  match key x, key y with
  | Some a, Some b => Some (lex_cmp a b)
  | _, _ => None
  end.
Proof.
  destruct x as [[|]|[|]| |[|] m1 e1], y as [[|]|[|]| |[|] m2 e2]; cbn; try reflexivity.
  rewrite Z.compare_opp, (Z.compare_antisym e1 e2).
  destruct (e1 ?= e2)%Z; reflexivity.
Qed.

Lemma lex_cmp_Lt a b : lex_cmp a b = Lt <-> lex_lt a b.
Proof.
  destruct a as [[a1 a2] a3], b as [[b1 b2] b3]; unfold lex_cmp, lex_lt; cbn.
  destruct (Z.compare_spec a1 b1); [destruct (Z.compare_spec a2 b2);
    [destruct (Z.compare_spec a3 b3)|..]|..]; split; intros; try discriminate; try lia; reflexivity.
Qed.

Lemma lex_cmp_Eq a b : lex_cmp a b = Eq <-> a = b.
Proof.
  destruct a as [[a1 a2] a3], b as [[b1 b2] b3]; unfold lex_cmp; cbn.
  destruct (Z.compare_spec a1 b1); [destruct (Z.compare_spec a2 b2);
    [destruct (Z.compare_spec a3 b3)|..]|..]; split; intros E; try discriminate;
    try (injection E; lia); subst; reflexivity.
Qed.

Lemma is_nan_key x : is_nan x = true <-> key (Prim2SF x) = None.
Proof.
  unfold is_nan. rewrite eqb_spec. unfold SFeqb. rewrite SFcompare_key.
  destruct (key (Prim2SF x)) as [a|]; cbn.
  - assert (E : lex_cmp a a = Eq) by (apply lex_cmp_Eq; reflexivity).
    rewrite E. split; discriminate.
  - split; reflexivity.
Qed.

Ltac nan_cases Hx Hy :=
  try (exfalso; (destruct Hx as [Hx _]; now specialize (Hx eq_refl)) ||
                (destruct Hy as [Hy _]; now specialize (Hy eq_refl)) ||
                (destruct Hx as [_ Hx]; now specialize (Hx eq_refl)) ||
                (destruct Hy as [_ Hy]; now specialize (Hy eq_refl)));
  try (split; [discriminate | intros (A & B & C); discriminate]).

Lemma ltb_val x y :
  (x <? y) = true <-> is_nan x = false /\ is_nan y = false /\ lex_lt (val x) (val y).
Proof.
  rewrite ltb_spec. unfold SFltb. rewrite SFcompare_key. unfold val.
  pose proof (is_nan_key x) as Hx. pose proof (is_nan_key y) as Hy.
  destruct (key (Prim2SF x)) as [a|], (key (Prim2SF y)) as [b|];
    destruct (is_nan x), (is_nan y); nan_cases Hx Hy.
  rewrite <- lex_cmp_Lt. destruct (lex_cmp a b); split; try discriminate; try tauto.
  all: intros (_ & _ & C); discriminate.
Qed.

Lemma leb_val x y :
  (x <=? y) = true <->
  is_nan x = false /\ is_nan y = false /\ (lex_lt (val x) (val y) \/ val x = val y).
Proof.
  rewrite leb_spec. unfold SFleb. rewrite SFcompare_key. unfold val.
  pose proof (is_nan_key x) as Hx. pose proof (is_nan_key y) as Hy.
  destruct (key (Prim2SF x)) as [a|], (key (Prim2SF y)) as [b|];
    destruct (is_nan x), (is_nan y); nan_cases Hx Hy.
  rewrite <- lex_cmp_Lt, <- lex_cmp_Eq.
  destruct (lex_cmp a b); split; try discriminate; try tauto.
  intros (_ & _ & [C|C]); discriminate.
Qed.

(** Boolean forms, for case analysis on a comparison the code makes. *)
Lemma ltb_false_val x y :
  (x <? y) = false -> is_nan x = false -> is_nan y = false ->
  lex_lt (val y) (val x) \/ val x = val y.
Proof.
  intros H Hx Hy.
  destruct (val x) as [[a1 a2] a3] eqn:Ex, (val y) as [[b1 b2] b3] eqn:Ey.
  assert (N : ~ lex_lt (val x) (val y)).
  { intro L. assert (T : (x <? y) = true) by (apply ltb_val; auto). congruence. }
  rewrite Ex, Ey in N. unfold lex_lt in *; cbn in *.
  destruct (Z.eq_dec a1 b1), (Z.eq_dec a2 b2), (Z.eq_dec a3 b3); subst;
    try (right; reflexivity); left; lia.
Qed.

Lemma leb_false_val x y :
  (x <=? y) = false -> is_nan x = false -> is_nan y = false -> lex_lt (val y) (val x).
Proof.
  intros H Hx Hy.
  destruct (val x) as [[a1 a2] a3] eqn:Ex, (val y) as [[b1 b2] b3] eqn:Ey.
  assert (N : ~ (lex_lt (val x) (val y) \/ val x = val y)).
  { intro L. assert (T : (x <=? y) = true) by (apply leb_val; auto). congruence. }
  rewrite Ex, Ey in N. unfold lex_lt in *; cbn in *.
  destruct (Z.eq_dec a1 b1), (Z.eq_dec a2 b2), (Z.eq_dec a3 b3); subst;
    try (exfalso; apply N; right; reflexivity); lia.
Qed.

Lemma leb_refl x : is_nan x = false -> (x <=? x) = true.
Proof. intros H. apply leb_val. auto. Qed.

Lemma leb_trans x y z : (x <=? y) = true -> (y <=? z) = true -> (x <=? z) = true.
Proof.
  rewrite !leb_val. intros (Hx & Hy & A) (_ & Hz & B). repeat split; auto.
  destruct (val x) as [[a1 a2] a3], (val y) as [[b1 b2] b3], (val z) as [[c1 c2] c3].
  unfold lex_lt in *; cbn in *.
  destruct A as [A|A], B as [B|B]; try (injection A as -> -> ->);
    try (injection B as -> -> ->); try (left; lia); right; reflexivity.
Qed.

(** The result of a rounding step keeps the sign it was given. *)
Lemma binary_round_aux_sign prec emax s m e l :
  match binary_round_aux prec emax s m e l with
  | S754_zero s' | S754_infinity s' | S754_finite s' _ _ => s' = s
  | S754_nan => True
  end.
Proof.
  unfold binary_round_aux.
  destruct (shr_fexp prec emax m e l) as [mrs' e'].
  destruct (shr_fexp prec emax _ e' loc_Exact) as [mrs'' e''].
  destruct (shr_m mrs''); auto.
  destruct (e'' <=? emax - prec)%Z; reflexivity.
Qed.

(** A square root is never negative: it is NaN, or at least zero. *)
Lemma sqrt_nonneg x : is_nan (sqrt x) = true \/ (0 <=? sqrt x) = true.
Proof.
  destruct (is_nan (sqrt x)) eqn:N; [left; reflexivity | right].
  apply leb_val. repeat split; auto.
  assert (K : key (Prim2SF (sqrt x)) <> None).
  { intro K. apply is_nan_key in K. congruence. }
  unfold val. rewrite sqrt_spec in *. change (Prim2SF 0) with (S754_zero false).
  unfold SF64sqrt, SFsqrt in *.
  destruct (Prim2SF x) as [s|[|]| |[|] m e]; cbn in *; try congruence;
    try (right; reflexivity).
  - left. unfold lex_lt; cbn. lia.
  - destruct (SFsqrt_core_binary prec emax (Z.pos m) e) as [[mz ez] lz].
    pose proof (binary_round_aux_sign prec emax false mz ez lz) as S.
    destruct (binary_round_aux prec emax false mz ez lz) as [s'|s'| |s' m' e'];
      cbn in *; try congruence; subst; cbn;
      try (right; reflexivity); left; unfold lex_lt; cbn; lia.
Qed.

Lemma leb_not_nan x y : (x <=? y) = true -> is_nan x = false /\ is_nan y = false.
Proof. rewrite leb_val. tauto. Qed.

Lemma ltb_not_nan x y : (x <? y) = true -> is_nan x = false /\ is_nan y = false.
Proof. rewrite ltb_val. tauto. Qed.

Lemma ltb_leb x y : (x <? y) = true -> (x <=? y) = true.
Proof. rewrite ltb_val, leb_val. tauto. Qed.

Lemma not_leb_ltb x y :
  (x <=? y) = false -> is_nan x = false -> is_nan y = false -> (y <? x) = true.
Proof. intros H Hx Hy. apply ltb_val. auto using leb_false_val. Qed.

Lemma not_ltb_leb x y :
  (x <? y) = false -> is_nan x = false -> is_nan y = false -> (y <=? x) = true.
Proof.
  intros H Hx Hy. apply leb_val. repeat split; auto.
  destruct (ltb_false_val x y H Hx Hy); auto.
Qed.

Lemma ltb_leb_trans x y z : (x <? y) = true -> (y <=? z) = true -> (x <? z) = true.
Proof.
  rewrite !ltb_val, leb_val. intros (Hx & Hy & A) (_ & Hz & B). repeat split; auto.
  destruct (val x) as [[a1 a2] a3], (val y) as [[b1 b2] b3], (val z) as [[c1 c2] c3].
  unfold lex_lt in *; cbn in *.
  destruct B as [B|B]; [lia | injection B as <- <- <-; lia].
Qed.

Lemma ltb_irrefl_leb x y : (x <? y) = true -> (y <=? x) = true -> False.
Proof.
  rewrite ltb_val, leb_val. intros (_ & _ & A) (_ & _ & B).
  destruct (val x) as [[a1 a2] a3], (val y) as [[b1 b2] b3].
  unfold lex_lt in *; cbn in *.
  destruct B as [B|B]; [lia | injection B as <- <- <-; lia].
Qed.

End F64Facts.

(* ================================================================== *)
(** * Facts about the numpy operations *)
(* ================================================================== *)

Module NpFacts.
Import F64 F64Facts Py Np.
Local Open Scope float_scope.
Local Open Scope nat_scope.

(** *** argmin *)

Definition no_nan (l : list float) : Prop := Forall (fun x => is_nan x = false) l.

(** [k] is the first position of a least element of [l]. *)
Definition first_least (l : list float) (k : nat) : Prop :=
  exists xk, nth_error l k = Some xk /\
    forall k' x', nth_error l k' = Some x' ->
      (xk <=? x')%float = true /\ (k' < k -> (xk <? x')%float = true).

Lemma argmin_loop_least ip : forall pre mp min_ind,
  no_nan (pre ++ ip) ->
  nth_error pre min_ind = Some mp ->
  (forall k' x', nth_error pre k' = Some x' ->
     (mp <=? x')%float = true /\ (k' < min_ind -> (mp <? x')%float = true)) ->
  first_least (pre ++ ip) (argmin_loop ip (length pre) mp min_ind).
Proof.
  induction ip as [|x ip IH]; intros pre mp min_ind NN Hmp Hinv; cbn [argmin_loop].
  - rewrite app_nil_r. exists mp. split; auto.
  - assert (Nx : is_nan x = false).
    { unfold no_nan in NN. rewrite Forall_forall in NN. apply NN.
      apply in_or_app. right. left. reflexivity. }
    assert (Nm : is_nan mp = false).
    { unfold no_nan in NN. rewrite Forall_forall in NN. apply NN.
      apply in_or_app. left. eapply nth_error_In; eauto. }
    assert (Lm : min_ind < length pre) by (apply nth_error_Some; congruence).
    replace (pre ++ x :: ip) with ((pre ++ [x]) ++ ip) in * by (rewrite <- app_assoc; reflexivity).
    replace (S (length pre)) with (length (pre ++ [x])) by (rewrite length_app; cbn; lia).
    destruct (mp <=? x)%float eqn:E; cbn [negb].
    + apply IH; auto.
      * rewrite nth_error_app1; auto.
      * intros k' x' Hk'.
        destruct (Nat.lt_ge_cases k' (length pre)) as [L|L].
        -- rewrite nth_error_app1 in Hk' by auto. auto.
        -- rewrite nth_error_app2 in Hk' by auto.
           destruct (k' - length pre) as [|d] eqn:D; cbn in Hk'.
           ++ injection Hk' as <-. split; auto. intros; lia.
           ++ destruct d; discriminate.
    + rewrite Nx.
      assert (Lt : (x <? mp)%float = true) by (apply not_leb_ltb; auto).
      apply IH; auto.
      * rewrite nth_error_app2 by lia. rewrite Nat.sub_diag. reflexivity.
      * intros k' x' Hk'.
        destruct (Nat.lt_ge_cases k' (length pre)) as [L|L].
        -- rewrite nth_error_app1 in Hk' by auto.
           destruct (Hinv _ _ Hk') as [A _].
           assert (S : (x <? x')%float = true) by (eapply ltb_leb_trans; eauto).
           split; auto using ltb_leb.
        -- rewrite nth_error_app2 in Hk' by auto.
           destruct (k' - length pre) as [|d] eqn:D; cbn in Hk'.
           ++ injection Hk' as <-. split; [apply leb_refl; auto | intros; lia].
           ++ destruct d; discriminate.
Qed.

Lemma argmin_loop_lt ip : forall i mp min_ind,
  min_ind < i -> argmin_loop ip i mp min_ind < i + length ip.
Proof.
  induction ip as [|x ip IH]; intros i mp min_ind L; cbn [argmin_loop length].
  - lia.
  - destruct (negb (mp <=? x)%float).
    + destruct (is_nan x); [lia|].
      specialize (IH (S i) x i). lia.
    + specialize (IH (S i) mp min_ind). lia.
Qed.

Lemma argmin_flat_lt l k : argmin_flat l = Some k -> k < length l.
Proof.
  destruct l as [|x l]; cbn; [discriminate|].
  intros E. injection E as <-.
  destruct (is_nan x); [lia|].
  pose proof (argmin_loop_lt l 1 x 0). lia.
Qed.

Lemma argmin_flat_least l k : no_nan l -> argmin_flat l = Some k -> first_least l k.
Proof.
  destruct l as [|x l]; cbn; [discriminate|].
  intros NN E. injection E as <-.
  assert (Nx : is_nan x = false) by (inversion NN; auto).
  rewrite Nx.
  apply (argmin_loop_least l [x] x 0); auto.
  intros [|k'] x' H; cbn in H.
  - injection H as <-. split; [apply leb_refl; auto | lia].
  - destruct k'; discriminate.
Qed.

(** With a NaN among the cells, the scan stops at the first one. *)
Lemma argmin_loop_first_nan ip : forall i mp min_ind,
  Exists (fun x => is_nan x = true) ip ->
  i <= argmin_loop ip i mp min_ind /\
  (exists x, nth_error ip (argmin_loop ip i mp min_ind - i) = Some x /\ is_nan x = true) /\
  forall j x', j < argmin_loop ip i mp min_ind - i ->
               nth_error ip j = Some x' -> is_nan x' = false.
Proof.
  induction ip as [|x ip IH]; intros i mp min_ind Ex; [inversion Ex|].
  cbn [argmin_loop].
  destruct (is_nan x) eqn:Nx.
  - assert (E : (mp <=? x)%float = false).
    { destruct (mp <=? x)%float eqn:E; [|reflexivity].
      apply leb_not_nan in E. destruct E; congruence. }
    rewrite E. cbn [negb]. rewrite Nat.sub_diag. split; [lia|]. split.
    + exists x. auto.
    + intros j x' Hj. lia.
  - assert (Ex' : Exists (fun x => is_nan x = true) ip).
    { inversion Ex; subst; [congruence | assumption]. }
    assert (G : forall mp' m',
      S i <= argmin_loop ip (S i) mp' m' ->
      (exists x0, nth_error ip (argmin_loop ip (S i) mp' m' - S i) = Some x0 /\
                  is_nan x0 = true) ->
      (forall j x', j < argmin_loop ip (S i) mp' m' - S i ->
                    nth_error ip j = Some x' -> is_nan x' = false) ->
      i <= argmin_loop ip (S i) mp' m' /\
      (exists x0, nth_error (x :: ip) (argmin_loop ip (S i) mp' m' - i) = Some x0 /\
                  is_nan x0 = true) /\
      forall j x', j < argmin_loop ip (S i) mp' m' - i ->
                   nth_error (x :: ip) j = Some x' -> is_nan x' = false).
    { intros mp' m' A (x0 & B & C) D. split; [lia|]. split.
      - exists x0. split; auto.
        replace (argmin_loop ip (S i) mp' m' - i)
          with (S (argmin_loop ip (S i) mp' m' - S i)) by lia.
        exact B.
      - intros [|j] x' Hj Hx'; cbn in Hx'; [congruence|].
        apply (D j); auto. lia. }
    destruct (negb (mp <=? x)%float).
    + destruct (IH (S i) x i Ex') as (A & B & C). apply G; auto.
    + destruct (IH (S i) mp min_ind Ex') as (A & B & C). apply G; auto.
Qed.

Lemma argmin_flat_first_nan l k :
  argmin_flat l = Some k ->
  Exists (fun x => is_nan x = true) l ->
  (exists x, nth_error l k = Some x /\ is_nan x = true) /\
  forall k' x', k' < k -> nth_error l k' = Some x' -> is_nan x' = false.
Proof.
  destruct l as [|x l]; cbn [argmin_flat]; [discriminate|].
  intros E Ex. injection E as <-.
  destruct (is_nan x) eqn:Nx.
  - split; [exists x; auto | intros; lia].
  - assert (Ex' : Exists (fun x => is_nan x = true) l).
    { inversion Ex; subst; [congruence | assumption]. }
    destruct (argmin_loop_first_nan l 1 x 0 Ex') as (A & (x0 & B & C) & D).
    split.
    + exists x0. split; auto.
      replace (argmin_loop l 1 x 0) with (S (argmin_loop l 1 x 0 - 1)) by lia. exact B.
    + intros [|k'] x' Hk Hx'; cbn in Hx'; [congruence|].
      apply (D k'); auto. lia.
Qed.
(** *** Cells of an array and of its flattening *)

Lemma nth_error_nil_none {A} (n : nat) : nth_error (@nil A) n = None.
Proof. destruct n; reflexivity. Qed.

Lemma nth_error_concat {A} (a : list (list A)) (C : nat) :
  Forall (fun r => length r = C) a ->
  forall i j, j < C ->
  nth_error (concat a) (i * C + j) =
  match nth_error a i with Some r => nth_error r j | None => None end.
Proof.
  induction 1 as [|r a Hr Ha IH]; intros i j Hj.
  - cbn. rewrite !nth_error_nil_none. reflexivity.
  - destruct i as [|i]; cbn [concat nth_error].
    + cbn [Nat.mul Nat.add]. rewrite nth_error_app1 by lia. reflexivity.
    + rewrite nth_error_app2 by (cbn; lia).
      replace (S i * C + j - length r) with (i * C + j) by (cbn; lia).
      apply IH; auto.
Qed.

Lemma length_concat_rect {A} (a : list (list A)) (C : nat) :
  Forall (fun r => length r = C) a -> length (concat a) = length a * C.
Proof.
  induction 1 as [|r a Hr Ha IH]; cbn; [reflexivity|].
  rewrite length_app. lia.
Qed.

Lemma cell_ravel (a : ndarray) i j :
  rectangular a -> j < ncols a ->
  nth_error (ravel a) (i * ncols a + j) = cell a i j.
Proof. intros R L. unfold ravel, cell. apply nth_error_concat; auto. Qed.

Lemma cell_bounds (a : ndarray) i j x :
  rectangular a -> cell a i j = Some x -> i < nrows a /\ j < ncols a.
Proof.
  unfold cell, rectangular, nrows. intros R H.
  destruct (nth_error a i) as [r|] eqn:E; [|discriminate].
  split.
  - apply nth_error_Some. congruence.
  - rewrite Forall_forall in R. rewrite <- (R r) by (eapply nth_error_In; eauto).
    apply nth_error_Some. congruence.
Qed.

Lemma cell_defined (a : ndarray) i j :
  rectangular a -> i < nrows a -> j < ncols a -> exists x, cell a i j = Some x.
Proof.
  unfold cell, rectangular, nrows. intros R Hi Hj.
  destruct (nth_error a i) as [r|] eqn:E.
  - rewrite Forall_forall in R.
    assert (L : length r = ncols a) by (apply R; eapply nth_error_In; eauto).
    destruct (nth_error r j) eqn:E'; eauto.
    apply nth_error_None in E'. lia.
  - apply nth_error_None in E. lia.
Qed.

Lemma cell_map f (a : ndarray) i j :
  cell (map (map f) a) i j = option_map f (cell a i j).
Proof.
  unfold cell. rewrite nth_error_map.
  destruct (nth_error a i) as [r|]; cbn; [|reflexivity].
  apply nth_error_map.
Qed.

Lemma nth_error_zip_with {A B C} (f : A -> B -> C) l : forall l' k,
  nth_error (zip_with f l l') k =
  match nth_error l k, nth_error l' k with
  | Some x, Some y => Some (f x y)
  | _, _ => None
  end.
Proof.
  induction l as [|x l IH]; intros l' k.
  - cbn. rewrite !nth_error_nil_none. reflexivity.
  - destruct l' as [|y l'].
    + cbn. rewrite !nth_error_nil_none. destruct (nth_error (x :: l) k); reflexivity.
    + destruct k; cbn; [reflexivity | apply IH].
Qed.

Lemma length_zip_with {A B C} (f : A -> B -> C) l : forall l',
  length (zip_with f l l') = Nat.min (length l) (length l').
Proof.
  induction l as [|x l IH]; intros [|y l']; cbn; auto.
Qed.

(** *** Shapes through the cell-wise operations *)

Lemma nrows_map f (a : ndarray) : nrows (map (map f) a) = nrows a.
Proof. unfold nrows. apply length_map. Qed.

Lemma ncols_map f (a : ndarray) : ncols (map (map f) a) = ncols a.
Proof. unfold ncols. destruct a; cbn; [reflexivity | apply length_map]. Qed.

Lemma rectangular_map f (a : ndarray) : rectangular a -> rectangular (map (map f) a).
Proof.
  unfold rectangular. rewrite ncols_map. intros R.
  rewrite Forall_forall in *. intros r Hr.
  apply in_map_iff in Hr. destruct Hr as (r' & <- & Hr').
  rewrite length_map. auto.
Qed.

Lemma stretch_rows_same (C : nat) (a : ndarray) :
  Forall (fun r => length r = C) a -> map (stretch_row C) a = a.
Proof.
  induction 1 as [|r a' Hr Ha IH]; cbn [map]; [reflexivity|].
  f_equal; auto.
  unfold stretch_row. rewrite Hr, Nat.eqb_refl. reflexivity.
Qed.

Lemma stretch_same (a : ndarray) : rectangular a -> stretch (nrows a) (ncols a) a = a.
Proof.
  unfold stretch, rectangular. rewrite Nat.eqb_refl. apply stretch_rows_same.
Qed.

Lemma broadcast_dim_same n : broadcast_dim n n = Some n.
Proof. unfold broadcast_dim. rewrite Nat.eqb_refl. reflexivity. Qed.

Lemma add_same_shape (a b : ndarray) :
  rectangular a -> rectangular b -> shape a = shape b ->
  add a b = Ok (zip_with (zip_with PrimFloat.add) a b).
Proof.
  unfold shape. intros Ra Rb E. injection E as En Em.
  unfold add. rewrite <- En, <- Em, !broadcast_dim_same.
  rewrite stretch_same by auto. rewrite En, Em, stretch_same by auto. reflexivity.
Qed.

Lemma rows_zip_with (f : float -> float -> float) (C : nat) (a : ndarray) : forall b,
  Forall (fun r => length r = C) a -> Forall (fun r => length r = C) b ->
  Forall (fun r => length r = C) (zip_with (zip_with f) a b).
Proof.
  induction a as [|r a IH]; intros [|r' b] Ha Hb; cbn; auto.
  inversion Ha; inversion Hb; subst. constructor; auto.
  rewrite length_zip_with. lia.
Qed.

Lemma ncols_rows (C : nat) (a : ndarray) :
  Forall (fun r => length r = C) a -> a <> [] -> ncols a = C.
Proof. intros H N. destruct a; [congruence|]. inversion H; auto. Qed.

Lemma rows_rectangular (C : nat) (a : ndarray) :
  Forall (fun r => length r = C) a -> rectangular a.
Proof.
  intros H. unfold rectangular. destruct a as [|r a]; [constructor|].
  rewrite (ncols_rows C) by (auto; discriminate). exact H.
Qed.

(** *** Slices *)

Lemma nth_error_slice {A} (s e : Z) (l : list A) (k : nat) :
  (0 <= s)%Z ->
  nth_error (slice s e l) k =
  if (Z.of_nat k <? e - s)%Z then nth_error l (Z.to_nat s + k) else None.
Proof.
  intros Hs. unfold slice. rewrite nth_error_firstn, nth_error_skipn.
  destruct (Nat.ltb_spec k (Z.to_nat (e - s))), (Z.ltb_spec (Z.of_nat k) (e - s));
    try reflexivity; lia.
Qed.

Lemma In_slice {A} (s e : Z) (l : list A) (x : A) :
  (0 <= s)%Z ->
  In x (slice s e l) <->
  exists k, (s <= Z.of_nat k < e)%Z /\ nth_error l k = Some x.
Proof.
  intros Hs. split.
  - intros H. apply In_nth_error in H. destruct H as [k Hk].
    rewrite nth_error_slice in Hk by auto.
    destruct (Z.ltb_spec (Z.of_nat k) (e - s)); [|discriminate].
    exists (Z.to_nat s + k). split; [lia | auto].
  - intros (k & Hk & E).
    apply (nth_error_In _ (k - Z.to_nat s)).
    rewrite nth_error_slice by auto.
    destruct (Z.ltb_spec (Z.of_nat (k - Z.to_nat s)) (e - s)); [|lia].
    replace (Z.to_nat s + (k - Z.to_nat s)) with k by lia. auto.
Qed.

Lemma length_slice {A} (s e : Z) (l : list A) : length (slice s e l) <= Z.to_nat (e - s).
Proof. unfold slice. rewrite length_firstn. lia. Qed.

Lemma In_slice2 (a : ndarray) (i0 i1 j0 j1 : Z) (x : float) :
  (0 <= i0)%Z -> (0 <= j0)%Z ->
  In x (ravel (slice2 a i0 i1 j0 j1)) <->
  exists r c, (i0 <= Z.of_nat r < i1)%Z /\ (j0 <= Z.of_nat c < j1)%Z /\
              cell a r c = Some x.
Proof.
  intros Hi Hj. unfold ravel, slice2, cell. rewrite in_concat. split.
  - intros (row & Hrow & Hx).
    apply in_map_iff in Hrow. destruct Hrow as (row' & <- & Hrow').
    apply In_slice in Hrow'; auto. destruct Hrow' as (r & Hr & Er).
    apply In_slice in Hx; auto. destruct Hx as (c & Hc & Ec).
    exists r, c. rewrite Er. auto.
  - intros (r & c & Hr & Hc & E).
    destruct (nth_error a r) as [row|] eqn:Er; [|discriminate].
    exists (slice j0 j1 row). split.
    + apply in_map. apply In_slice; eauto.
    + apply In_slice; eauto.
Qed.

Lemma length_concat_le {A} (n : nat) (l : list (list A)) :
  Forall (fun r => length r <= n) l -> length (concat l) <= length l * n.
Proof.
  induction 1 as [|r l Hr Hl IH]; cbn; [lia|].
  rewrite length_app. lia.
Qed.

Lemma length_slice2 (a : ndarray) (i0 i1 j0 j1 : Z) :
  length (ravel (slice2 a i0 i1 j0 j1)) <= Z.to_nat (i1 - i0) * Z.to_nat (j1 - j0).
Proof.
  unfold ravel, slice2.
  etransitivity; [apply (length_concat_le (Z.to_nat (j1 - j0)))|].
  - apply Forall_forall. intros r Hr. apply in_map_iff in Hr.
    destruct Hr as (r' & <- & _). apply length_slice.
  - rewrite length_map. apply Nat.mul_le_mono_r. apply length_slice.
Qed.

(** *** Minimum and maximum of a list of numbers *)

Lemma minimum_cases a b :
  is_nan a = false -> is_nan b = false ->
  (minimum a b = a \/ minimum a b = b) /\
  (minimum a b <=? a)%float = true /\ (minimum a b <=? b)%float = true.
Proof.
  intros Na Nb. unfold minimum. rewrite Na, orb_false_r.
  destruct (a <=? b)%float eqn:E.
  - repeat split; auto using leb_refl.
  - repeat split; auto using leb_refl, ltb_leb, not_leb_ltb.
Qed.

Lemma maximum_cases a b :
  is_nan a = false -> is_nan b = false ->
  (maximum a b = a \/ maximum a b = b) /\
  (a <=? maximum a b)%float = true /\ (b <=? maximum a b)%float = true.
Proof.
  intros Na Nb. unfold maximum. rewrite Na, orb_false_r.
  destruct (b <=? a)%float eqn:E.
  - repeat split; auto using leb_refl.
  - repeat split; auto using leb_refl, ltb_leb, not_leb_ltb.
Qed.

Lemma fold_minimum_least l : forall x,
  no_nan (x :: l) ->
  In (fold_left minimum l x) (x :: l) /\
  forall y, In y (x :: l) -> (fold_left minimum l x <=? y)%float = true.
Proof.
  induction l as [|z l IH]; intros x NN.
  - cbn. split; auto. intros y [<-|[]]. apply leb_refl. inversion NN; auto.
  - assert (Nx : is_nan x = false) by (inversion NN; auto).
    assert (Nz : is_nan z = false) by (inversion NN as [|? ? ? T]; inversion T; auto).
    destruct (minimum_cases x z Nx Nz) as (C & Lx & Lz).
    cbn [fold_left].
    destruct (IH (minimum x z)) as (I & L).
    { inversion NN as [|? ? ? T]; inversion T; subst.
      constructor; auto. destruct C as [-> | ->]; auto. }
    split.
    + destruct I as [I|I]; [|right; right; exact I].
      rewrite <- I. destruct C as [-> | ->]; [left | right; left]; reflexivity.
    + intros y [<-|[<-|Hy]].
      * eapply leb_trans; [apply L; left; reflexivity | exact Lx].
      * eapply leb_trans; [apply L; left; reflexivity | exact Lz].
      * apply L. right. exact Hy.
Qed.

Lemma fold_maximum_greatest l : forall x,
  no_nan (x :: l) ->
  In (fold_left maximum l x) (x :: l) /\
  forall y, In y (x :: l) -> (y <=? fold_left maximum l x)%float = true.
Proof.
  induction l as [|z l IH]; intros x NN.
  - cbn. split; auto. intros y [<-|[]]. apply leb_refl. inversion NN; auto.
  - assert (Nx : is_nan x = false) by (inversion NN; auto).
    assert (Nz : is_nan z = false) by (inversion NN as [|? ? ? T]; inversion T; auto).
    destruct (maximum_cases x z Nx Nz) as (C & Lx & Lz).
    cbn [fold_left].
    destruct (IH (maximum x z)) as (I & L).
    { inversion NN as [|? ? ? T]; inversion T; subst.
      constructor; auto. destruct C as [-> | ->]; auto. }
    split.
    + destruct I as [I|I]; [|right; right; exact I].
      rewrite <- I. destruct C as [-> | ->]; [left | right; left]; reflexivity.
    + intros y [<-|[<-|Hy]].
      * eapply leb_trans; [exact Lx | apply L; left; reflexivity].
      * eapply leb_trans; [exact Lz | apply L; left; reflexivity].
      * apply L. right. exact Hy.
Qed.

Lemma amin_least l :
  no_nan l -> l <> [] ->
  In (amin l) l /\ forall y, In y l -> (amin l <=? y)%float = true.
Proof. destruct l; [congruence|]. intros NN _. apply fold_minimum_least; auto. Qed.

Lemma amax_greatest l :
  no_nan l -> l <> [] ->
  In (amax l) l /\ forall y, In y l -> (y <=? amax l)%float = true.
Proof. destruct l; [congruence|]. intros NN _. apply fold_maximum_greatest; auto. Qed.

Lemma drop_nan_no_nan (a : ndarray) : no_nan (drop_nan a).
Proof.
  unfold no_nan, drop_nan. apply Forall_forall. intros x H.
  apply filter_In in H. destruct H as [_ H]. destruct (is_nan x); [discriminate | reflexivity].
Qed.
End NpFacts.

(* ================================================================== *)
(** * Facts about collect_data.py *)
(* ================================================================== *)

Module CollectFacts.
Import F64 F64Facts Py Np NpFacts Collect.

(** *** What a successful [locate] went through *)

Lemma locate_inv st path lat lon name m :
  locate st path lat lon name = Ok m ->
  exists f k,
    fs_get path (fs st) = Some (Hdf5 f) /\
    hdf5_get (String.append "Image_data/" name) f = Some (m_data m) /\
    hdf5_get "Geometry_data/Latitude" f = Some (m_lat_grid m) /\
    hdf5_get "Geometry_data/Longitude" f = Some (m_lon_grid m) /\
    distance_grid (m_lat_grid m) (m_lon_grid m) lat lon = Ok (m_distances m) /\
    argmin_flat (ravel (m_distances m)) = Some k /\
    m_idx m = unravel_index k (shape (m_distances m)) /\
    cell (m_data m) (fst (m_idx m)) (snd (m_idx m)) = Some (m_pixel_value m).
Proof.
  unfold locate, open_hdf5, dataset, Np.argmin, Np.getitem.
  destruct (fs_get path (fs st)) as [[f|]|] eqn:Ef; cbn [bind]; try discriminate.
  destruct (hdf5_get (String.append "Image_data/" name) f) as [data|] eqn:E1; [|discriminate].
  destruct (hdf5_get "Geometry_data/Latitude" f) as [la|] eqn:E2; cbn [bind]; [|discriminate].
  destruct (hdf5_get "Geometry_data/Longitude" f) as [lo|] eqn:E3; cbn [bind]; [|discriminate].
  destruct (distance_grid la lo lat lon) as [d| |] eqn:Ed; cbn [bind]; try discriminate.
  destruct (argmin_flat (ravel d)) as [k|] eqn:Ek; cbn [bind]; [|discriminate].
  destruct (cell data (fst (unravel_index k (shape d))) (snd (unravel_index k (shape d))))
    as [pv|] eqn:Ec; cbn [bind]; [|discriminate].
  intros E. injection E as <-. cbn.
  exists f, k. repeat split; auto.
Qed.

(** *** The fields of a built result *)

Lemma build_result_fields name m v :
  build_result name m = Ok v ->
  exists r,
    v = VDict r /\
    dict_in "error" r = false /\
    dict_get "dataset" r = Some (VStr name) /\
    dict_get "pixel_value" r = Some (VFloat (m_pixel_value m)) /\
    dict_get "window_statistics" r =
      Some (window_stats name (window_data_clean (m_data m) (m_idx m))) /\
    dict_get "pixel_value_celsius" r =
      (if String.eqb name "LST"
       then Some (VFloat (m_pixel_value m - 273.15)%float) else None) /\
    exists la lo,
      cell (m_lat_grid m) (fst (m_idx m)) (snd (m_idx m)) = Some la /\
      cell (m_lon_grid m) (fst (m_idx m)) (snd (m_idx m)) = Some lo /\
      dict_get "pixel_location" r =
        Some (VDict [ ("row", VInt (Z.of_nat (fst (m_idx m))));
                      ("col", VInt (Z.of_nat (snd (m_idx m))));
                      ("latitude", VFloat la); ("longitude", VFloat lo) ]).
Proof.
  unfold build_result, Np.getitem.
  destruct (m_idx m) as [i j] eqn:Ei. cbn [fst snd].
  destruct (cell (m_lat_grid m) i j) as [la|]; cbn [bind]; [|discriminate].
  destruct (cell (m_lon_grid m) i j) as [lo|]; cbn [bind]; [|discriminate].
  destruct (String.eqb name "LST"); intros E; injection E as <-;
    eexists; (split; [reflexivity|]); cbn; repeat split; eauto.
Qed.

(** An extraction either reports one error, or is the result built from the
    located pixel. *)
Lemma extract_pixel_value_cases env st path lat lon name :
  (exists msg, extract_pixel_value env st path lat lon name = VDict [("error", VStr msg)]) \/
  (exists m r, locate st path lat lon name = Ok m /\
               build_result name m = Ok (VDict r) /\
               extract_pixel_value env st path lat lon name = VDict r).
Proof.
  unfold extract_pixel_value, extract_body.
  destruct (orb _ _); [left; eauto|].
  destruct (locate st path lat lon name) as [m|v|e] eqn:El; cbn [bind].
  - destruct (build_result name m) as [v| |e] eqn:Eb.
    + destruct (build_result_fields _ _ _ Eb) as (r & -> & _). right. eauto.
    + exfalso. revert Eb. unfold build_result, Np.getitem.
      destruct (m_idx m); destruct (cell _ _ _); cbn [bind]; try discriminate;
        destruct (cell _ _ _); cbn [bind]; try discriminate;
        destruct (String.eqb name "LST"); try discriminate.
    + left. eauto.
  - left. revert El. unfold locate, open_hdf5, dataset, Np.argmin, Np.getitem.
    destruct (fs_get path (fs st)) as [[f|]|]; cbn [bind]; try discriminate.
    destruct (hdf5_get (String.append "Image_data/" name) f) as [data|].
    + destruct (hdf5_get "Geometry_data/Latitude" f); cbn [bind]; [|discriminate].
      destruct (hdf5_get "Geometry_data/Longitude" f); cbn [bind]; [|discriminate].
      unfold distance_grid, Np.add.
      destruct (broadcast_dim _ _); [destruct (broadcast_dim _ _)|]; cbn [bind];
        try discriminate.
      destruct (argmin_flat _); cbn [bind]; try discriminate.
      destruct (cell _ _ _); cbn [bind]; discriminate.
    + intros E. injection E as <-. eauto.
  - left. eauto.
Qed.

Lemma extract_success env st path lat lon name r :
  extract_pixel_value env st path lat lon name = VDict r ->
  dict_in "error" r = false ->
  exists m, locate st path lat lon name = Ok m /\ build_result name m = Ok (VDict r).
Proof.
  intros E N.
  destruct (extract_pixel_value_cases env st path lat lon name)
    as [(msg & E') | (m & r' & El & Eb & E')]; rewrite E' in E.
  - injection E as <-. discriminate.
  - injection E as <-. eauto.
Qed.


(** *** The distance grid *)

Lemma distance_grid_cells lat_grid lon_grid lat lon d :
  rectangular lat_grid -> rectangular lon_grid -> shape lat_grid = shape lon_grid ->
  distance_grid lat_grid lon_grid lat lon = Ok d ->
  (forall r c,
     cell d r c =
     match cell lat_grid r c, cell lon_grid r c with
     | Some la, Some lo => Some (distance lat lon la lo)
     | _, _ => None
     end) /\
  Forall (fun row => length row = ncols lat_grid) d.
Proof.
  intros Rla Rlo Sh. unfold distance_grid.
  rewrite add_same_shape.
  - cbn [bind]. intros E. injection E as <-. split.
    + intros r c. unfold Np.sqrt, Np.square, Np.sub_scalar.
      rewrite cell_map. unfold cell at 1. rewrite nth_error_zip_with.
      rewrite !nth_error_map. unfold cell.
      destruct (nth_error lat_grid r) as [ra|], (nth_error lon_grid r) as [rb|];
        cbn; try reflexivity; [|destruct (nth_error ra c); reflexivity].
      rewrite nth_error_zip_with, !nth_error_map.
      destruct (nth_error ra c), (nth_error rb c); reflexivity.
    + unfold Np.sqrt. apply Forall_forall. intros row Hrow.
      apply in_map_iff in Hrow. destruct Hrow as (row' & <- & Hrow').
      rewrite length_map.
      assert (F : Forall (fun r => length r = ncols lat_grid)
                (zip_with (zip_with PrimFloat.add)
                   (Np.square (Np.sub_scalar lat_grid lat))
                   (Np.square (Np.sub_scalar lon_grid lon)))).
      { unfold shape in Sh. injection Sh as _ Sc.
        apply rows_zip_with; unfold Np.square, Np.sub_scalar.
        - pose proof (rectangular_map (fun v => (v * v)%float) _
                        (rectangular_map (fun v => (v - lat)%float) _ Rla)) as R.
          unfold rectangular in R. rewrite !ncols_map in R. exact R.
        - pose proof (rectangular_map (fun v => (v * v)%float) _
                        (rectangular_map (fun v => (v - lon)%float) _ Rlo)) as R.
          unfold rectangular in R. rewrite !ncols_map in R. rewrite Sc. exact R. }
      rewrite Forall_forall in F. auto.
  - unfold Np.square, Np.sub_scalar. auto using rectangular_map.
  - unfold Np.square, Np.sub_scalar. auto using rectangular_map.
  - unfold shape, Np.square, Np.sub_scalar in *.
    rewrite !nrows_map, !ncols_map. exact Sh.
Qed.

Lemma In_ravel_cell (a : ndarray) x :
  In x (ravel a) -> exists r c, cell a r c = Some x.
Proof.
  unfold ravel, cell. rewrite in_concat. intros (row & Hrow & Hx).
  apply In_nth_error in Hrow. destruct Hrow as [r Hr].
  apply In_nth_error in Hx. destruct Hx as [c Hc].
  exists r, c. rewrite Hr. exact Hc.
Qed.

Lemma unravel_index_flat k C :
  0 < C -> k = fst (unravel_index k (0, C)) * C + snd (unravel_index k (0, C)) /\
           snd (unravel_index k (0, C)) < C.
Proof.
  intros HC. unfold unravel_index; cbn [fst snd]. split.
  - rewrite (Nat.div_mod_eq k C) at 1. lia.
  - apply Nat.mod_upper_bound. lia.
Qed.


(** *** The window around the matched pixel *)

Lemma window_cells data idx x :
  rectangular data ->
  In x (ravel (window_data data idx)) <->
  exists r c,
    (Z.abs (Z.of_nat r - Z.of_nat (fst idx)) <= 2)%Z /\
    (Z.abs (Z.of_nat c - Z.of_nat (snd idx)) <= 2)%Z /\
    cell data r c = Some x.
Proof.
  intros R. unfold window_data.
  change (window_size / 2)%Z with 2%Z.
  rewrite In_slice2 by lia. split.
  - intros (r & c & Hr & Hc & E). exists r, c. repeat split; auto; lia.
  - intros (r & c & Hr & Hc & E). exists r, c.
    destruct (cell_bounds _ _ _ _ R E). repeat split; auto; lia.
Qed.

Lemma window_length data idx : length (ravel (window_data data idx)) <= 25.
Proof.
  unfold window_data. change (window_size / 2)%Z with 2%Z.
  etransitivity; [apply length_slice2|].
  change 25 with (5 * 5). apply Nat.mul_le_mono; lia.
Qed.

Lemma window_clean_cells data idx x :
  rectangular data ->
  In x (window_data_clean data idx) <->
  is_nan x = false /\
  exists r c,
    (Z.abs (Z.of_nat r - Z.of_nat (fst idx)) <= 2)%Z /\
    (Z.abs (Z.of_nat c - Z.of_nat (snd idx)) <= 2)%Z /\
    cell data r c = Some x.
Proof.
  intros R. unfold window_data_clean, drop_nan.
  rewrite filter_In, window_cells by auto.
  destruct (is_nan x); cbn; intuition congruence.
Qed.

Lemma window_clean_length data idx : length (window_data_clean data idx) <= 25.
Proof.
  unfold window_data_clean, drop_nan.
  etransitivity; [apply filter_length_le | apply window_length].
Qed.

Lemma window_clean_empty data idx :
  Forall (fun x => is_nan x = true) (ravel (window_data data idx)) ->
  window_data_clean data idx = [].
Proof.
  unfold window_data_clean, drop_nan.
  induction 1 as [|x l Hx Hl IH]; cbn; [reflexivity|].
  rewrite Hx. exact IH.
Qed.

Lemma window_stats_reported name clean :
  clean <> [] ->
  exists stats,
    window_stats name clean = VDict stats /\
    dict_get "mean" stats = Some (VFloat (Np.mean clean)) /\
    dict_get "std" stats = Some (VFloat (Np.std clean)) /\
    dict_get "min" stats = Some (VFloat (Np.amin clean)) /\
    dict_get "max" stats = Some (VFloat (Np.amax clean)).
Proof.
  intros N. unfold window_stats.
  destruct clean as [|x l]; [congruence|]. cbn [length Nat.ltb Nat.leb].
  destruct (String.eqb name "LST"); eexists; (split; [reflexivity|]); cbn; auto.
Qed.


(** *** Claims about the extractor *)

(** C6 (as the code has it). With congruent coordinate grids, the cell a
    successful extraction reports is the one numpy's argmin picks among the
    distances computed in binary64.  When every computed distance is a number
    it is the first cell, in row-major order, of least computed distance:
    every cell is at least as far, every earlier cell strictly farther.  When
    some computed distance is NaN it is the first cell, in row-major order,
    whose computed distance is NaN. *)
Theorem nearest_pixel_selected env st path lat lon name m r :
  locate st path lat lon name = Ok m ->
  extract_pixel_value env st path lat lon name = VDict r ->
  dict_in "error" r = false ->
  rectangular (m_lat_grid m) ->
  rectangular (m_lon_grid m) ->
  shape (m_lat_grid m) = shape (m_lon_grid m) ->
  exists la0 lo0,
    dict_get "pixel_location" r =
      Some (VDict [ ("row", VInt (Z.of_nat (fst (m_idx m))));
                    ("col", VInt (Z.of_nat (snd (m_idx m))));
                    ("latitude", VFloat la0); ("longitude", VFloat lo0) ]) /\
    dict_get "pixel_value" r = Some (VFloat (m_pixel_value m)) /\
    cell (m_data m) (fst (m_idx m)) (snd (m_idx m)) = Some (m_pixel_value m) /\
    cell (m_lat_grid m) (fst (m_idx m)) (snd (m_idx m)) = Some la0 /\
    cell (m_lon_grid m) (fst (m_idx m)) (snd (m_idx m)) = Some lo0 /\
    ((forall r c la lo,
        cell (m_lat_grid m) r c = Some la -> cell (m_lon_grid m) r c = Some lo ->
        is_nan (distance lat lon la lo) = false) ->
     forall r c la lo,
       cell (m_lat_grid m) r c = Some la -> cell (m_lon_grid m) r c = Some lo ->
       (distance lat lon la0 lo0 <=? distance lat lon la lo)%float = true /\
       (r < fst (m_idx m) \/ (r = fst (m_idx m) /\ c < snd (m_idx m)) ->
        (distance lat lon la0 lo0 <? distance lat lon la lo)%float = true)) /\
    ((exists r c la lo,
        cell (m_lat_grid m) r c = Some la /\ cell (m_lon_grid m) r c = Some lo /\
        is_nan (distance lat lon la lo) = true) ->
     is_nan (distance lat lon la0 lo0) = true /\
     forall r c la lo,
       cell (m_lat_grid m) r c = Some la -> cell (m_lon_grid m) r c = Some lo ->
       r < fst (m_idx m) \/ (r = fst (m_idx m) /\ c < snd (m_idx m)) ->
       is_nan (distance lat lon la lo) = false).
Proof.
  intros Hl Er Nr Rla Rlo Sh.
  destruct (extract_success _ _ _ _ _ _ _ Er Nr) as (m' & Hl' & Eb).
  rewrite Hl in Hl'. injection Hl' as <-.
  destruct (build_result_fields _ _ _ Eb)
    as (r' & Er' & _ & _ & Hpv & _ & _ & la1 & lo1 & Hla1 & Hlo1 & Hloc).
  injection Er' as <-.
  destruct (locate_inv _ _ _ _ _ _ Hl) as (f & k & _ & _ & _ & _ & Ed & Ek & Ei & Epv).
  destruct (distance_grid_cells _ _ _ _ _ Rla Rlo Sh Ed) as [Hc Hrows].
  set (d := m_distances m) in *. set (C := ncols (m_lat_grid m)) in *.
  assert (Lk : k < length (ravel d)) by (apply argmin_flat_lt; auto).
  assert (Ld : length (ravel d) = length d * C) by (apply length_concat_rect; auto).
  assert (Dne : d <> []) by (intro Z; rewrite Z in Lk; cbn in Lk; lia).
  assert (Cd : ncols d = C) by (apply (ncols_rows C); auto).
  assert (Rd : rectangular d) by (apply (rows_rectangular C); auto).
  assert (HC : 0 < C) by (destruct C; lia).
  unfold shape in Ei. rewrite Cd in Ei.
  assert (Ei' : m_idx m = unravel_index k (0, C)) by (rewrite Ei; reflexivity).
  destruct (unravel_index_flat k C HC) as [Hk Hj]. rewrite <- Ei' in Hk, Hj.
  set (i := fst (m_idx m)) in *. set (j := snd (m_idx m)) in *.
  assert (Flat : forall r0 c0 la lo,
    cell (m_lat_grid m) r0 c0 = Some la -> cell (m_lon_grid m) r0 c0 = Some lo ->
    c0 < C /\ nth_error (ravel d) (r0 * C + c0) = Some (distance lat lon la lo)).
  { intros r0 c0 la lo Hla Hlo.
    destruct (cell_bounds _ _ _ _ Rla Hla) as [_ Lc]. fold C in Lc.
    split; [exact Lc|].
    rewrite <- Cd, cell_ravel by (auto; rewrite Cd; auto).
    rewrite Hc, Hla, Hlo. reflexivity. }
  assert (Ek0 : nth_error (ravel d) k = Some (distance lat lon la1 lo1)).
  { rewrite Hk. apply Flat; assumption. }
  exists la1, lo1.
  split; [exact Hloc|]. split; [exact Hpv|]. split; [exact Epv|].
  split; [exact Hla1|]. split; [exact Hlo1|]. split.
  - intros NN.
    assert (Nd : no_nan (ravel d)).
    { apply Forall_forall. intros x Hx.
      destruct (In_ravel_cell _ _ Hx) as (r0 & c0 & E). rewrite Hc in E.
      destruct (cell (m_lat_grid m) r0 c0) as [la|] eqn:Ela; [|discriminate].
      destruct (cell (m_lon_grid m) r0 c0) as [lo|] eqn:Elo; [|discriminate].
      injection E as <-. eauto. }
    destruct (argmin_flat_least _ _ Nd Ek) as (xk & Exk & Hleast).
    rewrite Ek0 in Exk. injection Exk as <-.
    intros r0 c0 la lo Hla Hlo.
    destruct (Flat _ _ _ _ Hla Hlo) as [Lc Ecell].
    destruct (Hleast _ _ Ecell) as [Le Lt]. split; [exact Le|].
    intros Before. apply Lt. rewrite Hk.
    destruct Before as [B|[-> B]]; nia.
  - intros (r0 & c0 & la & lo & Hla & Hlo & Hn).
    destruct (Flat _ _ _ _ Hla Hlo) as [_ Ecell].
    assert (Ex : Exists (fun x => is_nan x = true) (ravel d)).
    { apply Exists_exists. exists (distance lat lon la lo).
      split; [eapply nth_error_In, Ecell | exact Hn]. }
    destruct (argmin_flat_first_nan _ _ Ek Ex) as ((x & Ex0 & Nx) & First).
    rewrite Ek0 in Ex0. injection Ex0 as <-.
    split; [exact Nx|].
    intros r1 c1 la' lo' Hla' Hlo' Before.
    destruct (Flat _ _ _ _ Hla' Hlo') as [Lc Ecell'].
    apply (First (r1 * C + c1)); [|exact Ecell'].
    rewrite Hk. destruct Before as [B|[-> B]]; nia.
Qed.

(** C10. The window always holds the matched pixel; so when that pixel is a
    number the filtered window is not empty and the statistics are reported. *)
Theorem matched_pixel_in_window env st path lat lon name m r :
  locate st path lat lon name = Ok m ->
  rectangular (m_data m) ->
  extract_pixel_value env st path lat lon name = VDict r ->
  dict_in "error" r = false ->
  In (m_pixel_value m) (ravel (window_data (m_data m) (m_idx m))) /\
  (is_nan (m_pixel_value m) = false ->
   In (m_pixel_value m) (window_data_clean (m_data m) (m_idx m)) /\
   exists stats,
     dict_get "window_statistics" r = Some (VDict stats) /\
     dict_get "mean" stats = Some (VFloat (Np.mean (window_data_clean (m_data m) (m_idx m)))) /\
     dict_get "std" stats = Some (VFloat (Np.std (window_data_clean (m_data m) (m_idx m)))) /\
     dict_get "min" stats = Some (VFloat (Np.amin (window_data_clean (m_data m) (m_idx m)))) /\
     dict_get "max" stats = Some (VFloat (Np.amax (window_data_clean (m_data m) (m_idx m))))).
Proof.
  intros Hl R E N.
  destruct (locate_inv _ _ _ _ _ _ Hl) as (f & k & _ & _ & _ & _ & _ & _ & _ & Ec).
  assert (W : In (m_pixel_value m) (ravel (window_data (m_data m) (m_idx m)))).
  { apply window_cells; auto. exists (fst (m_idx m)), (snd (m_idx m)).
    repeat split; auto; lia. }
  split; auto. intros Nn.
  assert (Wc : In (m_pixel_value m) (window_data_clean (m_data m) (m_idx m))).
  { unfold window_data_clean, drop_nan. apply filter_In. rewrite Nn. auto. }
  split; auto.
  destruct (extract_success _ _ _ _ _ _ _ E N) as (m' & Hl' & Eb).
  rewrite Hl in Hl'. injection Hl' as <-.
  destruct (build_result_fields _ _ _ Eb) as (r' & Er & _ & _ & _ & Ew & _).
  injection Er as <-.
  destruct (window_stats_reported name (window_data_clean (m_data m) (m_idx m)))
    as (stats & Es & ?).
  { intro Z. rewrite Z in Wc. destruct Wc. }
  exists stats. rewrite Ew, Es. auto.
Qed.

(** C3 (as the code has it). When every cell of the clipped window is NaN, a
    successful extraction carries the key [window_statistics] with the value
    [None]. *)
Theorem all_nan_window_statistics_none env st path lat lon name m r :
  locate st path lat lon name = Ok m ->
  extract_pixel_value env st path lat lon name = VDict r ->
  dict_in "error" r = false ->
  Forall (fun x => is_nan x = true) (ravel (window_data (m_data m) (m_idx m))) ->
  dict_in "window_statistics" r = true /\
  dict_get "window_statistics" r = Some VNone.
Proof.
  intros Hl E N A.
  destruct (extract_success _ _ _ _ _ _ _ E N) as (m' & Hl' & Eb).
  rewrite Hl in Hl'. injection Hl' as <-.
  destruct (build_result_fields _ _ _ Eb) as (r' & Er & _ & _ & _ & Ew & _).
  injection Er as <-.
  rewrite (window_clean_empty _ _ A) in Ew. cbn in Ew.
  unfold dict_in. rewrite Ew. auto.
Qed.


(** C7 (as the code has it). When statistics are reported they are numpy's
    mean, population standard deviation, minimum and maximum of the cells of
    the clipped 5x5 window that are numbers; the minimum and the maximum are
    cells of the window that bound every cell of it, and the standard
    deviation is NaN or at least zero. *)
Theorem window_statistics_population env st path lat lon name m r :
  locate st path lat lon name = Ok m ->
  rectangular (m_data m) ->
  extract_pixel_value env st path lat lon name = VDict r ->
  dict_in "error" r = false ->
  window_data_clean (m_data m) (m_idx m) <> [] ->
  let w := window_data_clean (m_data m) (m_idx m) in
  (forall x, In x w <->
     is_nan x = false /\
     exists r c,
       (Z.abs (Z.of_nat r - Z.of_nat (fst (m_idx m))) <= 2)%Z /\
       (Z.abs (Z.of_nat c - Z.of_nat (snd (m_idx m))) <= 2)%Z /\
       cell (m_data m) r c = Some x) /\
  length w <= 25 /\
  (exists stats,
     dict_get "window_statistics" r = Some (VDict stats) /\
     dict_get "mean" stats = Some (VFloat (Np.mean w)) /\
     dict_get "std" stats = Some (VFloat (Np.std w)) /\
     dict_get "min" stats = Some (VFloat (Np.amin w)) /\
     dict_get "max" stats = Some (VFloat (Np.amax w))) /\
  Np.mean w = (Np.sum w / F64.of_nat (length w))%float /\
  Np.std w =
    PrimFloat.sqrt
      (Np.sum (map (fun v => (v * v)%float) (map (fun v => (v - Np.mean w)%float) w))
       / F64.of_nat (length w))%float /\
  In (Np.amin w) w /\ In (Np.amax w) w /\
  (forall x, In x w ->
     (Np.amin w <=? x)%float = true /\ (x <=? Np.amax w)%float = true) /\
  (Np.amin w <=? Np.amax w)%float = true /\
  (is_nan (Np.std w) = true \/ (0 <=? Np.std w)%float = true).
Proof.
  intros Hl R E N Ne w.
  destruct (extract_success _ _ _ _ _ _ _ E N) as (m' & Hl' & Eb).
  rewrite Hl in Hl'. injection Hl' as <-.
  destruct (build_result_fields _ _ _ Eb) as (r' & Er & _ & _ & _ & Ew & _).
  injection Er as <-.
  destruct (window_stats_reported name w Ne) as (stats & Es & Hstats).
  assert (NN : no_nan w) by apply drop_nan_no_nan.
  destruct (amin_least w NN Ne) as [Imin Lmin].
  destruct (amax_greatest w NN Ne) as [Imax Lmax].
  split; [intros x; apply window_clean_cells; auto|].
  split; [apply window_clean_length|].
  split; [exists stats; rewrite Ew; fold w; rewrite Es; auto|].
  split; [reflexivity|]. split; [reflexivity|].
  split; [exact Imin|]. split; [exact Imax|].
  split; [intros x Hx; split; auto|].
  split; [apply Lmin; exact Imax|].
  apply sqrt_nonneg.
Qed.

End CollectFacts.

(* ================================================================== *)
(** * Facts about the collector *)
(* ================================================================== *)

Module CollectorFacts.
Import F64 F64Facts Py Np NpFacts Collect CollectFacts Examples.

(** *** Dictionaries *)

Lemma dict_get_set_same k v d : dict_get k (dict_set k v d) = Some v.
Proof.
  induction d as [|[k' v'] d IH]; cbn.
  - rewrite String.eqb_refl. reflexivity.
  - destruct (String.eqb k k') eqn:E; cbn; rewrite ?String.eqb_refl, ?E; auto.
Qed.

Lemma dict_get_set_other k k' v d :
  String.eqb k k' = false -> dict_get k (dict_set k' v d) = dict_get k d.
Proof.
  intros N. induction d as [|[k0 v0] d IH]; cbn.
  - rewrite N. reflexivity.
  - destruct (String.eqb k' k0) eqn:E; cbn.
    + apply String.eqb_eq in E. subst k0. rewrite N. reflexivity.
    + destruct (String.eqb k k0); auto.
Qed.

Lemma set_observation_other k key v result :
  String.eqb k "observations" = false ->
  dict_get k (set_observation key v result) = dict_get k result.
Proof.
  intros N. unfold set_observation.
  destruct (dict_get "observations" result) as [[]|]; auto using dict_get_set_other.
Qed.

Lemma collect_product_other env lat lon target_date use_mock acc product k :
  String.eqb k "observations" = false ->
  dict_get k (fst (collect_product env lat lon target_date use_mock acc product)) =
  dict_get k (fst acc).
Proof.
  intros N. unfold collect_product. destruct acc as [result st].
  destruct (if orb use_mock (negb (GPORTAL_AVAILABLE env)) then _ else _) as [p st'].
  cbn [fst]. apply set_observation_other; auto.
Qed.

(** C1 (as the code has it). When mock mode is requested the record is
    tagged "mock"; when it is not and the client library is present, so that
    no mock data is substituted, the record is tagged "gportal". *)
Theorem data_source_tag env st lat lon target_date use_mock :
  use_mock = true \/ GPORTAL_AVAILABLE env = true ->
  dict_get "data_source"
    (fst (collect_satellite_data env st lat lon target_date use_mock)) =
  Some (VStr (if use_mock then "mock" else "gportal")).
Proof.
  intros _. unfold collect_satellite_data. cbn [fold_left].
  rewrite !collect_product_other by reflexivity. reflexivity.
Qed.

Lemma data_source_tag_witness :
  dict_get "data_source"
    (fst (collect_satellite_data env_no_credentials empty_scratch
            32.8032%float 130.7075%float "2026-01-08" true)) =
  Some (VStr "mock").
Proof.
  apply (data_source_tag env_no_credentials empty_scratch
           32.8032%float 130.7075%float "2026-01-08" true).
  left. reflexivity.
Defined.

(** C1, the claim as stated fails: a record made of downloaded data, with no
    mock involved, is tagged "gportal" and not "remote". *)
Lemma data_source_not_remote :
  dict_get "data_source"
    (fst (collect_satellite_data env_remote empty_scratch
            0%float 1%float "2026-01-08" false)) = Some (VStr "gportal") /\
  calls (snd (collect_satellite_data env_remote empty_scratch
            0%float 1%float "2026-01-08" false)) = [CallReal "LST"; CallReal "NDVI"] /\
  dict_get "data_source"
    (fst (collect_satellite_data env_remote empty_scratch
            0%float 1%float "2026-01-08" false)) <> Some (VStr "remote").
Proof.
  split; [vm_compute; reflexivity|]. split; [vm_compute; reflexivity|].
  vm_compute. discriminate.
Qed.


(** *** The generated file *)

Lemma linspace_length start stop n : length (linspace start stop (S n)) = S n.
Proof.
  unfold linspace. rewrite length_app, length_map, length_seq. cbn. lia.
Qed.

Lemma meshgrid_shape (x y : list float) :
  let '(g1, g2) := meshgrid x y in
  Forall (fun r => length r = length x) g1 /\ nrows g1 = length y /\
  Forall (fun r => length r = length x) g2 /\ nrows g2 = length y.
Proof.
  unfold meshgrid, nrows. rewrite !length_map. repeat split; auto.
  - apply Forall_forall. intros r H. apply in_map_iff in H.
    destruct H as (v & <- & _). reflexivity.
  - apply Forall_forall. intros r H. apply in_map_iff in H.
    destruct H as (v & <- & _). apply length_map.
Qed.

Lemma mock_data_shape env n P :
  Forall (fun r => length r = 100) (mock_data env n P) /\ nrows (mock_data env n P) = 100.
Proof.
  assert (H : forall mean std lo hi,
    Forall (fun r => length r = 100) (clip (random_normal env n mean std) lo hi) /\
    nrows (clip (random_normal env n mean std) lo hi) = 100).
  { intros. unfold clip, random_normal, nrows. rewrite !length_map, length_seq.
    split; [|reflexivity].
    apply Forall_forall. intros r H. apply in_map_iff in H.
    destruct H as (r' & <- & H'). apply in_map_iff in H'.
    destruct H' as (k & <- & _). rewrite !length_map, length_seq. reflexivity. }
  unfold mock_data. destruct (String.eqb P "LST"); apply H.
Qed.

Lemma mock_file_datasets env n lat lon P :
  exists data lat_grid lon_grid,
    hdf5_get (String.append "Image_data/" P) (mock_file env n lat lon P) = Some data /\
    hdf5_get "Geometry_data/Latitude" (mock_file env n lat lon P) = Some lat_grid /\
    hdf5_get "Geometry_data/Longitude" (mock_file env n lat lon P) = Some lon_grid /\
    Forall (fun r => length r = 100) data /\ nrows data = 100 /\
    Forall (fun r => length r = 100) lat_grid /\ nrows lat_grid = 100 /\
    Forall (fun r => length r = 100) lon_grid /\ nrows lon_grid = 100.
Proof.
  unfold mock_file.
  pose proof (meshgrid_shape (linspace (lon - 0.5) (lon + 0.5) 100)
                             (linspace (lat - 0.5) (lat + 0.5) 100)) as M.
  destruct (meshgrid _ _) as [lon_grid lat_grid].
  rewrite !linspace_length in M. destruct M as (A & B & C & D).
  destruct (mock_data_shape env n P) as [E F].
  exists (mock_data env n P), lat_grid, lon_grid.
  cbn [hdf5_get String.append String.eqb Ascii.eqb Bool.eqb].
  rewrite String.eqb_refl. repeat split; auto.
Qed.


Lemma distance_grid_defined lat_grid lon_grid lat lon :
  rectangular lat_grid -> rectangular lon_grid -> shape lat_grid = shape lon_grid ->
  exists d, distance_grid lat_grid lon_grid lat lon = Ok d /\ nrows d = nrows lat_grid.
Proof.
  intros Rla Rlo Sh. unfold distance_grid. rewrite add_same_shape.
  - cbn [bind]. eexists. split; [reflexivity|].
    unfold Np.sqrt, Np.square, Np.sub_scalar, nrows, shape, nrows in *.
    injection Sh as Sn _.
    rewrite length_map, length_zip_with, !length_map. lia.
  - unfold Np.square, Np.sub_scalar. auto using rectangular_map.
  - unfold Np.square, Np.sub_scalar. auto using rectangular_map.
  - unfold shape, Np.square, Np.sub_scalar in *.
    rewrite !nrows_map, !ncols_map. exact Sh.
Qed.

(** Extraction from a generated file always succeeds. *)
Lemma mock_extraction_succeeds env st n lat lon P path :
  NUMPY_AVAILABLE env = true -> H5PY_AVAILABLE env = true ->
  fs_get path (fs st) = Some (Hdf5 (mock_file env n lat lon P)) ->
  exists r,
    extract_pixel_value env st path lat lon P = VDict r /\
    dict_in "error" r = false /\
    dict_get "dataset" r = Some (VStr P).
Proof.
  intros Hn Hh Hf.
  destruct (mock_file_datasets env n lat lon P)
    as (data & la & lo & Ed & Ela & Elo & Rd & Nd & Rla & Nla & Rlo & Nlo).
  assert (Cla : ncols la = 100) by (apply ncols_rows; auto; intro Z; rewrite Z in Nla; discriminate).
  assert (Clo : ncols lo = 100) by (apply ncols_rows; auto; intro Z; rewrite Z in Nlo; discriminate).
  assert (Cd : ncols data = 100) by (apply ncols_rows; auto; intro Z; rewrite Z in Nd; discriminate).
  assert (Rla' : rectangular la) by (apply (rows_rectangular 100); auto).
  assert (Rlo' : rectangular lo) by (apply (rows_rectangular 100); auto).
  assert (Rd' : rectangular data) by (apply (rows_rectangular 100); auto).
  assert (Sh : shape la = shape lo) by (unfold shape; congruence).
  destruct (distance_grid_defined la lo lat lon Rla' Rlo' Sh) as (d & Edg & Nrd).
  destruct (distance_grid_cells _ _ _ _ _ Rla' Rlo' Sh Edg) as [_ Rows].
  rewrite Cla in Rows.
  assert (Ld : length (ravel d) = 100 * 100).
  { unfold ravel. rewrite (length_concat_rect d 100) by auto. unfold nrows in *. lia. }
  destruct (argmin_flat (ravel d)) as [k|] eqn:Ek.
  2:{ destruct (ravel d); [discriminate Ld | discriminate Ek]. }
  pose proof (argmin_flat_lt _ _ Ek) as Lk. rewrite Ld in Lk.
  assert (Cdd : ncols d = 100).
  { apply ncols_rows; auto. intro Z. rewrite Z in Ld. discriminate. }
  assert (Hi : k / 100 < 100) by (apply Nat.Div0.div_lt_upper_bound; lia).
  assert (Hj : k mod 100 < 100) by (apply Nat.mod_upper_bound; lia).
  destruct (cell_defined data (k / 100) (k mod 100)) as [pv Epv]; auto; try lia.
  destruct (cell_defined la (k / 100) (k mod 100)) as [la0 Ela0]; auto; try lia.
  destruct (cell_defined lo (k / 100) (k mod 100)) as [lo0 Elo0]; auto; try lia.
  assert (El : locate st path lat lon P =
               Ok {| m_data := data; m_lat_grid := la; m_lon_grid := lo;
                     m_distances := d; m_idx := (k / 100, k mod 100);
                     m_pixel_value := pv |}).
  { unfold locate, open_hdf5, dataset, Np.argmin, Np.getitem. rewrite Hf. cbn [bind].
    rewrite Ed, Ela, Elo. cbn [bind]. rewrite Edg. cbn [bind]. rewrite Ek. cbn [bind].
    unfold unravel_index, shape. rewrite Cdd. cbn [fst snd]. rewrite Epv. reflexivity. }
  unfold extract_pixel_value, extract_body. rewrite Hn, Hh, El. cbn [negb orb bind].
  destruct (build_result P _) as [v|v|e] eqn:Eb.
  - destruct (build_result_fields _ _ _ Eb) as (r & -> & Herr & Hds & _).
    exists r. auto.
  - exfalso. revert Eb. unfold build_result, Np.getitem. cbn [m_idx m_lat_grid m_lon_grid fst snd].
    rewrite Ela0, Elo0. cbn [bind]. destruct (String.eqb P "LST"); discriminate.
  - exfalso. revert Eb. unfold build_result, Np.getitem. cbn [m_idx m_lat_grid m_lon_grid fst snd].
    rewrite Ela0, Elo0. cbn [bind]. destruct (String.eqb P "LST"); discriminate.
Qed.


(** *** One turn of the collector's loop *)

Lemma fs_get_put p c l : fs_get p (fs_put p c l) = Some c.
Proof. unfold fs_put. cbn. rewrite String.eqb_refl. reflexivity. Qed.

(** With mock requested or the client library missing, the turn calls the
    generator, and with numpy, h5py and a writable scratch directory its
    observation is a successful extraction. *)
Lemma collect_product_mock env lat lon target_date use_mock result st P :
  orb use_mock (negb (GPORTAL_AVAILABLE env)) = true ->
  let '(result', st') :=
    collect_product env lat lon target_date use_mock (result, st) P in
  calls st' = calls st ++ [CallMock P] /\
  (NUMPY_AVAILABLE env = true -> H5PY_AVAILABLE env = true ->
   temp_writable env = true ->
   exists r,
     result' = set_observation (lower P) (VDict r) result /\
     dict_in "error" r = false /\
     dict_get "dataset" r = Some (VStr P)).
Proof.
  intros Hm. unfold collect_product. rewrite Hm. unfold create_mock_hdf5.
  destruct (orb (negb (H5PY_AVAILABLE env)) (negb (NUMPY_AVAILABLE env))) eqn:Elib.
  - split; [reflexivity|]. intros Hn Hh. rewrite Hn, Hh in Elib. discriminate.
  - destruct (temp_writable env) eqn:Ew; cbn [negb].
    + split; [reflexivity|]. intros Hn Hh _.
      unfold exists_. cbn [fs]. rewrite fs_get_put.
      destruct (mock_extraction_succeeds env
                  {| fs := fs_put (mock_path target_date P)
                             (Hdf5 (mock_file env (draws (log (CallMock P) st)) lat lon P))
                             (fs (log (CallMock P) st));
                     calls := calls (log (CallMock P) st);
                     draws := S (draws (log (CallMock P) st)) |}
                  (draws (log (CallMock P) st)) lat lon P (mock_path target_date P))
        as (r & Er & Herr & Hds); auto.
      { cbn [fs]. apply fs_get_put. }
      rewrite Er, Herr. cbn [negb]. exists r. auto.
    + split; [reflexivity|]. intros _ _ Hw. discriminate.
Qed.

(** With mock not requested and the client library present, the turn calls
    the real acquisition; without credentials it reports the no-file error. *)
Lemma collect_product_real env lat lon target_date use_mock result st P :
  orb use_mock (negb (GPORTAL_AVAILABLE env)) = false ->
  let '(result', st') :=
    collect_product env lat lon target_date use_mock (result, st) P in
  calls st' = calls st ++ [CallReal P] /\
  (get_gportal_credentials env = None ->
   result' = set_observation (lower P) no_file_error result).
Proof.
  intros Hm. unfold collect_product. rewrite Hm. unfold search_and_download_real.
  destruct (negb (GPORTAL_AVAILABLE env)); [split; [reflexivity|auto]|].
  destruct (get_gportal_credentials env); [|split; [reflexivity|auto]].
  destruct (negb _); [split; [reflexivity|intros; discriminate]|].
  destruct (gportal_service env P _ target_date) as [e| | |path [c|]];
    (split; [reflexivity|intros; discriminate]).
Qed.


(** C2 (as the code has it). The generator is invoked automatically when
    mock mode is requested or the client library is missing, and then, with
    numpy, h5py and a writable scratch directory, both observations are
    successful extractions from generated files.  With the client library
    present and mock mode not requested the real acquisition runs instead, and
    missing credentials leave both observations as the no-file error. *)
Theorem automatic_mock_substitution env st lat lon target_date use_mock result st' :
  collect_satellite_data env st lat lon target_date use_mock = (result, st') ->
  (orb use_mock (negb (GPORTAL_AVAILABLE env)) = true ->
   calls st' = calls st ++ [CallMock "LST"; CallMock "NDVI"] /\
   (NUMPY_AVAILABLE env = true -> H5PY_AVAILABLE env = true ->
    temp_writable env = true ->
    exists lst ndvi,
      observation_of result "lst" = Some (VDict lst) /\
      dict_in "error" lst = false /\ dict_get "dataset" lst = Some (VStr "LST") /\
      observation_of result "ndvi" = Some (VDict ndvi) /\
      dict_in "error" ndvi = false /\ dict_get "dataset" ndvi = Some (VStr "NDVI"))) /\
  (orb use_mock (negb (GPORTAL_AVAILABLE env)) = false ->
   calls st' = calls st ++ [CallReal "LST"; CallReal "NDVI"] /\
   (get_gportal_credentials env = None ->
    observation_of result "lst" = Some no_file_error /\
    observation_of result "ndvi" = Some no_file_error)).
Proof.
  unfold collect_satellite_data.
  match goal with
  | |- context [fold_left _ _ (?r, st)] => remember r as result0 eqn:R0
  end.
  cbn [fold_left]. intros E. split; intros Hm.
  - pose proof (collect_product_mock env lat lon target_date use_mock result0 st "LST" Hm) as H1.
    destruct (collect_product env lat lon target_date use_mock (result0, st) "LST")
      as [r1 st1] eqn:E1.
    pose proof (collect_product_mock env lat lon target_date use_mock r1 st1 "NDVI" Hm) as H2.
    unfold dict in *. rewrite E in H2. rewrite E1 in H1. cbv beta iota in H1, H2. destruct H1 as [C1 O1], H2 as [C2 O2].
    split; [rewrite C2, C1, <- app_assoc; reflexivity|].
    intros Hn Hh Hw.
    destruct (O1 Hn Hh Hw) as (lst & -> & L1 & L2).
    destruct (O2 Hn Hh Hw) as (ndvi & -> & N1 & N2).
    subst result0. exists lst, ndvi. repeat split; auto.
  - pose proof (collect_product_real env lat lon target_date use_mock result0 st "LST" Hm) as H1.
    destruct (collect_product env lat lon target_date use_mock (result0, st) "LST")
      as [r1 st1] eqn:E1.
    pose proof (collect_product_real env lat lon target_date use_mock r1 st1 "NDVI" Hm) as H2.
    unfold dict in *. rewrite E in H2. rewrite E1 in H1. cbv beta iota in H1, H2. destruct H1 as [C1 O1], H2 as [C2 O2].
    split; [rewrite C2, C1, <- app_assoc; reflexivity|].
    intros Hc. rewrite (O2 Hc), (O1 Hc). subst result0. split; reflexivity.
Qed.

Lemma automatic_mock_substitution_witness :
  calls (snd (collect_satellite_data env_no_client empty_scratch
                32.8032%float 130.7075%float "2026-01-08" false)) =
  [CallMock "LST"; CallMock "NDVI"].
Proof.
  exact (proj1 (proj1 (automatic_mock_substitution env_no_client empty_scratch
                  32.8032%float 130.7075%float "2026-01-08" false _ _
                  (surjective_pairing _)) eq_refl)).
Defined.

(** C2, the claim as stated fails: with the client library importable and no
    credentials, the generator is not invoked and both observations are the
    no-file error. *)
Lemma missing_credentials_no_mock :
  GPORTAL_AVAILABLE env_no_credentials = true /\
  get_gportal_credentials env_no_credentials = None /\
  let '(result, st') :=
    collect_satellite_data env_no_credentials empty_scratch
      32.8032%float 130.7075%float "2026-01-08" false in
  calls st' = [CallReal "LST"; CallReal "NDVI"] /\
  fs st' = [] /\
  observation_of result "lst" = Some (VDict [("error", VStr "ファイル取得失敗")]) /\
  observation_of result "ndvi" = Some (VDict [("error", VStr "ファイル取得失敗")]).
Proof. vm_compute. repeat split; reflexivity. Qed.

End CollectorFacts.

(* ================================================================== *)
(** * The extractor on the example files *)
(* ================================================================== *)

Module ExtractorExamples.
Import F64 F64Facts Py Np NpFacts Collect CollectFacts Examples.

(** Every distance from (0, 1) to a cell of the one-row file is a number. *)
Lemma numbers_only r c la lo :
  cell [[0; 0; 0]]%float r c = Some la -> cell [[0; 1; 2]]%float r c = Some lo ->
  is_nan (distance 0 1 la lo) = false.
Proof.
  intros Hla Hlo.
  destruct r as [|r]; [|destruct r; discriminate].
  destruct c as [|[|[|c]]]; cbn in Hla, Hlo;
    try (injection Hla as <-; injection Hlo as <-; vm_compute; reflexivity).
  destruct c; discriminate.
Defined.

Lemma nearest_pixel_selected_witness :
  exists la0 lo0,
    dict_get "pixel_location"
      (entries (extract_pixel_value env_remote
                  (scratch (row_file "NDVI" [0.1; 0.2; 0.3]%float))
                  "data/temp/a.h5" 0%float 1%float "NDVI")) =
      Some (VDict [ ("row", VInt 0); ("col", VInt 1);
                    ("latitude", VFloat la0); ("longitude", VFloat lo0) ]) /\
    forall r c la lo,
      cell [[0; 0; 0]]%float r c = Some la -> cell [[0; 1; 2]]%float r c = Some lo ->
      (distance 0 1 la0 lo0 <=? distance 0 1 la lo)%float = true.
Proof.
  destruct (nearest_pixel_selected env_remote
              (scratch (row_file "NDVI" [0.1; 0.2; 0.3]%float)) "data/temp/a.h5"
              0%float 1%float "NDVI" (row_match [0.1; 0.2; 0.3]%float 0.2%float)
              (entries (extract_pixel_value env_remote
                          (scratch (row_file "NDVI" [0.1; 0.2; 0.3]%float))
                          "data/temp/a.h5" 0%float 1%float "NDVI")))
    as (la0 & lo0 & Hloc & _ & _ & _ & _ & Hmin & _).
  - vm_compute. reflexivity.
  - vm_compute. reflexivity.
  - vm_compute. reflexivity.
  - repeat constructor.
  - repeat constructor.
  - reflexivity.
  - exists la0, lo0. split; [exact Hloc|].
    intros r c la lo Hla Hlo. apply (Hmin numbers_only r c la lo Hla Hlo).
Defined.

(** C6, the claim as stated fails.  In a file whose latitude grid holds a NaN
    cell, the query (0, 2) lies exactly on the third cell, yet the NaN cell
    before it is reported.  In a file of numbers, the query (0, 0) is strictly
    nearer to the second cell (same latitude offset, longitude offset 0
    against 1e-9), yet the two distances computed in binary64 are equal and
    the first cell is reported. *)
Lemma nearest_pixel_not_selected :
  (let v := extract_pixel_value env_remote
              (scratch (strip_file "NDVI" [0; nan; 0]%float [0; 1; 2]%float
                          [0.1; 0.2; 0.3]%float))
              "data/temp/a.h5" 0%float 2%float "NDVI" in
   dict_get "pixel_location" (entries v) =
     Some (VDict [ ("row", VInt 0); ("col", VInt 1);
                   ("latitude", VFloat nan); ("longitude", VFloat 1) ]) /\
   dict_get "pixel_value" (entries v) = Some (VFloat 0.2) /\
   distance 0 2 0 2 = 0%float /\
   is_nan (distance 0 2 nan 1) = true /\
   (distance 0 2 nan 1 <=? distance 0 2 0 2)%float = false) /\
  (let v := extract_pixel_value env_remote
              (scratch (strip_file "NDVI" [1; 1]%float [1e-9; 0]%float [0.1; 0.2]%float))
              "data/temp/a.h5" 0%float 0%float "NDVI" in
   dict_get "pixel_location" (entries v) =
     Some (VDict [ ("row", VInt 0); ("col", VInt 0);
                   ("latitude", VFloat 1); ("longitude", VFloat 1e-9) ]) /\
   (0 <? 1e-9 * 1e-9)%float = true /\
   (1 * 1 + 1e-9 * 1e-9 = 1 * 1 + 0 * 0)%float /\
   distance 0 0 1 1e-9 = distance 0 0 1 0).
Proof. vm_compute. repeat split; reflexivity. Qed.

Lemma matched_pixel_in_window_witness :
  In 0.2%float (ravel (window_data [[0.1; 0.2; 0.3]]%float (0, 1))) /\
  (is_nan 0.2%float = false ->
   In 0.2%float (window_data_clean [[0.1; 0.2; 0.3]]%float (0, 1)) /\
   exists stats,
     dict_get "window_statistics"
       (entries (extract_pixel_value env_remote
                   (scratch (row_file "NDVI" [0.1; 0.2; 0.3]%float))
                   "data/temp/a.h5" 0%float 1%float "NDVI")) = Some (VDict stats) /\
     dict_get "mean" stats =
       Some (VFloat (Np.mean (window_data_clean [[0.1; 0.2; 0.3]]%float (0, 1)))) /\
     dict_get "std" stats =
       Some (VFloat (Np.std (window_data_clean [[0.1; 0.2; 0.3]]%float (0, 1)))) /\
     dict_get "min" stats =
       Some (VFloat (Np.amin (window_data_clean [[0.1; 0.2; 0.3]]%float (0, 1)))) /\
     dict_get "max" stats =
       Some (VFloat (Np.amax (window_data_clean [[0.1; 0.2; 0.3]]%float (0, 1))))).
Proof.
  apply (matched_pixel_in_window env_remote
           (scratch (row_file "NDVI" [0.1; 0.2; 0.3]%float)) "data/temp/a.h5"
           0%float 1%float "NDVI" (row_match [0.1; 0.2; 0.3]%float 0.2%float)).
  - vm_compute. reflexivity.
  - repeat constructor.
  - vm_compute. reflexivity.
  - vm_compute. reflexivity.
Defined.

Lemma all_nan_window_statistics_none_witness :
  dict_in "window_statistics"
    (entries (extract_pixel_value env_remote (scratch (cell_file "LST" nan))
                "data/temp/a.h5" 0%float 0%float "LST")) = true /\
  dict_get "window_statistics"
    (entries (extract_pixel_value env_remote (scratch (cell_file "LST" nan))
                "data/temp/a.h5" 0%float 0%float "LST")) = Some VNone.
Proof.
  apply (all_nan_window_statistics_none env_remote (scratch (cell_file "LST" nan))
           "data/temp/a.h5" 0%float 0%float "LST" (cell_match nan)).
  - vm_compute. reflexivity.
  - vm_compute. reflexivity.
  - vm_compute. reflexivity.
  - repeat constructor.
Defined.

(** C3, the claim as stated fails: for a window of NaN cells only, the
    extraction succeeds and its result has the key [window_statistics],
    holding [None]. *)
Lemma all_nan_window_key_present :
  let v := extract_pixel_value env_remote (scratch (cell_file "LST" nan))
             "data/temp/a.h5" 0%float 0%float "LST" in
  window_data_clean [[nan]] (0, 0) = [] /\
  dict_in "error" (entries v) = false /\
  dict_in "window_statistics" (entries v) = true /\
  dict_get "window_statistics" (entries v) = Some VNone.
Proof. vm_compute. repeat split; reflexivity. Qed.

(** C7, the claim as stated fails: over three cells equal to 0.1 the reported
    mean is above the reported maximum, and over one infinite cell the
    reported standard deviation is NaN, so not [>= 0]. *)
Lemma window_mean_exceeds_max :
  (let v := extract_pixel_value env_remote
              (scratch (row_file "NDVI" [0.1; 0.1; 0.1]%float))
              "data/temp/a.h5" 0%float 1%float "NDVI" in
   statistic v "mean" = Some (VFloat 0.10000000000000002%float) /\
   statistic v "max" = Some (VFloat 0.1%float) /\
   (0.10000000000000002 <=? 0.1)%float = false) /\
  (let v := extract_pixel_value env_remote (scratch (cell_file "LST" infinity))
              "data/temp/a.h5" 0%float 0%float "LST" in
   statistic v "std" = Some (VFloat nan) /\
   (0 <=? nan)%float = false).
Proof. vm_compute. repeat split; reflexivity. Qed.

Lemma window_statistics_population_witness :
  exists stats,
    dict_get "window_statistics"
      (entries (extract_pixel_value env_remote
                  (scratch (row_file "NDVI" [0.1; 0.2; 0.3]%float))
                  "data/temp/a.h5" 0%float 1%float "NDVI")) = Some (VDict stats) /\
    dict_get "min" stats = Some (VFloat 0.1%float) /\
    dict_get "max" stats = Some (VFloat 0.3%float).
Proof.
  destruct (window_statistics_population env_remote
              (scratch (row_file "NDVI" [0.1; 0.2; 0.3]%float)) "data/temp/a.h5"
              0%float 1%float "NDVI" (row_match [0.1; 0.2; 0.3]%float 0.2%float)
              (entries (extract_pixel_value env_remote
                          (scratch (row_file "NDVI" [0.1; 0.2; 0.3]%float))
                          "data/temp/a.h5" 0%float 1%float "NDVI")))
    as (_ & _ & (stats & Hs & _ & _ & Hmin & Hmax) & _).
  - vm_compute. reflexivity.
  - repeat constructor.
  - vm_compute. reflexivity.
  - vm_compute. reflexivity.
  - vm_compute. discriminate.
  - exists stats. split; [exact Hs|]. split; [exact Hmin | exact Hmax].
Defined.

End ExtractorExamples.

(* ================================================================== *)
(** * Facts about upload_to_mysql.py *)
(* ================================================================== *)

Module UploadFacts.
Import Py Upload.

(** *** extract_observation_data *)

(** The integer [round_half_even] picks is nearest to [num / den], and even
    when two integers are equally near. *)
Lemma round_half_even_nearest num den :
  (0 <= num)%Z -> (0 < den)%Z ->
  (0 <= round_half_even num den)%Z /\
  (Z.abs (2 * num - 2 * round_half_even num den * den) <= den)%Z /\
  (Z.abs (2 * num - 2 * round_half_even num den * den) = den ->
   Z.even (round_half_even num den) = true).
Proof.
  intros Hn Hd. unfold round_half_even.
  pose proof (Z.div_mod num den ltac:(lia)) as E.
  pose proof (Z.mod_pos_bound num den Hd) as B.
  pose proof (Z.div_pos num den Hn Hd) as Q.
  set (q := (num / den)%Z) in *. set (r := (num mod den)%Z) in *.
  assert (E1 : (2 * num - 2 * q * den = 2 * r)%Z) by lia.
  assert (E2 : (2 * num - 2 * (q + 1) * den = 2 * r - 2 * den)%Z) by lia.
  destruct (Z.compare_spec (2 * r) den) as [H|H|H].
  - destruct (Z.even q) eqn:Ev.
    + rewrite E1. split; [lia|]. split; [lia|]. intros _. exact Ev.
    + rewrite E2. split; [lia|]. split; [lia|]. intros _.
      replace (q + 1)%Z with (Z.succ q) by lia.
      rewrite Z.even_succ, <- Z.negb_even, Ev. reflexivity.
  - rewrite E1. split; [lia|]. split; lia.
  - rewrite E2. split; [lia|]. split; lia.
Qed.

(** Python's [round] rounds to decimals in the specification's sense. *)
Lemma round_rounded_to (x : float) (ndigits : nat) :
  (ndigits <= 323)%nat -> Document.rounded_to ndigits x (round x ndigits).
Proof.
  intros Hn. unfold Document.rounded_to, round.
  destruct (Prim2SF x) as [s|s| |s m e]; try reflexivity.
  destruct (Nat.ltb_spec 323 ndigits) as [H|_]; [lia|].
  set (num := (Z.pos m * 2 ^ Z.max e 0 * 10 ^ Z.of_nat ndigits)%Z).
  set (den := (2 ^ Z.max (- e) 0)%Z).
  assert (Hnum : (0 <= num)%Z).
  { unfold num. apply Z.mul_nonneg_nonneg; [apply Z.mul_nonneg_nonneg|];
      try lia; apply Z.pow_nonneg; lia. }
  assert (Hden : (0 < den)%Z) by (unfold den; apply Z.pow_pos_nonneg; lia).
  destruct (round_half_even_nearest num den Hnum Hden) as (K0 & K1 & K2).
  exists (round_half_even num den).
  split; [exact K0|]. split; [exact K1|]. split; [exact K2|].
  destruct (round_half_even num den); reflexivity.
Qed.

(** C8. For every serialized ObservationRecord the extraction step yields the
    observation date, the LST Celsius value rounded to 2 decimals and the NDVI
    value rounded to 3 decimals; a product that carries an error payload
    yields [None] for its field, and the step does not fail.  The rounded
    values are the binary64 nearest to the decimal nearest to the value, ties
    to the even digit. *)
Theorem extract_observation_data_record (r : Document.ObservationRecord) :
  exists lst_value ndvi_value,
    extract_observation_data (Document.to_json r) =
    Ok {| observation_date := VStr (Document.observation_date r);
          lst := lst_value; ndvi := ndvi_value |} /\
    match Document.lst r with
    | Document.Success p =>
        match Document.pixel_value_celsius p with
        | Some c =>
            lst_value = VFloat (round c 2) /\ Document.rounded_to 2 c (round c 2)
        | None => lst_value = VNone
        end
    | Document.Failure _ => lst_value = VNone
    end /\
    match Document.ndvi r with
    | Document.Success p =>
        ndvi_value = VFloat (round (Document.pixel_value p) 3) /\
        Document.rounded_to 3 (Document.pixel_value p) (round (Document.pixel_value p) 3)
    | Document.Failure _ => ndvi_value = VNone
    end.
Proof.
  destruct r as [la lo nm d t src l n]. unfold Document.to_json.
  cbn [Document.lst Document.ndvi Document.observation_date].
  destruct l as [[ds pv [c|] loc ws]|e], n as [[ds' pv' [c'|] loc' ws']|e'];
    eexists; eexists; (split; [reflexivity|]);
    cbn [Document.pixel_value_celsius Document.pixel_value];
    repeat split; apply round_rounded_to; lia.
Qed.

(** *** The upsert *)

Lemma same_key_fields location_id date r :
  same_key location_id (VStr date) r = true ->
  row_location_id r = location_id /\ row_observation_date r = VStr date.
Proof.
  unfold same_key. intros H. apply andb_prop in H. destruct H as [A B].
  apply Z.eqb_eq in A. destruct (row_observation_date r); try discriminate.
  apply String.eqb_eq in B. subst. auto.
Qed.

Lemma same_key_own location_id date lst_value ndvi_value :
  same_key location_id (VStr date)
    {| row_location_id := location_id; row_observation_date := VStr date;
       row_lst := lst_value; row_ndvi := ndvi_value |} = true.
Proof.
  unfold same_key. cbn [row_location_id row_observation_date].
  rewrite Z.eqb_refl, String.eqb_refl. reflexivity.
Qed.

Lemma upsert_rows_of location_id date lst_value ndvi_value rows :
  length (rows_of location_id date rows) <= 1 ->
  rows_of location_id date (upsert location_id (VStr date) lst_value ndvi_value rows) =
  [ {| row_location_id := location_id; row_observation_date := VStr date;
       row_lst := lst_value; row_ndvi := ndvi_value |} ].
Proof.
  unfold rows_of. induction rows as [|r rows IH]; intros U; cbn [upsert].
  - cbn [filter]. rewrite same_key_own. reflexivity.
  - cbn [filter] in U. destruct (same_key location_id (VStr date) r) eqn:K.
    + destruct (same_key_fields _ _ _ K) as [A B].
      cbn [filter]. rewrite A, B, same_key_own.
      f_equal. cbn [length] in U. destruct (filter _ rows); [reflexivity | cbn in U; lia].
    + cbn [filter]. rewrite K. apply IH. exact U.
Qed.

Lemma upsert_rows_beside location_id date lst_value ndvi_value rows loc' date' :
  (loc' <> location_id \/ date' <> date) ->
  rows_of loc' date' (upsert location_id (VStr date) lst_value ndvi_value rows) =
  rows_of loc' date' rows.
Proof.
  intros D. unfold rows_of.
  assert (N : forall r, same_key location_id (VStr date) r = true ->
                        same_key loc' (VStr date') r = false).
  { intros r K. destruct (same_key_fields _ _ _ K) as [A B].
    unfold same_key. rewrite A, B.
    destruct (Z.eqb_spec location_id loc'); cbn; [|reflexivity].
    destruct (String.eqb_spec date date'); [|reflexivity].
    subst. destruct D; congruence. }
  induction rows as [|r rows IH]; cbn [upsert].
  - cbn [filter]. rewrite N; [reflexivity | apply same_key_own].
  - destruct (same_key location_id (VStr date) r) eqn:K; cbn [filter].
    + rewrite (N r K). rewrite N; [reflexivity|].
      destruct (same_key_fields _ _ _ K) as [A B].
      rewrite A, B. apply same_key_own.
    + rewrite IH. reflexivity.
Qed.

(** The upsert keeps the key unique. *)
Lemma upsert_unique_key location_id date lst_value ndvi_value rows :
  unique_key rows ->
  unique_key (upsert location_id (VStr date) lst_value ndvi_value rows).
Proof.
  intros U loc' date'.
  destruct (Z.eq_dec loc' location_id) as [->|Nl];
    [destruct (string_dec date' date) as [->|Nd]|].
  - rewrite upsert_rows_of by apply U. cbn. lia.
  - rewrite upsert_rows_beside by auto. apply U.
  - rewrite upsert_rows_beside by auto. apply U.
Qed.

Lemma insert_observation_true w conn location_id observation conn' w' :
  insert_observation w conn location_id observation = (true, conn', w') ->
  tx_observations conn' =
    upsert location_id (observation_date observation) (lst observation)
           (ndvi observation) (tx_observations conn) /\
  observations (db w') = tx_observations conn' /\
  locations (db w') = locations (db w) /\
  execute_error w' = execute_error w /\ commit_error w' = commit_error w.
Proof.
  unfold insert_observation.
  destruct (execute_error w) eqn:Ee; [discriminate|].
  destruct (commit_error w) eqn:Ec; [discriminate|].
  intros E. injection E as <- <-. cbn. auto.
Qed.

(** C4. Two successful ingests under one key leave exactly one row for that
    key, holding the second call's values; rows under other keys are as the
    calls found them. *)
Theorem second_ingest_wins w conn location_id date o1 o2 c1 w1 c2 w2 :
  unique_key (tx_observations conn) ->
  observation_date o1 = VStr date ->
  observation_date o2 = VStr date ->
  insert_observation w conn location_id o1 = (true, c1, w1) ->
  insert_observation w1 c1 location_id o2 = (true, c2, w2) ->
  rows_of location_id date (observations (db w2)) =
    [ {| row_location_id := location_id; row_observation_date := VStr date;
         row_lst := lst o2; row_ndvi := ndvi o2 |} ] /\
  (forall loc' date', loc' <> location_id \/ date' <> date ->
     rows_of loc' date' (observations (db w2)) =
     rows_of loc' date' (tx_observations conn)) /\
  unique_key (observations (db w2)).
Proof.
  intros U D1 D2 E1 E2.
  destruct (insert_observation_true _ _ _ _ _ _ E1) as (T1 & _).
  destruct (insert_observation_true _ _ _ _ _ _ E2) as (T2 & O2 & _).
  rewrite O2, T2, T1, D1, D2.
  assert (U1 : unique_key (upsert location_id (VStr date) (lst o1) (ndvi o1)
                             (tx_observations conn)))
    by (apply upsert_unique_key; exact U).
  split; [apply upsert_rows_of; apply U1|].
  split; [|apply upsert_unique_key; exact U1].
  intros loc' date' D. rewrite !upsert_rows_beside by exact D. reflexivity.
Qed.


(** *** The CSV backup *)

Lemma lookup_update_same {A} k (v : A) l : lookup k (update k v l) = Some v.
Proof.
  induction l as [|[k' v'] l IH]; cbn.
  - rewrite String.eqb_refl. reflexivity.
  - destruct (String.eqb k k') eqn:E; cbn; rewrite ?String.eqb_refl, ?E; auto.
Qed.

Lemma lookup_update_other {A} k k' (v : A) l :
  k <> k' -> lookup k (update k' v l) = lookup k l.
Proof.
  intros N. apply String.eqb_neq in N.
  induction l as [|[k0 v0] l IH]; cbn.
  - rewrite N. reflexivity.
  - destruct (String.eqb k' k0) eqn:E; cbn.
    + apply String.eqb_eq in E. subst k0. rewrite N. reflexivity.
    + destruct (String.eqb k k0); auto.
Qed.

Lemma save_to_csv_backup_appended w observation location_id error_message :
  appended w (save_to_csv_backup w observation location_id error_message)
    (Line location_id (observation_date observation) (lst observation)
          (ndvi observation)
          match error_message with Some m => m | None => "" end) /\
  db (save_to_csv_backup w observation location_id error_message) = db w /\
  connects (save_to_csv_backup w observation location_id error_message) = connects w.
Proof.
  unfold appended, save_to_csv_backup, backup_before. cbn [backup_dir set_backup_dir db connects].
  repeat split.
  - apply lookup_update_same.
  - intros f N. apply lookup_update_other. exact N.
Qed.



(** C9 (as the code has it). A backup-only run connects to nothing, leaves
    the store as it was, appends exactly one line with an empty error to the
    run's backup file, and exits with status 0; when that file did not exist it
    is created as the header followed by that line. *)
Theorem backup_only_run args w json observation :
  backup_only args = true ->
  load_json_data w (input args) = Ok json ->
  extract_observation_data json = Ok observation ->
  fst (main args w) = 0%Z /\
  db (snd (main args w)) = db w /\
  connects (snd (main args w)) = connects w /\
  appended w (snd (main args w))
    (Line (location_id args) (observation_date observation) (lst observation)
          (ndvi observation) "") /\
  (lookup (backup_file w) (backup_dir w) = None ->
   lookup (backup_file w) (backup_dir (snd (main args w))) =
   Some [ Header fieldnames;
          Line (location_id args) (observation_date observation) (lst observation)
               (ndvi observation) "" ]).
Proof.
  intros Hb Hl He. unfold main. rewrite Hl, He, Hb. cbn [fst snd].
  destruct (save_to_csv_backup_appended w observation (location_id args) None)
    as (A & B & C).
  repeat split; auto; try apply A.
  intros N. destruct A as [A _]. rewrite A. unfold backup_before. rewrite N. reflexivity.
Qed.

(** *** Whole runs *)

(** A run that is not backup-only and exits with status 0 has upserted its
    observation into the store and written no backup. *)
Lemma main_uploaded args w :
  backup_only args = false ->
  fst (main args w) = 0%Z ->
  exists json observation,
    load_json_data w (input args) = Ok json /\
    extract_observation_data json = Ok observation /\
    observations (db (snd (main args w))) =
      upsert (location_id args) (observation_date observation) (lst observation)
             (ndvi observation) (observations (db w)) /\
    json_files (snd (main args w)) = json_files w /\
    backup_dir (snd (main args w)) = backup_dir w.
Proof.
  intros Hb. unfold main. rewrite Hb.
  destruct (load_json_data w (input args)) as [json| |] eqn:L; try discriminate.
  destruct (extract_observation_data json) as [observation| |] eqn:X; try discriminate.
  destruct (get_mysql_config w); try discriminate.
  destruct (PYMYSQL_AVAILABLE w) eqn:Ep; cbn [negb]; try discriminate.
  unfold connect_to_mysql. rewrite Ep. cbn [negb].
  change (connect_error (count_connect w)) with (connect_error w).
  destruct (connect_error w); try discriminate.
  destruct (verify_location_exists _ _ _); cbn [negb]; try discriminate.
  unfold insert_observation.
  change (execute_error (count_connect w)) with (execute_error w).
  change (commit_error (count_connect w)) with (commit_error w).
  destruct (execute_error w); try discriminate.
  destruct (commit_error w); try discriminate.
  intros _. exists json, observation. cbn. repeat split; auto.
Qed.

(** X23. On a store that respects the unique key, two successful runs for
    one location and one date leave one row under that key, with the second
    run's values. *)
Lemma two_runs_one_row args1 args2 w json1 json2 o1 o2 date :
  unique_key (observations (db w)) ->
  backup_only args1 = false -> backup_only args2 = false ->
  location_id args1 = location_id args2 ->
  load_json_data w (input args1) = Ok json1 ->
  extract_observation_data json1 = Ok o1 ->
  observation_date o1 = VStr date ->
  load_json_data w (input args2) = Ok json2 ->
  extract_observation_data json2 = Ok o2 ->
  observation_date o2 = VStr date ->
  fst (main args1 w) = 0%Z ->
  fst (main args2 (snd (main args1 w))) = 0%Z ->
  rows_of (location_id args2) date
    (observations (db (snd (main args2 (snd (main args1 w)))))) =
  [ {| row_location_id := location_id args2; row_observation_date := VStr date;
       row_lst := lst o2; row_ndvi := ndvi o2 |} ].
Proof.
  intros U B1 B2 El L1 X1 D1 L2 X2 D2 S1 S2.
  destruct (main_uploaded args1 w B1 S1) as (j1 & o1' & L1' & X1' & R1 & F1 & _).
  destruct (main_uploaded args2 _ B2 S2) as (j2 & o2' & L2' & X2' & R2 & _).
  rewrite L1 in L1'. injection L1' as <-. rewrite X1 in X1'. injection X1' as <-.
  unfold load_json_data in L2'. rewrite F1 in L2'.
  fold (load_json_data w (input args2)) in L2'.
  rewrite L2 in L2'. injection L2' as <-. rewrite X2 in X2'. injection X2' as <-.
  rewrite R2, R1, D1, D2, El.
  apply upsert_rows_of. apply upsert_unique_key. exact U.
Qed.

End UploadFacts.

(* ================================================================== *)
(** * The ingestor on the example worlds *)
(* ================================================================== *)

Module UploadExampleFacts.
Import Py Upload UploadFacts UploadExamples.

Example extract_example :
  extract_observation_data (Document.to_json example_record) = Ok example_observation.
Proof. vm_compute. reflexivity. Qed.

(** Python's [round] on values whose decimal expansion is not exact. *)
Example round_examples :
  round 2.675 2 = 2.67%float /\ round 0.125 2 = 0.12%float /\
  round 17.850000000000023 2 = 17.85%float /\ round 0.65432 3 = 0.654%float /\
  round (-0.001) 2 = (-0)%float /\ round nan 2 = nan.
Proof. vm_compute. repeat split; reflexivity. Qed.

(** The record the collector assembles from downloaded files, read back by
    the ingestor's extraction step. *)
Example pipeline_example :
  extract_observation_data
    (VDict (fst (Collect.collect_satellite_data Examples.env_remote
                   Examples.empty_scratch 0%float 1%float "2026-01-08" false))) =
  Ok {| observation_date := VStr "2026-01-08";
        lst := VFloat 17.85; ndvi := VFloat 291.0 |}.
Proof. vm_compute. reflexivity. Qed.

Lemma extract_observation_data_record_witness :
  extract_observation_data (Document.to_json example_record) =
    Ok {| observation_date := VStr "2026-01-08";
          lst := VFloat 17.85; ndvi := VFloat 0.654 |} /\
  Document.rounded_to 2 17.850000000000023 17.85 /\
  Document.rounded_to 3 0.65432 0.654.
Proof.
  destruct (extract_observation_data_record example_record)
    as (l & n & E & (El & Rl) & (En & Rn)).
  rewrite E, El, En. split; [vm_compute; reflexivity|].
  split; [exact Rl | exact Rn].
Defined.

Lemma second_ingest_wins_witness :
  rows_of 1 "2026-01-08"
    (observations (db (snd
       (insert_observation
          (snd (insert_observation world_store connection0 1 earlier_observation))
          (snd (fst (insert_observation world_store connection0 1 earlier_observation)))
          1 example_observation)))) =
  [ {| row_location_id := 1; row_observation_date := VStr "2026-01-08";
       row_lst := VFloat 17.85; row_ndvi := VFloat 0.654 |} ].
Proof.
  refine (proj1 (second_ingest_wins world_store connection0 1 "2026-01-08"
                   earlier_observation example_observation _ _ _ _
                   _ eq_refl eq_refl eq_refl eq_refl)).
  intros loc date. unfold rows_of.
  etransitivity; [apply filter_length_le | cbn; lia].
Defined.


Lemma backup_only_run_witness :
  fst (main args_backup_only world_store) = 0%Z /\
  lookup (backup_file world_store)
         (backup_dir (snd (main args_backup_only world_store))) =
  Some [ Header fieldnames;
         Line 1 (VStr "2026-01-08") (VFloat 17.85) (VFloat 0.654) "" ].
Proof.
  destruct (backup_only_run args_backup_only world_store
              (Document.to_json example_record) example_observation)
    as (A & _ & _ & _ & B).
  - reflexivity.
  - reflexivity.
  - vm_compute. reflexivity.
  - split; [exact A | apply B; reflexivity].
Defined.

(** C9, the claim as stated fails: when the backup file of the current second
    exists already, the run creates no file and the file ends with two data
    rows after its header. *)
Lemma backup_only_appends_to_existing_file :
  lookup (backup_file world_with_backup) (backup_dir world_with_backup) =
    Some [ Header fieldnames;
           Line 7 (VStr "2026-01-08") (VFloat 12.5) (VFloat 0.5) "" ] /\
  fst (main args_backup_only world_with_backup) = 0%Z /\
  lookup (backup_file world_with_backup)
         (backup_dir (snd (main args_backup_only world_with_backup))) =
    Some [ Header fieldnames;
           Line 7 (VStr "2026-01-08") (VFloat 12.5) (VFloat 0.5) "";
           Line 1 (VStr "2026-01-08") (VFloat 17.85) (VFloat 0.654) "" ].
Proof. vm_compute. repeat split; reflexivity. Qed.

End UploadExampleFacts.

(* ================================================================== *)
(** * Further facts: acquisition *)
(* ================================================================== *)

Module AcquisitionFacts.
Import F64 F64Facts Py Np NpFacts Collect CollectFacts CollectorFacts Examples.

(** *** search_and_download_real *)

(** X1. The real acquisition yields a path exactly when the client library is
    present, both credentials are set, the product is LST or NDVI and the
    service's download reports a file; in every other case it yields no path
    and leaves the scratch directory as it was. *)
Theorem search_and_download_real_outcome env st lat lon target_date product_type :
  (forall p,
     fst (search_and_download_real env st lat lon target_date product_type) = Some p <->
     GPORTAL_AVAILABLE env = true /\
     environ_get env "GPORTAL_USERNAME" "" <> "" /\
     environ_get env "GPORTAL_PASSWORD" "" <> "" /\
     (product_type = "LST" \/ product_type = "NDVI") /\
     exists content,
       gportal_service env product_type
         [(lon - 0.5)%float; (lat - 0.5)%float; (lon + 0.5)%float; (lat + 0.5)%float]
         target_date = Downloaded p content) /\
  (fst (search_and_download_real env st lat lon target_date product_type) = None ->
   fs (snd (search_and_download_real env st lat lon target_date product_type)) = fs st).
Proof.
  unfold search_and_download_real, get_gportal_credentials.
  destruct (GPORTAL_AVAILABLE env); cbn [negb].
  2:{ split; [|reflexivity]. intros p. split; [discriminate|]. intros (A & _). discriminate. }
  destruct (environ_get env "GPORTAL_USERNAME" "") as [|a u] eqn:Eu; cbn [is_empty orb].
  { split; [|reflexivity]. intros p. split; [discriminate|]. intros (_ & A & _). congruence. }
  destruct (environ_get env "GPORTAL_PASSWORD" "") as [|b pw] eqn:Ep; cbn [is_empty orb].
  { split; [|reflexivity]. intros p. split; [discriminate|]. intros (_ & _ & A & _). congruence. }
  destruct (String.eqb_spec product_type "LST") as [El|Nl];
    [|destruct (String.eqb_spec product_type "NDVI") as [En|Nn]]; cbn [orb negb].
  3:{ split; [|reflexivity]. intros p. split; [discriminate|].
      intros (_ & _ & _ & [A|A] & _); congruence. }
  all: destruct (gportal_service env product_type _ target_date) as [e| | |path [c|]] eqn:Es;
    cbn [fst snd]; (split; [|try reflexivity; discriminate]); intros p; split;
    try discriminate;
    try (intros (_ & _ & _ & _ & c' & E); discriminate);
    try (intros E; injection E as <-; repeat split; try discriminate; eauto);
    try (intros (_ & _ & _ & _ & c' & E); injection E as <- _; reflexivity).
Qed.

Lemma search_and_download_real_outcome_witness :
  fst (search_and_download_real env_remote empty_scratch
         0%float 1%float "2026-01-08" "LST") = Some "data/temp/LST".
Proof.
  apply (proj1 (search_and_download_real_outcome env_remote empty_scratch
                  0%float 1%float "2026-01-08" "LST")).
  split; [reflexivity|]. split; [discriminate|]. split; [discriminate|].
  split; [left; reflexivity|]. eexists. reflexivity.
Defined.

End AcquisitionFacts.

Module GeneratorFacts.
Import F64 F64Facts Py Np NpFacts Collect CollectFacts CollectorFacts Examples.

(** *** create_mock_hdf5 *)

Lemma clip1_range lo hi x :
  (lo <=? hi)%float = true ->
  is_nan (clip1 lo hi x) = true \/
  ((lo <=? clip1 lo hi x)%float = true /\ (clip1 lo hi x <=? hi)%float = true).
Proof.
  intros L. destruct (leb_not_nan _ _ L) as [Nlo Nhi]. unfold clip1.
  destruct (x <? lo)%float eqn:A.
  - right. split; [apply leb_refl; exact Nlo | exact L].
  - destruct (hi <? x)%float eqn:B.
    + right. split; [exact L | apply leb_refl; exact Nhi].
    + destruct (is_nan x) eqn:N; [left; reflexivity|right].
      split; apply not_ltb_leb; auto.
Qed.

Lemma mock_data_clip env n P :
  mock_data env n P =
  clip (random_normal env n (if String.eqb P "LST" then 291.5 else 0.75)%float
                            (if String.eqb P "LST" then 3.0 else 0.08)%float)
       (fst (clip_range P)) (snd (clip_range P)).
Proof. unfold mock_data, clip_range. destruct (String.eqb P "LST"); reflexivity. Qed.

Lemma clip_range_ordered P : (fst (clip_range P) <=? snd (clip_range P))%float = true.
Proof. unfold clip_range. destruct (String.eqb P "LST"); reflexivity. Qed.

Lemma mock_data_cell_range env n P i j x :
  cell (mock_data env n P) i j = Some x ->
  is_nan x = true \/
  ((fst (clip_range P) <=? x)%float = true /\ (x <=? snd (clip_range P))%float = true).
Proof.
  rewrite mock_data_clip. unfold clip. rewrite cell_map.
  destruct (cell _ i j) as [y|]; [|discriminate].
  intros E. injection E as <-. apply clip1_range, clip_range_ordered.
Qed.

Lemma mock_file_eq env n lat lon P :
  mock_file env n lat lon P =
  [ ("Geometry_data/Latitude",
       snd (meshgrid (linspace (lon - 0.5) (lon + 0.5) 100)
                     (linspace (lat - 0.5) (lat + 0.5) 100)));
    ("Geometry_data/Longitude",
       fst (meshgrid (linspace (lon - 0.5) (lon + 0.5) 100)
                     (linspace (lat - 0.5) (lat + 0.5) 100)));
    (String.append "Image_data/" P, mock_data env n P) ].
Proof. reflexivity. Qed.

Lemma meshgrid_cells (x y : list float) r c :
  cell (fst (meshgrid x y)) r c =
    (match nth_error y r with Some _ => nth_error x c | None => None end) /\
  cell (snd (meshgrid x y)) r c =
    (match nth_error y r, nth_error x c with
     | Some v, Some _ => Some v
     | _, _ => None
     end).
Proof.
  unfold meshgrid, cell. cbn [fst snd]. rewrite !nth_error_map.
  destruct (nth_error y r) as [v|]; cbn; [|auto].
  rewrite nth_error_map. destruct (nth_error x c); auto.
Qed.

Lemma linspace_last start stop n : nth_error (linspace start stop (S n)) n = Some stop.
Proof.
  unfold linspace. rewrite nth_error_app2; rewrite length_map, length_seq; cbn; try lia.
  replace (n - (n - 0)) with 0 by lia. reflexivity.
Qed.

Lemma linspace_defined start stop n i :
  i < S n -> exists x, nth_error (linspace start stop (S n)) i = Some x.
Proof.
  intros L. destruct (nth_error (linspace start stop (S n)) i) eqn:E; eauto.
  apply nth_error_None in E. rewrite linspace_length in E. lia.
Qed.

(** X2. A file the generator writes holds the product's image under
    [Image_data/<product>], a 100x100 array whose every cell is NaN or lies in
    the clipping range, 273..320 for LST and 0..1 for any other product. *)
Theorem generated_image_in_range env st lat lon target_date product_type p st' :
  create_mock_hdf5 env st lat lon target_date product_type = (Some p, st') ->
  exists f data,
    open_hdf5 st' p = Ok f /\
    dataset f (String.append "Image_data/" product_type) = Ok data /\
    shape data = (100, 100) /\ rectangular data /\
    forall i j x, cell data i j = Some x ->
      is_nan x = true \/
      ((fst (clip_range product_type) <=? x)%float = true /\
       (x <=? snd (clip_range product_type))%float = true).
Proof.
  unfold create_mock_hdf5.
  destruct (orb _ _); [discriminate|].
  destruct (negb (temp_writable env)); [discriminate|].
  intros E. injection E as <- <-.
  exists (mock_file env (draws st) lat lon product_type),
         (mock_data env (draws st) product_type).
  destruct (mock_data_shape env (draws st) product_type) as [R N].
  split; [unfold open_hdf5; cbn [fs log]; rewrite fs_get_put; reflexivity|].
  split.
  { unfold dataset. rewrite mock_file_eq.
    cbn [hdf5_get String.append String.eqb Ascii.eqb Bool.eqb].
    rewrite String.eqb_refl. reflexivity. }
  assert (C : ncols (mock_data env (draws st) product_type) = 100).
  { apply ncols_rows; auto. intro Z. rewrite Z in N. discriminate. }
  split; [unfold shape; rewrite N, C; reflexivity|].
  split; [apply (rows_rectangular 100); exact R|].
  intros i j x. apply mock_data_cell_range.
Qed.

Lemma generated_image_in_range_witness :
  exists f data,
    open_hdf5 (snd (create_mock_hdf5 env_no_client empty_scratch
                      32.8032%float 130.7075%float "2026-01-08" "LST"))
              "data/temp/GC1SG1_2026010801D01D_LST_MOCK.h5" = Ok f /\
    dataset f "Image_data/LST" = Ok data /\
    forall i j x, cell data i j = Some x ->
      is_nan x = true \/ ((273 <=? x)%float = true /\ (x <=? 320)%float = true).
Proof.
  destruct (generated_image_in_range env_no_client empty_scratch
              32.8032%float 130.7075%float "2026-01-08" "LST"
              "data/temp/GC1SG1_2026010801D01D_LST_MOCK.h5"
              (snd (create_mock_hdf5 env_no_client empty_scratch
                      32.8032%float 130.7075%float "2026-01-08" "LST")))
    as (f & data & A & B & _ & _ & C).
  - reflexivity.
  - exists f, data. split; [exact A|]. split; [exact B | exact C].
Defined.

(** X3. In a generated file the two coordinate grids are 100x100; the
    latitude of a cell depends on its row only and the longitude on its column
    only, both read off 100 evenly spaced points across one degree around the
    query; the last row lies at exactly [lat + 0.5] and the last column at
    exactly [lon + 0.5]. *)
Theorem generated_grid_orientation env st lat lon target_date product_type p st' :
  create_mock_hdf5 env st lat lon target_date product_type = (Some p, st') ->
  let lat_range := linspace (lat - 0.5) (lat + 0.5) 100 in
  let lon_range := linspace (lon - 0.5) (lon + 0.5) 100 in
  exists f lat_grid lon_grid,
    open_hdf5 st' p = Ok f /\
    dataset f "Geometry_data/Latitude" = Ok lat_grid /\
    dataset f "Geometry_data/Longitude" = Ok lon_grid /\
    shape lat_grid = (100, 100) /\ rectangular lat_grid /\
    shape lon_grid = (100, 100) /\ rectangular lon_grid /\
    (forall r c, r < 100 -> c < 100 ->
       exists la lo,
         nth_error lat_range r = Some la /\ nth_error lon_range c = Some lo /\
         cell lat_grid r c = Some la /\ cell lon_grid r c = Some lo) /\
    (forall c, c < 100 -> cell lat_grid 99 c = Some (lat + 0.5)%float) /\
    (forall r, r < 100 -> cell lon_grid r 99 = Some (lon + 0.5)%float).
Proof.
  unfold create_mock_hdf5.
  destruct (orb _ _); [discriminate|].
  destruct (negb (temp_writable env)); [discriminate|].
  intros E. injection E as <- <-.
  set (lat_range := linspace (lat - 0.5) (lat + 0.5) 100).
  set (lon_range := linspace (lon - 0.5) (lon + 0.5) 100).
  exists (mock_file env (draws st) lat lon product_type),
         (snd (meshgrid lon_range lat_range)), (fst (meshgrid lon_range lat_range)).
  pose proof (meshgrid_shape lon_range lat_range) as M.
  destruct (meshgrid lon_range lat_range) as [g1 g2] eqn:Em. cbn [fst snd].
  unfold lat_range, lon_range in M. rewrite !linspace_length in M.
  destruct M as (R1 & N1 & R2 & N2).
  assert (C1 : ncols g1 = 100)
    by (apply ncols_rows; auto; intro Z; rewrite Z in N1; discriminate).
  assert (C2 : ncols g2 = 100)
    by (apply ncols_rows; auto; intro Z; rewrite Z in N2; discriminate).
  assert (Cells : forall r c,
    cell g1 r c =
      (match nth_error lat_range r with Some _ => nth_error lon_range c | None => None end) /\
    cell g2 r c =
      (match nth_error lat_range r, nth_error lon_range c with
       | Some v, Some _ => Some v
       | _, _ => None
       end)).
  { intros r c. pose proof (meshgrid_cells lon_range lat_range r c) as H.
    rewrite Em in H. exact H. }
  split; [unfold open_hdf5; cbn [fs log]; rewrite fs_get_put; reflexivity|].
  split; [unfold dataset; rewrite mock_file_eq; fold lat_range lon_range; rewrite Em; reflexivity|].
  split; [unfold dataset; rewrite mock_file_eq; fold lat_range lon_range; rewrite Em; reflexivity|].
  split; [unfold shape; rewrite N2, C2; reflexivity|].
  split; [apply (rows_rectangular 100); exact R2|].
  split; [unfold shape; rewrite N1, C1; reflexivity|].
  split; [apply (rows_rectangular 100); exact R1|].
  split; [|split].
  - intros r c Hr Hc.
    destruct (linspace_defined (lat - 0.5) (lat + 0.5) 99 r Hr) as [la Ela].
    destruct (linspace_defined (lon - 0.5) (lon + 0.5) 99 c Hc) as [lo Elo].
    fold lat_range in Ela. fold lon_range in Elo.
    exists la, lo. destruct (Cells r c) as [A B]. rewrite A, B, Ela, Elo. auto.
  - intros c Hc. destruct (Cells 99 c) as [_ B]. rewrite B.
    unfold lat_range. rewrite (linspace_last _ _ 99).
    destruct (linspace_defined (lon - 0.5) (lon + 0.5) 99 c Hc) as [lo Elo].
    fold lon_range in Elo. rewrite Elo. reflexivity.
  - intros r Hr. destruct (Cells r 99) as [A _]. rewrite A.
    destruct (linspace_defined (lat - 0.5) (lat + 0.5) 99 r Hr) as [la Ela].
    fold lat_range in Ela. rewrite Ela. unfold lon_range. apply (linspace_last _ _ 99).
Qed.

Lemma generated_grid_orientation_witness :
  exists f lat_grid lon_grid,
    open_hdf5 (snd (create_mock_hdf5 env_no_client empty_scratch
                      32.5%float 130.5%float "2026-01-08" "NDVI"))
              "data/temp/GC1SG1_2026010801D01D_NDVI_MOCK.h5" = Ok f /\
    dataset f "Geometry_data/Latitude" = Ok lat_grid /\
    dataset f "Geometry_data/Longitude" = Ok lon_grid /\
    cell lat_grid 99 0 = Some 33%float /\ cell lon_grid 0 99 = Some 131%float.
Proof.
  destruct (generated_grid_orientation env_no_client empty_scratch
              32.5%float 130.5%float "2026-01-08" "NDVI"
              "data/temp/GC1SG1_2026010801D01D_NDVI_MOCK.h5"
              (snd (create_mock_hdf5 env_no_client empty_scratch
                      32.5%float 130.5%float "2026-01-08" "NDVI")))
    as (f & la & lo & A & B & C & _ & _ & _ & _ & _ & D & E).
  - reflexivity.
  - exists f, la, lo. split; [exact A|]. split; [exact B|]. split; [exact C|].
    split; [apply (D 0); lia | apply (E 0); lia].
Defined.

End GeneratorFacts.

(* ================================================================== *)
(** * Further facts: extraction *)
(* ================================================================== *)

Module ExtractionFacts.
Import F64 F64Facts Py Np NpFacts Collect CollectFacts CollectorFacts Examples GeneratorFacts.

(** The nearest-cell search on a generated file ends inside the array. *)
Lemma mock_locate env st n lat lon P path :
  fs_get path (fs st) = Some (Hdf5 (mock_file env n lat lon P)) ->
  exists m,
    locate st path lat lon P = Ok m /\
    m_data m = mock_data env n P /\
    m_lat_grid m = snd (meshgrid (linspace (lon - 0.5) (lon + 0.5) 100)
                                 (linspace (lat - 0.5) (lat + 0.5) 100)) /\
    m_lon_grid m = fst (meshgrid (linspace (lon - 0.5) (lon + 0.5) 100)
                                 (linspace (lat - 0.5) (lat + 0.5) 100)) /\
    fst (m_idx m) < 100 /\ snd (m_idx m) < 100.
Proof.
  intros Hf.
  destruct (mock_file_datasets env n lat lon P)
    as (data & la & lo & Ed & Ela & Elo & Rd & Nd & Rla & Nla & Rlo & Nlo).
  assert (Ed' : data = mock_data env n P).
  { revert Ed. rewrite mock_file_eq.
    cbn [hdf5_get String.append String.eqb Ascii.eqb Bool.eqb].
    rewrite String.eqb_refl. congruence. }
  assert (Ela' : la = snd (meshgrid (linspace (lon - 0.5) (lon + 0.5) 100)
                                    (linspace (lat - 0.5) (lat + 0.5) 100))).
  { revert Ela. rewrite mock_file_eq. cbn [hdf5_get String.eqb Ascii.eqb Bool.eqb]. congruence. }
  assert (Elo' : lo = fst (meshgrid (linspace (lon - 0.5) (lon + 0.5) 100)
                                    (linspace (lat - 0.5) (lat + 0.5) 100))).
  { revert Elo. rewrite mock_file_eq. cbn [hdf5_get String.eqb Ascii.eqb Bool.eqb]. congruence. }
  assert (Cla : ncols la = 100) by (apply ncols_rows; auto; intro Z; rewrite Z in Nla; discriminate).
  assert (Clo : ncols lo = 100) by (apply ncols_rows; auto; intro Z; rewrite Z in Nlo; discriminate).
  assert (Cd : ncols data = 100) by (apply ncols_rows; auto; intro Z; rewrite Z in Nd; discriminate).
  assert (Rla' : rectangular la) by (apply (rows_rectangular 100); auto).
  assert (Rlo' : rectangular lo) by (apply (rows_rectangular 100); auto).
  assert (Rd' : rectangular data) by (apply (rows_rectangular 100); auto).
  assert (Sh : shape la = shape lo) by (unfold shape; congruence).
  destruct (distance_grid_defined la lo lat lon Rla' Rlo' Sh) as (d & Edg & Nrd).
  destruct (distance_grid_cells _ _ _ _ _ Rla' Rlo' Sh Edg) as [_ Rows].
  rewrite Cla in Rows.
  assert (Ld : length (ravel d) = 100 * 100).
  { unfold ravel. rewrite (length_concat_rect d 100) by auto. unfold nrows in *. lia. }
  destruct (argmin_flat (ravel d)) as [k|] eqn:Ek.
  2:{ destruct (ravel d); [discriminate Ld | discriminate Ek]. }
  pose proof (argmin_flat_lt _ _ Ek) as Lk. rewrite Ld in Lk.
  assert (Cdd : ncols d = 100).
  { apply ncols_rows; auto. intro Z. rewrite Z in Ld. discriminate. }
  assert (Hi : k / 100 < 100) by (apply Nat.Div0.div_lt_upper_bound; lia).
  assert (Hj : k mod 100 < 100) by (apply Nat.mod_upper_bound; lia).
  destruct (cell_defined data (k / 100) (k mod 100)) as [pv Epv]; auto; try lia.
  exists {| m_data := data; m_lat_grid := la; m_lon_grid := lo;
            m_distances := d; m_idx := (k / 100, k mod 100);
            m_pixel_value := pv |}.
  cbn [m_data m_lat_grid m_lon_grid m_idx fst snd].
  split; [|auto].
  unfold locate, open_hdf5, dataset, Np.argmin, Np.getitem. rewrite Hf. cbn [bind].
  rewrite Ed, Ela, Elo. cbn [bind]. rewrite Edg. cbn [bind]. rewrite Ek. cbn [bind].
  unfold unravel_index, shape. rewrite Cdd. cbn [fst snd]. rewrite Epv. reflexivity.
Qed.

(** X4. Extraction from a generated file never fails: it reports a pixel
    inside the 100x100 array, whose coordinates are the grid points of its row
    and column and whose value is that cell of the generated image, NaN or
    inside the product's clipping range. *)
Theorem generated_file_extraction env st n lat lon P path :
  NUMPY_AVAILABLE env = true -> H5PY_AVAILABLE env = true ->
  fs_get path (fs st) = Some (Hdf5 (mock_file env n lat lon P)) ->
  exists r i j pv la lo,
    extract_pixel_value env st path lat lon P = VDict r /\
    dict_in "error" r = false /\
    i < 100 /\ j < 100 /\
    dict_get "pixel_location" r =
      Some (VDict [ ("row", VInt (Z.of_nat i)); ("col", VInt (Z.of_nat j));
                    ("latitude", VFloat la); ("longitude", VFloat lo) ]) /\
    nth_error (linspace (lat - 0.5) (lat + 0.5) 100) i = Some la /\
    nth_error (linspace (lon - 0.5) (lon + 0.5) 100) j = Some lo /\
    dict_get "pixel_value" r = Some (VFloat pv) /\
    cell (mock_data env n P) i j = Some pv /\
    (is_nan pv = true \/
     ((fst (clip_range P) <=? pv)%float = true /\
      (pv <=? snd (clip_range P))%float = true)).
Proof.
  intros Hn Hh Hf.
  destruct (mock_locate env st n lat lon P path Hf) as (m & El & Ed & Ela & Elo & Hi & Hj).
  destruct (locate_inv _ _ _ _ _ _ El) as (f & k & _ & _ & _ & _ & _ & _ & _ & Epv).
  destruct (linspace_defined (lat - 0.5) (lat + 0.5) 99 (fst (m_idx m)) Hi) as [la Hla].
  destruct (linspace_defined (lon - 0.5) (lon + 0.5) 99 (snd (m_idx m)) Hj) as [lo Hlo].
  destruct (meshgrid_cells (linspace (lon - 0.5) (lon + 0.5) 100)
              (linspace (lat - 0.5) (lat + 0.5) 100) (fst (m_idx m)) (snd (m_idx m)))
    as [Clo Cla].
  rewrite <- Elo in Clo. rewrite <- Ela in Cla. rewrite Hla, Hlo in Clo, Cla.
  assert (Eb : exists r, build_result P m = Ok (VDict r)).
  { destruct (build_result P m) as [v|v|e] eqn:Eb.
    - destruct (build_result_fields _ _ _ Eb) as (r & -> & _). eauto.
    - exfalso. revert Eb. unfold build_result, Np.getitem.
      destruct (m_idx m) as [i j]. cbn [fst snd] in *. rewrite Cla, Clo. cbn [bind].
      destruct (String.eqb P "LST"); discriminate.
    - exfalso. revert Eb. unfold build_result, Np.getitem.
      destruct (m_idx m) as [i j]. cbn [fst snd] in *. rewrite Cla, Clo. cbn [bind].
      destruct (String.eqb P "LST"); discriminate. }
  destruct Eb as [r Eb].
  destruct (build_result_fields _ _ _ Eb)
    as (r' & Er & Herr & _ & Hpv & _ & _ & la' & lo' & Hla' & Hlo' & Hloc).
  injection Er as <-.
  rewrite Cla in Hla'. injection Hla' as <-. rewrite Clo in Hlo'. injection Hlo' as <-.
  exists r, (fst (m_idx m)), (snd (m_idx m)), (m_pixel_value m), la, lo.
  rewrite Ed in Epv.
  split.
  { unfold extract_pixel_value, extract_body. rewrite Hn, Hh, El. cbn [negb orb bind].
    rewrite Eb. reflexivity. }
  repeat (split; [assumption|]).
  exact (mock_data_cell_range _ _ _ _ _ _ Epv).
Qed.

Lemma generated_file_extraction_witness :
  exists r i j,
    extract_pixel_value env_no_client
      (snd (create_mock_hdf5 env_no_client empty_scratch
              32.8032%float 130.7075%float "2026-01-08" "LST"))
      "data/temp/GC1SG1_2026010801D01D_LST_MOCK.h5"
      32.8032%float 130.7075%float "LST" = VDict r /\
    dict_in "error" r = false /\ i < 100 /\ j < 100.
Proof.
  destruct (generated_file_extraction env_no_client
              (snd (create_mock_hdf5 env_no_client empty_scratch
                      32.8032%float 130.7075%float "2026-01-08" "LST"))
              0 32.8032%float 130.7075%float "LST"
              "data/temp/GC1SG1_2026010801D01D_LST_MOCK.h5")
    as (r & i & j & pv & la & lo & A & B & C & D & _).
  - reflexivity.
  - reflexivity.
  - reflexivity.
  - exists r, i, j. auto.
Defined.

(** *** Unit conversion *)

(** X5. A successful extraction named LST carries [pixel_value_celsius], the
    pixel value minus 273.15, and its reported statistics carry
    [mean_celsius], the reported mean minus 273.15; an extraction under any
    other name carries neither key. *)
Theorem celsius_conversion env st path lat lon name r :
  extract_pixel_value env st path lat lon name = VDict r ->
  dict_in "error" r = false ->
  exists pv,
    dict_get "pixel_value" r = Some (VFloat pv) /\
    (name = "LST" ->
     dict_get "pixel_value_celsius" r = Some (VFloat (pv - 273.15)%float) /\
     forall stats, dict_get "window_statistics" r = Some (VDict stats) ->
       exists mean,
         dict_get "mean" stats = Some (VFloat mean) /\
         dict_get "mean_celsius" stats = Some (VFloat (mean - 273.15)%float)) /\
    (name <> "LST" ->
     dict_in "pixel_value_celsius" r = false /\
     forall stats, dict_get "window_statistics" r = Some (VDict stats) ->
       dict_in "mean_celsius" stats = false).
Proof.
  intros E N.
  destruct (extract_success _ _ _ _ _ _ _ E N) as (m & _ & Eb).
  destruct (build_result_fields _ _ _ Eb) as (r' & Er & _ & _ & Hpv & Hw & Hc & _).
  injection Er as <-.
  exists (m_pixel_value m). split; [exact Hpv|]. split.
  - intros ->. cbn in Hc. split; [exact Hc|].
    intros stats Hs. rewrite Hw in Hs. injection Hs as Hs. revert Hs.
    unfold window_stats. destruct (0 <? length _)%nat; [|discriminate].
    cbn. intros Hs. injection Hs as <-. eexists. split; reflexivity.
  - intros Hn. apply String.eqb_neq in Hn. rewrite Hn in Hc.
    split; [unfold dict_in; rewrite Hc; reflexivity|].
    intros stats Hs. rewrite Hw in Hs. injection Hs as Hs. revert Hs.
    unfold window_stats. destruct (0 <? length _)%nat; [|discriminate].
    rewrite Hn. intros Hs. injection Hs as <-. reflexivity.
Qed.

Lemma celsius_conversion_witness :
  exists pv,
    dict_get "pixel_value"
      (entries (extract_pixel_value env_remote
                  (scratch (row_file "LST" [290.5; 291.0; 291.5]%float))
                  "data/temp/a.h5" 0%float 1%float "LST")) = Some (VFloat pv) /\
    dict_get "pixel_value_celsius"
      (entries (extract_pixel_value env_remote
                  (scratch (row_file "LST" [290.5; 291.0; 291.5]%float))
                  "data/temp/a.h5" 0%float 1%float "LST")) =
    Some (VFloat (pv - 273.15)%float).
Proof.
  destruct (celsius_conversion env_remote
              (scratch (row_file "LST" [290.5; 291.0; 291.5]%float))
              "data/temp/a.h5" 0%float 1%float "LST"
              (entries (extract_pixel_value env_remote
                          (scratch (row_file "LST" [290.5; 291.0; 291.5]%float))
                          "data/temp/a.h5" 0%float 1%float "LST")))
    as (pv & A & B & _).
  - vm_compute. reflexivity.
  - vm_compute. reflexivity.
  - exists pv. split; [exact A|]. apply B. reflexivity.
Defined.

(** *** What an extraction returns *)

(** X6. An extraction never raises and always returns a dict: either the
    one-key payload [{"error": message}], or a payload without the key
    [error] that holds [dataset] (the requested name), [pixel_value],
    [pixel_location] and [window_statistics]. *)
Theorem extraction_payload_shape env st path lat lon name :
  exists r,
    extract_pixel_value env st path lat lon name = VDict r /\
    ((exists msg, r = [("error", VStr msg)]) \/
     (dict_in "error" r = false /\
      dict_get "dataset" r = Some (VStr name) /\
      dict_in "pixel_value" r = true /\
      dict_in "pixel_location" r = true /\
      dict_in "window_statistics" r = true)).
Proof.
  destruct (extract_pixel_value_cases env st path lat lon name)
    as [(msg & E) | (m & r & _ & Eb & E)].
  - exists [("error", VStr msg)]. split; [exact E|]. left. eauto.
  - exists r. split; [exact E|]. right.
    destruct (build_result_fields _ _ _ Eb)
      as (r' & Er & Herr & Hds & Hpv & Hw & _ & la & lo & _ & _ & Hloc).
    injection Er as <-. unfold dict_in. rewrite Hpv, Hw, Hloc. auto.
Qed.

(** X7. What is missing decides the error: without numpy or h5py the
    extraction reports that and reads nothing; otherwise a path that holds no
    file, or a file that is not HDF5, gives an extraction error, a file
    without the image dataset gives the dataset-not-found message whatever
    else the file holds, and a file with the image but without a coordinate
    grid gives an extraction error. *)
Theorem extraction_error_cases env st path lat lon name :
  (H5PY_AVAILABLE env = false \/ NUMPY_AVAILABLE env = false ->
   extract_pixel_value env st path lat lon name =
   VDict [("error", VStr "h5pyまたはnumpyが必要です")]) /\
  (H5PY_AVAILABLE env = true -> NUMPY_AVAILABLE env = true ->
   (forall f, fs_get path (fs st) <> Some (Hdf5 f)) ->
   exists msg,
     extract_pixel_value env st path lat lon name =
     VDict [("error", VStr (String.append "データ抽出エラー: " msg))]) /\
  (forall f,
     H5PY_AVAILABLE env = true -> NUMPY_AVAILABLE env = true ->
     fs_get path (fs st) = Some (Hdf5 f) ->
     (hdf5_get (String.append "Image_data/" name) f = None ->
      extract_pixel_value env st path lat lon name =
      VDict [("error",
              VStr (String.append "データセット "
                      (String.append (String.append "Image_data/" name)
                                     " が見つかりません")))]) /\
     (hdf5_get (String.append "Image_data/" name) f <> None ->
      hdf5_get "Geometry_data/Latitude" f = None \/
      hdf5_get "Geometry_data/Longitude" f = None ->
      exists msg,
        extract_pixel_value env st path lat lon name =
        VDict [("error", VStr (String.append "データ抽出エラー: " msg))])).
Proof.
  unfold extract_pixel_value, extract_body, locate, open_hdf5, dataset.
  split; [|split].
  - intros [-> | ->]; [|rewrite orb_true_r]; reflexivity.
  - intros -> -> Hf. cbn [negb orb].
    destruct (fs_get path (fs st)) as [[f|]|]; cbn [bind]; eauto.
    destruct (Hf f). reflexivity.
  - intros f -> -> ->. cbn [negb orb bind]. split.
    + intros ->. reflexivity.
    + intros Hd Hg.
      destruct (hdf5_get (String.append "Image_data/" name) f); [|congruence].
      destruct (hdf5_get "Geometry_data/Latitude" f); cbn [bind]; [|eauto].
      destruct Hg as [Hg|Hg]; [discriminate|]. rewrite Hg. cbn [bind]. eauto.
Qed.

Lemma extraction_error_cases_witness :
  extract_pixel_value env_remote (scratch (row_file "LST" [290.5; 291.0; 291.5]%float))
    "data/temp/a.h5" 0%float 1%float "NDVI" =
  VDict [("error", VStr "データセット Image_data/NDVI が見つかりません")].
Proof.
  apply (proj2 (proj2 (extraction_error_cases env_remote
           (scratch (row_file "LST" [290.5; 291.0; 291.5]%float))
           "data/temp/a.h5" 0%float 1%float "NDVI"))
           (row_file "LST" [290.5; 291.0; 291.5]%float)); reflexivity.
Defined.

End ExtractionFacts.

Module EdgeFacts.
Import F64 F64Facts Py Np NpFacts Collect CollectFacts CollectorFacts Examples GeneratorFacts.

(** *** NaN in binary64 arithmetic *)

Lemma is_nan_SF x : is_nan x = true <-> Prim2SF x = S754_nan.
Proof.
  rewrite is_nan_key. destruct (Prim2SF x) as [s|s| |s m e]; cbn;
    try destruct s; split; congruence.
Qed.

Lemma sub_nan_r x y : is_nan y = true -> is_nan (x - y)%float = true.
Proof.
  rewrite !is_nan_SF, sub_spec. intros ->.
  destruct (Prim2SF x) as [s|s| |s m e]; reflexivity.
Qed.

Lemma mul_nan x y : is_nan x = true -> is_nan (x * y)%float = true.
Proof. rewrite !is_nan_SF, mul_spec. intros ->. reflexivity. Qed.

Lemma add_nan_l x y : is_nan x = true -> is_nan (x + y)%float = true.
Proof. rewrite !is_nan_SF, add_spec. intros ->. reflexivity. Qed.

Lemma add_nan_r x y : is_nan y = true -> is_nan (x + y)%float = true.
Proof.
  rewrite !is_nan_SF, add_spec. intros ->.
  destruct (Prim2SF x) as [s|s| |s m e]; reflexivity.
Qed.

Lemma sqrt_nan x : is_nan x = true -> is_nan (PrimFloat.sqrt x) = true.
Proof. rewrite !is_nan_SF, sqrt_spec. intros ->. reflexivity. Qed.

Lemma distance_nan lat lon la lo :
  is_nan lat = true \/ is_nan lon = true -> is_nan (distance lat lon la lo) = true.
Proof.
  intros H. unfold distance. apply sqrt_nan. destruct H as [H|H].
  - apply add_nan_l, mul_nan, sub_nan_r, H.
  - apply add_nan_r, mul_nan, sub_nan_r, H.
Qed.

(** *** A query coordinate that is NaN *)

(** X8. When the query latitude or longitude is NaN every distance is NaN,
    and a successful extraction reports the first cell of the array, row 0
    and column 0, with that cell's coordinates. *)
Theorem nan_query_first_cell env st path lat lon name f lat_grid lon_grid r :
  fs_get path (fs st) = Some (Hdf5 f) ->
  hdf5_get "Geometry_data/Latitude" f = Some lat_grid ->
  hdf5_get "Geometry_data/Longitude" f = Some lon_grid ->
  rectangular lat_grid -> rectangular lon_grid -> shape lat_grid = shape lon_grid ->
  is_nan lat = true \/ is_nan lon = true ->
  extract_pixel_value env st path lat lon name = VDict r ->
  dict_in "error" r = false ->
  exists la lo,
    cell lat_grid 0 0 = Some la /\ cell lon_grid 0 0 = Some lo /\
    dict_get "pixel_location" r =
      Some (VDict [ ("row", VInt 0); ("col", VInt 0);
                    ("latitude", VFloat la); ("longitude", VFloat lo) ]).
Proof.
  intros Hf Hla Hlo Rla Rlo Sh Hnan E N.
  destruct (extract_success _ _ _ _ _ _ _ E N) as (m & El & Eb).
  destruct (locate_inv _ _ _ _ _ _ El)
    as (f' & k & Hf' & _ & Hla' & Hlo' & Ed & Ek & Ei & _).
  rewrite Hf in Hf'. injection Hf' as <-.
  rewrite Hla in Hla'. injection Hla' as Gla. rewrite Hlo in Hlo'. injection Hlo' as Glo.
  rewrite <- Gla, <- Glo in *.
  destruct (distance_grid_cells _ _ _ _ _ Rla Rlo Sh Ed) as [Hc Hrows].
  set (d := m_distances m) in *. set (C := ncols lat_grid) in *.
  assert (Lk : k < length (ravel d)) by (apply argmin_flat_lt; auto).
  assert (Ld : length (ravel d) = length d * C) by (apply length_concat_rect; auto).
  assert (Dne : d <> []) by (intro Z; rewrite Z in Lk; cbn in Lk; lia).
  assert (Cd : ncols d = C) by (apply (ncols_rows C); auto).
  assert (Rd : rectangular d) by (apply (rows_rectangular C); auto).
  assert (HC : 0 < C) by (destruct C; lia).
  assert (E0 : nth_error (ravel d) 0 = cell d 0 0).
  { change 0 with (0 * ncols d + 0) at 1. apply cell_ravel; auto. rewrite Cd. exact HC. }
  rewrite Hc in E0.
  destruct (cell lat_grid 0 0) as [la|] eqn:Ela.
  2:{ destruct (ravel d); [cbn in Lk; lia | discriminate E0]. }
  destruct (cell lon_grid 0 0) as [lo|] eqn:Elo.
  2:{ destruct (ravel d); [cbn in Lk; lia | discriminate E0]. }
  assert (K0 : k = 0).
  { destruct (ravel d) as [|x l]; [discriminate E0|].
    cbn [nth_error] in E0. injection E0 as ->. unfold argmin_flat in Ek.
    rewrite (distance_nan lat lon la lo Hnan) in Ek. congruence. }
  assert (I0 : m_idx m = (0, 0)).
  { rewrite Ei, K0. unfold unravel_index, shape. cbn [snd]. rewrite Cd.
    rewrite Nat.Div0.div_0_l, Nat.Div0.mod_0_l. reflexivity. }
  destruct (build_result_fields _ _ _ Eb)
    as (r' & Er & _ & _ & _ & _ & _ & la1 & lo1 & Hla1 & Hlo1 & Hloc).
  injection Er as <-. rewrite I0 in Hla1, Hlo1, Hloc. cbn [fst snd] in *.
  rewrite <- Gla in Hla1. rewrite <- Glo in Hlo1.
  rewrite Ela in Hla1. injection Hla1 as <-. rewrite Elo in Hlo1. injection Hlo1 as <-.
  exists la, lo. auto.
Qed.

Lemma nan_query_first_cell_witness :
  exists la lo,
    dict_get "pixel_location"
      (entries (extract_pixel_value env_remote
                  (scratch (row_file "NDVI" [0.1; 0.2; 0.3]%float))
                  "data/temp/a.h5" nan 2%float "NDVI")) =
    Some (VDict [ ("row", VInt 0); ("col", VInt 0);
                  ("latitude", VFloat la); ("longitude", VFloat lo) ]).
Proof.
  destruct (nan_query_first_cell env_remote
              (scratch (row_file "NDVI" [0.1; 0.2; 0.3]%float))
              "data/temp/a.h5" nan 2%float "NDVI"
              (row_file "NDVI" [0.1; 0.2; 0.3]%float)
              [[0; 0; 0]]%float [[0; 1; 2]]%float
              (entries (extract_pixel_value env_remote
                          (scratch (row_file "NDVI" [0.1; 0.2; 0.3]%float))
                          "data/temp/a.h5" nan 2%float "NDVI")))
    as (la & lo & _ & _ & H).
  - reflexivity.
  - reflexivity.
  - reflexivity.
  - repeat constructor.
  - repeat constructor.
  - reflexivity.
  - left. reflexivity.
  - vm_compute. reflexivity.
  - vm_compute. reflexivity.
  - exists la, lo. exact H.
Defined.

(** *** The size of the window *)

Lemma length_slice_exact {A} (s e : Z) (l : list A) :
  (0 <= s <= e)%Z -> (e <= Z.of_nat (length l))%Z ->
  length (slice s e l) = Z.to_nat (e - s).
Proof.
  intros Hs He. unfold slice. rewrite length_firstn, length_skipn. lia.
Qed.

Lemma slice_rows (C : nat) (s e : Z) (a : ndarray) :
  (0 <= s)%Z ->
  Forall (fun r => length r = C) a -> Forall (fun r => length r = C) (slice s e a).
Proof.
  intros Hs R. rewrite Forall_forall in *. intros r H.
  apply In_slice in H; [|exact Hs]. destruct H as (k & _ & H).
  apply R. eapply nth_error_In, H.
Qed.

(** X9. On a rectangular array the window around an in-range pixel (i, j)
    holds exactly (min(rows, i+3) - max(0, i-2)) x (min(cols, j+3) -
    max(0, j-2)) cells: it is cut at the array's edges, never padded or
    wrapped, and it holds 25 cells exactly when the pixel is at least two
    cells away from every edge. *)
Theorem window_cell_count (data : ndarray) i j :
  rectangular data -> i < nrows data -> j < ncols data ->
  length (ravel (window_data data (i, j))) =
    (Nat.min (nrows data) (i + 3) - (i - 2)) * (Nat.min (ncols data) (j + 3) - (j - 2)) /\
  (length (ravel (window_data data (i, j))) = 25 <->
   2 <= i /\ i + 3 <= nrows data /\ 2 <= j /\ j + 3 <= ncols data).
Proof.
  intros R Hi Hj.
  assert (L : length (ravel (window_data data (i, j))) =
    (Nat.min (nrows data) (i + 3) - (i - 2)) * (Nat.min (ncols data) (j + 3) - (j - 2))).
  { unfold window_data, slice2, ravel. cbn [fst snd].
    change (window_size / 2)%Z with 2%Z.
    set (i0 := Z.max 0 (Z.of_nat i - 2)). set (i1 := Z.min _ (Z.of_nat i + 2 + 1)).
    set (j0 := Z.max 0 (Z.of_nat j - 2)). set (j1 := Z.min _ (Z.of_nat j + 2 + 1)).
    rewrite (length_concat_rect _ (Z.to_nat (j1 - j0))).
    - rewrite length_map, length_slice_exact by (unfold nrows in *; lia).
      unfold nrows, ncols in *. f_equal; lia.
    - apply Forall_forall. intros row H. apply in_map_iff in H.
      destruct H as (row' & <- & H').
      pose proof (slice_rows (ncols data) i0 i1 data ltac:(lia) R) as R'.
      rewrite Forall_forall in R'. specialize (R' _ H').
      apply length_slice_exact; lia. }
  split; [exact L|]. rewrite L. split.
  - intros E.
    assert (A : Nat.min (nrows data) (i + 3) - (i - 2) <= 5) by lia.
    assert (B : Nat.min (ncols data) (j + 3) - (j - 2) <= 5) by lia.
    assert (A' : Nat.min (nrows data) (i + 3) - (i - 2) = 5) by nia.
    assert (B' : Nat.min (ncols data) (j + 3) - (j - 2) = 5) by nia.
    lia.
  - intros (A & B & C & D).
    replace (Nat.min (nrows data) (i + 3) - (i - 2)) with 5 by lia.
    replace (Nat.min (ncols data) (j + 3) - (j - 2)) with 5 by lia. reflexivity.
Qed.

Lemma window_cell_count_witness :
  length (ravel (window_data [[0.1; 0.2; 0.3]]%float (0, 1))) = 3.
Proof.
  apply (proj1 (window_cell_count [[0.1; 0.2; 0.3]]%float 0 1
                  ltac:(repeat constructor) ltac:(cbn; lia) ltac:(cbn; lia))).
Defined.

End EdgeFacts.

(* ================================================================== *)
(** * Further facts: the collected record and the collector's run *)
(* ================================================================== *)

Module RecordFacts.
Import F64 F64Facts Py Np NpFacts Collect CollectFacts CollectorFacts Examples GeneratorFacts.

(** *** The record the collector assembles *)

(** A built result is the serialized form of a success payload. *)
Lemma build_result_payload name m v :
  build_result name m = Ok v ->
  exists p,
    v = Document.product_to_json (Document.Success p) /\
    Document.dataset p = name /\
    Document.pixel_value p = m_pixel_value m /\
    Document.pixel_value_celsius p =
      (if String.eqb name "LST" then Some (m_pixel_value m - 273.15)%float else None) /\
    Document.row (Document.pixel_location p) = Z.of_nat (fst (m_idx m)) /\
    Document.col (Document.pixel_location p) = Z.of_nat (snd (m_idx m)).
Proof.
  unfold build_result, Np.getitem.
  destruct (m_idx m) as [i j] eqn:Ei. cbn [fst snd].
  destruct (cell (m_lat_grid m) i j) as [la|]; cbn [bind]; [|discriminate].
  destruct (cell (m_lon_grid m) i j) as [lo|]; cbn [bind]; [|discriminate].
  set (clean := window_data_clean (m_data m) (i, j)).
  set (stats :=
    if (0 <? length clean)%nat
    then Some {| Document.mean := Np.mean clean; Document.std := Np.std clean;
                 Document.min := Np.amin clean; Document.max := Np.amax clean;
                 Document.mean_celsius :=
                   if String.eqb name "LST"
                   then Some (Np.mean clean - 273.15)%float else None |}
    else None).
  assert (Es : window_stats name clean = Document.statistics_to_json stats).
  { unfold window_stats, stats. destruct (0 <? length clean)%nat; [|reflexivity].
    destruct (String.eqb name "LST"); reflexivity. }
  rewrite Es.
  intros E.
  exists {| Document.dataset := name;
            Document.pixel_value := m_pixel_value m;
            Document.pixel_value_celsius :=
              if String.eqb name "LST" then Some (m_pixel_value m - 273.15)%float else None;
            Document.pixel_location :=
              {| Document.row := Z.of_nat i; Document.col := Z.of_nat j;
                 Document.latitude := la; Document.longitude := lo |};
            Document.window_statistics := stats |}.
  cbn [Document.dataset Document.pixel_value Document.pixel_value_celsius
       Document.pixel_location Document.row Document.col].
  split; [|auto].
  destruct (String.eqb name "LST"); injection E as <-; reflexivity.
Qed.

(** The observation one turn of the loop stores is the serialized form of a
    product result: the extraction's payload, or an error. *)
Lemma collect_product_result env lat lon target_date use_mock result st P :
  exists o,
    fst (collect_product env lat lon target_date use_mock (result, st) P) =
      set_observation (lower P) (Document.product_to_json o) result /\
    forall p, o = Document.Success p ->
      Document.dataset p = P /\
      Document.pixel_value_celsius p =
        (if String.eqb P "LST" then Some (Document.pixel_value p - 273.15)%float else None).
Proof.
  unfold collect_product.
  destruct (if orb use_mock (negb (GPORTAL_AVAILABLE env)) then _ else _) as [[p|] st1];
    cbn [fst].
  2:{ exists (Document.Failure "ファイル取得失敗"). split; [reflexivity|discriminate]. }
  destruct (exists_ st1 p).
  2:{ exists (Document.Failure "ファイル取得失敗"). split; [reflexivity|discriminate]. }
  destruct (extract_pixel_value_cases env st1 p lat lon P)
    as [(msg & E) | (m & r & _ & Eb & E)]; rewrite E.
  - exists (Document.Failure msg). split; [reflexivity|discriminate].
  - destruct (build_result_fields _ _ _ Eb) as (r' & Er & Herr & _).
    injection Er as <-. rewrite Herr. cbn [negb].
    destruct (build_result_payload _ _ _ Eb) as (pl & Ev & Hd & Hpv & Hc & _).
    exists (Document.Success pl). split; [rewrite Ev; reflexivity|].
    intros p' Ep. injection Ep as <-. rewrite Hpv. auto.
Qed.

Lemma collect_record env st lat lon target_date use_mock :
  exists l n,
    fst (collect_satellite_data env st lat lon target_date use_mock) =
      [ ("location",
           VDict [ ("latitude", VFloat lat); ("longitude", VFloat lon);
                   ("name", VStr "Observation Point") ]);
        ("observation_date", VStr target_date);
        ("processing_time", VStr (now_isoformat env));
        ("data_source", VStr (if use_mock then "mock" else "gportal"));
        ("observations",
           VDict [ ("lst", Document.product_to_json l);
                   ("ndvi", Document.product_to_json n) ]) ] /\
    (forall p, l = Document.Success p ->
       Document.dataset p = "LST" /\
       Document.pixel_value_celsius p = Some (Document.pixel_value p - 273.15)%float) /\
    (forall p, n = Document.Success p ->
       Document.dataset p = "NDVI" /\ Document.pixel_value_celsius p = None).
Proof.
  unfold collect_satellite_data.
  match goal with
  | |- context [fold_left _ _ (?r, st)] => set (result0 := r)
  end.
  cbn [fold_left].
  destruct (collect_product_result env lat lon target_date use_mock result0 st "LST")
    as (l & El & Hl).
  unfold dict in *.
  destruct (collect_product env lat lon target_date use_mock (result0, st) "LST")
    as [r1 st1] eqn:E1.
  destruct (collect_product_result env lat lon target_date use_mock r1 st1 "NDVI")
    as (n & En & Hn).
  cbn [fst] in El. exists l, n. split; [|split].
  - unfold dict in *. rewrite En, El. reflexivity.
  - intros p Ep. apply (Hl p Ep).
  - intros p Ep. apply (Hn p Ep).
Qed.

(** X10. Whatever the acquisitions and extractions do, the collector returns
    a record of the interface's form: the query's coordinates under the fixed
    name, the target date, the clock's time, the source tag, and under
    [observations] exactly the keys [lst] and [ndvi], each a success payload
    or an error payload.  A success payload under [lst] is named LST and
    carries its Celsius value; one under [ndvi] is named NDVI and carries
    none. *)
Theorem collected_record_shape env st lat lon target_date use_mock :
  exists r : Document.ObservationRecord,
    VDict (fst (collect_satellite_data env st lat lon target_date use_mock)) =
      Document.to_json r /\
    Document.location_latitude r = lat /\
    Document.location_longitude r = lon /\
    Document.location_name r = "Observation Point" /\
    Document.observation_date r = target_date /\
    Document.processing_time r = now_isoformat env /\
    Document.data_source r = (if use_mock then "mock" else "gportal") /\
    (forall p, Document.lst r = Document.Success p ->
       Document.dataset p = "LST" /\
       Document.pixel_value_celsius p = Some (Document.pixel_value p - 273.15)%float) /\
    (forall p, Document.ndvi r = Document.Success p ->
       Document.dataset p = "NDVI" /\ Document.pixel_value_celsius p = None).
Proof.
  destruct (collect_record env st lat lon target_date use_mock) as (l & n & E & Hl & Hn).
  exists {| Document.location_latitude := lat;
            Document.location_longitude := lon;
            Document.location_name := "Observation Point";
            Document.observation_date := target_date;
            Document.processing_time := now_isoformat env;
            Document.data_source := if use_mock then "mock" else "gportal";
            Document.lst := l; Document.ndvi := n |}.
  unfold dict in *. rewrite E. cbn. repeat split; auto; try apply Hl; try apply Hn; auto.
Qed.

(** The ingestor's extraction step on a record of the collector's form. *)
Lemma extract_of_record (location : value) (target_date now source : string) l n :
  (forall p, l = Document.Success p ->
     Document.pixel_value_celsius p = Some (Document.pixel_value p - 273.15)%float) ->
  Upload.extract_observation_data
    (VDict [ ("location", location);
             ("observation_date", VStr target_date);
             ("processing_time", VStr now);
             ("data_source", VStr source);
             ("observations",
                VDict [ ("lst", Document.product_to_json l);
                        ("ndvi", Document.product_to_json n) ]) ]) =
  Ok {| Upload.observation_date := VStr target_date;
        Upload.lst :=
          match l with
          | Document.Success p =>
              VFloat (Upload.round (Document.pixel_value p - 273.15)%float 2)
          | Document.Failure _ => VNone
          end;
        Upload.ndvi :=
          match n with
          | Document.Success p => VFloat (Upload.round (Document.pixel_value p) 3)
          | Document.Failure _ => VNone
          end |}.
Proof.
  intros Hl.
  destruct l as [[ds pv c loc ws]|e];
    [specialize (Hl _ eq_refl); cbn in Hl; subst c|];
    destruct n as [[ds' pv' [c'|] loc' ws']|e']; reflexivity.
Qed.

(** X11. The ingestor's extraction step accepts every record the collector
    returns: it yields the target date, for LST the pixel value minus 273.15
    rounded to 2 decimals and for NDVI the pixel value rounded to 3 decimals,
    and [None] for a product whose entry is an error payload. *)
Theorem collected_record_ingested env st lat lon target_date use_mock :
  exists l n,
    observation_of (fst (collect_satellite_data env st lat lon target_date use_mock))
      "lst" = Some (Document.product_to_json l) /\
    observation_of (fst (collect_satellite_data env st lat lon target_date use_mock))
      "ndvi" = Some (Document.product_to_json n) /\
    Upload.extract_observation_data
      (VDict (fst (collect_satellite_data env st lat lon target_date use_mock))) =
    Ok {| Upload.observation_date := VStr target_date;
          Upload.lst :=
            match l with
            | Document.Success p =>
                VFloat (Upload.round (Document.pixel_value p - 273.15)%float 2)
            | Document.Failure _ => VNone
            end;
          Upload.ndvi :=
            match n with
            | Document.Success p => VFloat (Upload.round (Document.pixel_value p) 3)
            | Document.Failure _ => VNone
            end |}.
Proof.
  destruct (collect_record env st lat lon target_date use_mock) as (l & n & E & Hl & Hn).
  exists l, n. unfold dict in *. rewrite E.
  split; [reflexivity|]. split; [reflexivity|].
  apply extract_of_record. intros p Ep. apply (Hl p Ep).
Qed.

(** X12. With the client library missing and mock mode not requested, the
    record is tagged "gportal" although both files come from the generator;
    with numpy, h5py and a writable scratch directory both observations are
    successful extractions. *)
Theorem missing_client_tagged_gportal env st lat lon target_date :
  GPORTAL_AVAILABLE env = false ->
  dict_get "data_source"
    (fst (collect_satellite_data env st lat lon target_date false)) =
    Some (VStr "gportal") /\
  calls (snd (collect_satellite_data env st lat lon target_date false)) =
    calls st ++ [CallMock "LST"; CallMock "NDVI"] /\
  (NUMPY_AVAILABLE env = true -> H5PY_AVAILABLE env = true ->
   temp_writable env = true ->
   exists lst ndvi,
     observation_of (fst (collect_satellite_data env st lat lon target_date false))
       "lst" = Some (VDict lst) /\
     dict_in "error" lst = false /\ dict_get "dataset" lst = Some (VStr "LST") /\
     observation_of (fst (collect_satellite_data env st lat lon target_date false))
       "ndvi" = Some (VDict ndvi) /\
     dict_in "error" ndvi = false /\ dict_get "dataset" ndvi = Some (VStr "NDVI")).
Proof.
  intros Hg.
  assert (Hm : orb false (negb (GPORTAL_AVAILABLE env)) = true) by (rewrite Hg; reflexivity).
  split.
  { unfold collect_satellite_data. cbn [fold_left].
    rewrite !collect_product_other by reflexivity. reflexivity. }
  unfold collect_satellite_data.
  match goal with
  | |- context [fold_left _ _ (?r, st)] => remember r as result0 eqn:R0
  end.
  cbn [fold_left].
  pose proof (collect_product_mock env lat lon target_date false result0 st "LST" Hm) as H1.
  unfold dict in *.
  destruct (collect_product env lat lon target_date false (result0, st) "LST")
    as [r1 st1] eqn:E1.
  pose proof (collect_product_mock env lat lon target_date false r1 st1 "NDVI" Hm) as H2.
  unfold dict in *.
  destruct (collect_product env lat lon target_date false (r1, st1) "NDVI")
    as [r2 st2] eqn:E2.
  cbn [fst snd]. destruct H1 as [C1 O1], H2 as [C2 O2].
  split; [rewrite C2, C1, <- app_assoc; reflexivity|].
  intros Hn Hh Hw.
  destruct (O1 Hn Hh Hw) as (lst & -> & L1 & L2).
  destruct (O2 Hn Hh Hw) as (ndvi & -> & N1 & N2).
  subst result0. exists lst, ndvi. repeat split; auto.
Qed.

Lemma missing_client_tagged_gportal_witness :
  dict_get "data_source"
    (fst (collect_satellite_data env_no_client empty_scratch
            32.8032%float 130.7075%float "2026-01-08" false)) =
    Some (VStr "gportal") /\
  calls (snd (collect_satellite_data env_no_client empty_scratch
                32.8032%float 130.7075%float "2026-01-08" false)) =
    [CallMock "LST"; CallMock "NDVI"].
Proof.
  destruct (missing_client_tagged_gportal env_no_client empty_scratch
              32.8032%float 130.7075%float "2026-01-08" eq_refl) as (A & B & _).
  split; [exact A | exact B].
Defined.

(** *** The scratch directory *)

Lemma fs_get_app p added l :
  fs_get p l <> None -> fs_get p (added ++ l) <> None.
Proof.
  intros H. induction added as [|[q c] added IH]; cbn; [exact H|].
  destruct (String.eqb p q); [discriminate | exact IH].
Qed.

Lemma collect_product_scratch env lat lon target_date use_mock result st P :
  exists added,
    fs (snd (collect_product env lat lon target_date use_mock (result, st) P)) =
      added ++ fs st /\ length added <= 1.
Proof.
  unfold collect_product.
  assert (H : exists added,
    fs (snd (if orb use_mock (negb (GPORTAL_AVAILABLE env))
             then create_mock_hdf5 env st lat lon target_date P
             else search_and_download_real env st lat lon target_date P)) =
    added ++ fs st /\ length added <= 1).
  { destruct (orb use_mock (negb (GPORTAL_AVAILABLE env))).
    - unfold create_mock_hdf5. destruct (orb _ _); [exists []; cbn; auto|].
      destruct (negb (temp_writable env)); [exists []; cbn; auto|].
      eexists [_]. cbn [fs snd log fs_put app length]. unfold fs_put.
      split; [reflexivity|lia].
    - unfold search_and_download_real.
      destruct (negb (GPORTAL_AVAILABLE env)); [exists []; cbn; auto|].
      destruct (get_gportal_credentials env); [|exists []; cbn; auto].
      destruct (negb _); [exists []; cbn; auto|].
      destruct (gportal_service env P _ target_date) as [e| | |path [c|]];
        try (exists []; cbn; split; [reflexivity|lia]).
      eexists [_]. cbn [fs snd log fs_put app length]. unfold fs_put.
      split; [reflexivity|lia]. }
  destruct (if orb use_mock (negb (GPORTAL_AVAILABLE env)) then _ else _) as [p st1].
  exact H.
Qed.

Lemma collect_product_mock_scratch env lat lon target_date use_mock result st P :
  orb use_mock (negb (GPORTAL_AVAILABLE env)) = true ->
  NUMPY_AVAILABLE env = true -> H5PY_AVAILABLE env = true -> temp_writable env = true ->
  fs (snd (collect_product env lat lon target_date use_mock (result, st) P)) =
  (mock_path target_date P, Hdf5 (mock_file env (draws st) lat lon P)) :: fs st.
Proof.
  intros Hm Hn Hh Hw. unfold collect_product, create_mock_hdf5.
  rewrite Hm, Hn, Hh, Hw. reflexivity.
Qed.

(** X13. The collector never removes a file of the scratch directory: every
    path that existed before a run exists after it.  The files the generator
    writes are left there too: after a run in mock mode, or without the
    client library, with numpy, h5py and a writable scratch directory, both
    generated files exist. *)
Theorem scratch_files_kept env st lat lon target_date use_mock :
  (forall p, exists_ st p = true ->
     exists_ (snd (collect_satellite_data env st lat lon target_date use_mock)) p = true) /\
  (orb use_mock (negb (GPORTAL_AVAILABLE env)) = true ->
   NUMPY_AVAILABLE env = true -> H5PY_AVAILABLE env = true -> temp_writable env = true ->
   exists_ (snd (collect_satellite_data env st lat lon target_date use_mock))
           (mock_path target_date "LST") = true /\
   exists_ (snd (collect_satellite_data env st lat lon target_date use_mock))
           (mock_path target_date "NDVI") = true).
Proof.
  assert (G : forall p added l, exists_ {| fs := l; calls := []; draws := 0 |} p = true ->
                exists_ {| fs := added ++ l; calls := []; draws := 0 |} p = true).
  { intros p added l. unfold exists_. cbn [fs].
    destruct (fs_get p l) eqn:A; [|discriminate]. intros _.
    destruct (fs_get p (added ++ l)) eqn:B; [reflexivity|].
    exfalso. apply (fs_get_app p added l); [rewrite A; discriminate | exact B]. }
  unfold collect_satellite_data.
  match goal with
  | |- context [fold_left _ _ (?r, st)] => generalize r; intros result0
  end.
  cbn [fold_left].
  destruct (collect_product_scratch env lat lon target_date use_mock result0 st "LST")
    as (a1 & E1 & L1).
  pose proof (collect_product_mock_scratch env lat lon target_date use_mock result0 st "LST")
    as M1.
  unfold dict in *.
  destruct (collect_product env lat lon target_date use_mock (result0, st) "LST")
    as [r1 st1].
  destruct (collect_product_scratch env lat lon target_date use_mock r1 st1 "NDVI")
    as (a2 & E2 & L2).
  pose proof (collect_product_mock_scratch env lat lon target_date use_mock r1 st1 "NDVI")
    as M2.
  unfold dict in *.
  destruct (collect_product env lat lon target_date use_mock (r1, st1) "NDVI")
    as [r2 st2].
  cbn [snd] in *. split.
  - intros p Hp. unfold exists_ in *. rewrite E2, E1, app_assoc.
    apply (G p (a2 ++ a1) (fs st)). exact Hp.
  - intros Hm Hn Hh Hw. specialize (M1 Hm Hn Hh Hw). specialize (M2 Hm Hn Hh Hw).
    unfold exists_. rewrite M2. split.
    + apply (G (mock_path target_date "LST")
               [(mock_path target_date "NDVI",
                 Hdf5 (mock_file env (draws st1) lat lon "NDVI"))] (fs st1)).
      unfold exists_. cbn [fs]. rewrite M1. unfold fs_get.
      rewrite String.eqb_refl. reflexivity.
    + unfold fs_get. rewrite String.eqb_refl. reflexivity.
Qed.

Lemma scratch_files_kept_witness :
  exists_ (snd (collect_satellite_data env_no_client
                  (scratch (row_file "LST" [290.5; 291.0; 291.5]%float))
                  32.8032%float 130.7075%float "2026-01-08" true))
          "data/temp/a.h5" = true /\
  exists_ (snd (collect_satellite_data env_no_client
                  (scratch (row_file "LST" [290.5; 291.0; 291.5]%float))
                  32.8032%float 130.7075%float "2026-01-08" true))
          "data/temp/GC1SG1_2026010801D01D_NDVI_MOCK.h5" = true.
Proof.
  destruct (scratch_files_kept env_no_client
              (scratch (row_file "LST" [290.5; 291.0; 291.5]%float))
              32.8032%float 130.7075%float "2026-01-08" true) as (A & B).
  split.
  - apply A. reflexivity.
  - apply B; reflexivity.
Defined.

End RecordFacts.

Module CollectMainFacts.
Import F64 F64Facts Py Np NpFacts Collect CollectFacts CollectorFacts Examples.
Import GeneratorFacts RecordFacts CollectMain.

(** X14. A collector run exits with status 0 exactly when the data
    directories can be made, numpy and h5py are present and the output can be
    written; then the output holds the collected record, which the ingestor's
    extraction step accepts with the run's date.  Otherwise the status is 1
    and nothing is written; without the directories or a library nothing is
    acquired either. *)
Theorem collector_run_outcome env host args st :
  (status (main env host args st) = 0%Z <->
   directories_creatable host = true /\ NUMPY_AVAILABLE env = true /\
   H5PY_AVAILABLE env = true /\ output_writable host = true) /\
  (status (main env host args st) = 0%Z ->
   written (main env host args st) =
     Some (output args,
           VDict (fst (collect_satellite_data env st (lat args) (lon args)
                         (date args) (mock args)))) /\
   final (main env host args st) =
     snd (collect_satellite_data env st (lat args) (lon args) (date args) (mock args)) /\
   exists o,
     Upload.extract_observation_data
       (VDict (fst (collect_satellite_data env st (lat args) (lon args)
                      (date args) (mock args)))) = Ok o /\
     Upload.observation_date o = VStr (date args)) /\
  (status (main env host args st) <> 0%Z ->
   status (main env host args st) = 1%Z /\ written (main env host args st) = None) /\
  (directories_creatable host = false \/ NUMPY_AVAILABLE env = false \/
   H5PY_AVAILABLE env = false ->
   final (main env host args st) = st).
Proof.
  unfold status, final, written, main.
  assert (Ex : exists o,
    Upload.extract_observation_data
      (VDict (fst (collect_satellite_data env st (lat args) (lon args)
                     (date args) (mock args)))) = Ok o /\
    Upload.observation_date o = VStr (date args)).
  { destruct (collect_record env st (lat args) (lon args) (date args) (mock args))
      as (l & n & E & Hl & _).
    unfold dict in *. rewrite E. eexists. split.
    - apply extract_of_record. intros p Ep. apply (Hl p Ep).
    - reflexivity. }
  destruct (directories_creatable host), (NUMPY_AVAILABLE env), (H5PY_AVAILABLE env);
    cbn [negb orb fst snd];
    try (split; [split; [discriminate | intros (A & B & C & D); discriminate]|];
         split; [discriminate|]; split; [auto|]; auto).
  destruct (collect_satellite_data env st (lat args) (lon args) (date args) (mock args))
    as [result st'] eqn:Ec.
  cbn [fst snd] in *.
  destruct (output_writable host); cbn [negb fst snd].
  - split; [split; auto|]. split; [|split; [congruence|]].
    + intros _. split; [reflexivity|]. split; [reflexivity|]. exact Ex.
    + intros [A|[A|A]]; discriminate.
  - split; [split; [discriminate | intros (A & B & C & D); discriminate]|].
    split; [discriminate|]. split; [auto|]. intros [A|[A|A]]; discriminate.
Qed.

Lemma collector_run_outcome_witness :
  status (main env_no_credentials
            {| directories_creatable := true; output_writable := true |}
            {| lat := 32.8032; lon := 130.7075; date := "2026-01-08";
               output := "data.json"; mock := false |}
            empty_scratch) = 0%Z.
Proof.
  apply (proj1 (collector_run_outcome env_no_credentials
                  {| directories_creatable := true; output_writable := true |}
                  {| lat := 32.8032; lon := 130.7075; date := "2026-01-08";
                     output := "data.json"; mock := false |}
                  empty_scratch)).
  repeat split; reflexivity.
Defined.

Lemma collect_product_no_credentials env lat lon target_date use_mock result st P :
  orb use_mock (negb (GPORTAL_AVAILABLE env)) = false ->
  get_gportal_credentials env = None ->
  collect_product env lat lon target_date use_mock (result, st) P =
  (set_observation (lower P) no_file_error result, log (CallReal P) st).
Proof.
  intros Hm Hc. unfold collect_product, search_and_download_real.
  rewrite Hm, Hc. destruct (negb (GPORTAL_AVAILABLE env)); reflexivity.
Qed.

(** X15. The exit status does not tell whether data was obtained: a run
    against the real service without credentials exits with status 0, puts no
    file in the scratch directory, and writes a record whose two observations
    are the error payload "ファイル取得失敗"; the ingestor reads that record as
    its date with neither value. *)
Theorem run_without_credentials env host args st :
  directories_creatable host = true -> output_writable host = true ->
  NUMPY_AVAILABLE env = true -> H5PY_AVAILABLE env = true ->
  GPORTAL_AVAILABLE env = true -> mock args = false ->
  get_gportal_credentials env = None ->
  exists doc,
    status (main env host args st) = 0%Z /\
    written (main env host args st) = Some (output args, VDict doc) /\
    fs (final (main env host args st)) = fs st /\
    observation_of doc "lst" = Some (VDict [("error", VStr "ファイル取得失敗")]) /\
    observation_of doc "ndvi" = Some (VDict [("error", VStr "ファイル取得失敗")]) /\
    Upload.extract_observation_data (VDict doc) =
      Ok {| Upload.observation_date := VStr (date args);
            Upload.lst := VNone; Upload.ndvi := VNone |}.
Proof.
  intros Hd Ho Hn Hh Hg Hm Hc. unfold status, final, written, main.
  rewrite Hd, Ho, Hn, Hh, Hm. cbn [negb orb].
  unfold collect_satellite_data. cbn [fold_left].
  rewrite !collect_product_no_credentials by (auto; rewrite Hg; reflexivity).
  eexists. cbn [fst snd]. split; [reflexivity|]. split; [reflexivity|].
  split; [reflexivity|]. split; [reflexivity|]. split; reflexivity.
Qed.

Lemma run_without_credentials_witness :
  exists doc,
    written (main env_no_credentials
               {| directories_creatable := true; output_writable := true |}
               {| lat := 32.8032; lon := 130.7075; date := "2026-01-08";
                  output := "data.json"; mock := false |}
               empty_scratch) = Some ("data.json", VDict doc) /\
    Upload.extract_observation_data (VDict doc) =
      Ok {| Upload.observation_date := VStr "2026-01-08";
            Upload.lst := VNone; Upload.ndvi := VNone |}.
Proof.
  destruct (run_without_credentials env_no_credentials
              {| directories_creatable := true; output_writable := true |}
              {| lat := 32.8032; lon := 130.7075; date := "2026-01-08";
                 output := "data.json"; mock := false |}
              empty_scratch eq_refl eq_refl eq_refl eq_refl eq_refl eq_refl eq_refl)
    as (doc & _ & A & _ & _ & _ & B).
  exists doc. split; [exact A | exact B].
Defined.

End CollectMainFacts.

(* ================================================================== *)
(** * Further facts: the ingestor *)
(* ================================================================== *)

Module IngestFacts.
Import Py Upload UploadFacts UploadExamples.

(** *** extract_observation_data on other documents *)

(** X16. The extraction step reads a JSON object without [observations], or
    whose [observations] object has neither product, as its date (or [None])
    with neither value; it raises on a document that is not a JSON object,
    and on one whose [observations] is null, a number or a boolean. *)
Theorem extraction_of_incomplete_documents :
  (forall d, dict_in "observations" d = false ->
     extract_observation_data (VDict d) =
     Ok {| observation_date :=
             match dict_get "observation_date" d with Some v => v | None => VNone end;
           lst := VNone; ndvi := VNone |}) /\
  (forall d obs,
     dict_get "observations" d = Some (VDict obs) ->
     dict_in "lst" obs = false -> dict_in "ndvi" obs = false ->
     extract_observation_data (VDict d) =
     Ok {| observation_date :=
             match dict_get "observation_date" d with Some v => v | None => VNone end;
           lst := VNone; ndvi := VNone |}) /\
  (forall v, (forall d, v <> VDict d) ->
     exists e, extract_observation_data v = Raise e) /\
  (forall d v,
     dict_get "observations" d = Some v ->
     (forall obs, v <> VDict obs) -> (forall s, v <> VStr s) -> (forall l, v <> VList l) ->
     exists e, extract_observation_data (VDict d) = Raise e).
Proof.
  unfold extract_observation_data, extract_field, get, contains, getitem, dict_in.
  split; [|split; [|split]].
  - intros d H. destruct (dict_get "observations" d); [discriminate|]. reflexivity.
  - intros d obs -> Hl Hn. cbn [bind negb].
    destruct (dict_get "lst" obs); [discriminate|].
    destruct (dict_get "ndvi" obs); [discriminate|]. reflexivity.
  - intros v H. destruct v; cbn [bind]; eauto. destruct (H d). reflexivity.
  - intros d v -> Hd Hs Hl. cbn [bind negb].
    destruct v; cbn [bind]; eauto;
      [destruct (Hs s) | destruct (Hl l) | destruct (Hd d0)]; reflexivity.
Qed.

(** *** Runs that stop before the store *)

(** X17. A run whose input cannot be loaded, whose document the extraction
    step rejects, or (unless backup-only) whose MYSQL_PORT is not an integer,
    exits with status 1 and leaves everything as it was: no connection is
    attempted and no backup is written, even when the observation had been
    extracted. *)
Theorem fatal_run_leaves_no_trace args w :
  (forall json, load_json_data w (input args) <> Ok json) \/
  (exists json, load_json_data w (input args) = Ok json /\
                forall o, extract_observation_data json <> Ok o) \/
  (backup_only args = false /\ MYSQL_PORT w = PortNotANumber) ->
  main args w = (1%Z, w).
Proof.
  unfold main, get_mysql_config. intros [H|[(json & E & H)|[Hb Hp]]].
  - destruct (load_json_data w (input args)) as [json| |]; auto. destruct (H json). reflexivity.
  - rewrite E. destruct (extract_observation_data json) as [o| |]; auto.
    destruct (H o). reflexivity.
  - rewrite Hb, Hp.
    destruct (load_json_data w (input args)) as [json| |]; auto.
    destruct (extract_observation_data json) as [o| |]; auto.
Qed.

Lemma fatal_run_leaves_no_trace_witness :
  main {| input := "missing.json"; location_id := 1; backup_only := false |} world_store =
  (1%Z, world_store).
Proof.
  apply (fatal_run_leaves_no_trace
           {| input := "missing.json"; location_id := 1; backup_only := false |}
           world_store).
  left. intros json. discriminate.
Defined.

(** *** The exit status *)

Ltac world_fields :=
  cbn [negb fst snd count_connect PYMYSQL_AVAILABLE connect_error select_error
       execute_error commit_error db locations observations].


(** X18. The exit status is 0 or 1, and it is 0 exactly when the input
    loads, the observation is extracted and either the run is backup-only, or
    MYSQL_PORT is an integer, pymysql is present, the connection opens, the
    location id is found and the insertion and its commit succeed. *)
Theorem upload_exit_status args w :
  (fst (main args w) = 0%Z \/ fst (main args w) = 1%Z) /\
  (fst (main args w) = 0%Z <->
   exists json o,
     load_json_data w (input args) = Ok json /\
     extract_observation_data json = Ok o /\
     (backup_only args = true \/
      (MYSQL_PORT w <> PortNotANumber /\ store_accepts args w))).
Proof.
  split; [|split].
  - unfold main.
    destruct (load_json_data w (input args)) as [json| |]; auto.
    destruct (extract_observation_data json) as [a| |]; auto.
    destruct (backup_only args); auto.
    destruct (get_mysql_config w); auto.
    destruct (negb (PYMYSQL_AVAILABLE w)); auto.
    destruct (connect_to_mysql w) as [[conn| |] w1]; auto.
    destruct (negb (verify_location_exists w1 conn (location_id args))); auto.
    destruct (insert_observation w1 conn (location_id args) a) as [[[] c] w2]; auto.
  - unfold store_accepts, main, get_mysql_config, connect_to_mysql,
      verify_location_exists, insert_observation.
    destruct (load_json_data w (input args)) as [json| |] eqn:L; try discriminate.
    destruct (extract_observation_data json) as [o| |] eqn:X; try discriminate.
    intros H. exists json, o. split; [reflexivity|]. split; [exact X|].
    destruct (backup_only args); [auto|]. right. revert H.
    cbn [count_connect connect_error select_error execute_error commit_error
         db locations].
    destruct (MYSQL_PORT w); try discriminate.
    all: destruct (PYMYSQL_AVAILABLE w); world_fields; try discriminate.
    all: destruct (connect_error w); world_fields; try discriminate.
    all: destruct (select_error w); world_fields; try discriminate.
    all: destruct (existsb _ (locations (db w))); world_fields; try discriminate.
    all: destruct (execute_error w); world_fields; try discriminate.
    all: destruct (commit_error w); world_fields; try discriminate.
    all: intros _; repeat split; auto; discriminate.
  - intros (json & o & L & X & H). unfold main. rewrite L, X.
    destruct H as [->|(P & A & B & C & D & E & F)]; [reflexivity|].
    destruct (backup_only args); [reflexivity|].
    unfold get_mysql_config, connect_to_mysql, verify_location_exists, insert_observation.
    rewrite A. world_fields. rewrite B. world_fields. rewrite C, D. world_fields.
    rewrite E, F.
    destruct (MYSQL_PORT w); try congruence; reflexivity.
Qed.

Lemma upload_exit_status_witness :
  fst (main {| input := "data.json"; location_id := 1; backup_only := false |}
            world_store) = 0%Z.
Proof.
  apply (proj2 (upload_exit_status
                  {| input := "data.json"; location_id := 1; backup_only := false |}
                  world_store)).
  exists (Document.to_json example_record), example_observation.
  split; [reflexivity|]. split; [vm_compute; reflexivity|].
  right. split; [discriminate|]. repeat split; reflexivity.
Defined.

(** *** The ways a run ends *)

Lemma main_cases args w :
  (((forall json, load_json_data w (input args) <> Ok json) \/
    (exists json, load_json_data w (input args) = Ok json /\
                  forall o, extract_observation_data json <> Ok o) \/
    (backup_only args = false /\ MYSQL_PORT w = PortNotANumber)) /\
   main args w = (1%Z, w)) \/
  exists json o,
    load_json_data w (input args) = Ok json /\
    extract_observation_data json = Ok o /\
    ((backup_only args = true /\
      main args w = (0%Z, save_to_csv_backup w o (location_id args) None)) \/
     (backup_only args = false /\ MYSQL_PORT w <> PortNotANumber /\
      ((PYMYSQL_AVAILABLE w = false /\
        main args w =
          (1%Z, save_to_csv_backup w o (location_id args) (Some (failure_cause args w)))) \/
       (PYMYSQL_AVAILABLE w = true /\ ~ store_accepts args w /\
        main args w =
          (1%Z, save_to_csv_backup (count_connect w) o (location_id args)
                  (Some (failure_cause args w)))) \/
       (store_accepts args w /\ main args w = (0%Z, uploaded args w o))))).
Proof.
  unfold main.
  destruct (load_json_data w (input args)) as [json| |] eqn:L;
    try (left; split; [left; discriminate | reflexivity]).
  destruct (extract_observation_data json) as [o| |] eqn:X;
    try (left; split; [right; left; exists json; split; [reflexivity|]; rewrite X; discriminate
                      | reflexivity]).
  destruct (backup_only args) eqn:B.
  { right. exists json, o. auto. }
  unfold get_mysql_config. destruct (MYSQL_PORT w) eqn:P;
    try (left; split; [right; right; auto | reflexivity]).
  all: right; exists json, o; split; [reflexivity|]; split; [exact X|]; right;
    split; [reflexivity|]; split; [discriminate|].
  all: unfold store_accepts, failure_cause, uploaded, connect_to_mysql,
         verify_location_exists, insert_observation.
  all: destruct (PYMYSQL_AVAILABLE w); world_fields; [|left; auto].
  all: right.
  all: destruct (connect_error w) as [msg|]; world_fields;
    [left; split; [reflexivity|]; split; [intros (_ & A & _); discriminate | reflexivity]|].
  all: destruct (select_error w); world_fields;
    [left; split; [reflexivity|]; split; [intros (_ & _ & A & _); discriminate | reflexivity]|].
  all: destruct (existsb _ (locations (db w))); world_fields;
    [|left; split; [reflexivity|]; split; [intros (_ & _ & _ & A & _); discriminate | reflexivity]].
  all: destruct (execute_error w); world_fields;
    [left; split; [reflexivity|]; split; [intros (_ & _ & _ & _ & A & _); discriminate | reflexivity]|].
  all: destruct (commit_error w); world_fields;
    [left; split; [reflexivity|]; split; [intros (_ & _ & _ & _ & _ & A); discriminate | reflexivity]|].
  all: right; repeat split; reflexivity.
Qed.

(** X19. Every upload (not backup-only, with an integer MYSQL_PORT) that got
    its observation and then fails is backed up with its cause: the store is
    unchanged, the exit status is 1, and exactly
    one line goes to the run's backup file, carrying the observation and
    "pymysql未インストール" when the driver is missing, the driver's message when
    the connection fails, the unknown-location message when the location is
    not found or cannot be looked up, and "データ挿入に失敗しました" when the
    statement or its commit fails. *)
Theorem failed_upload_backed_up args w json o :
  backup_only args = false ->
  load_json_data w (input args) = Ok json ->
  extract_observation_data json = Ok o ->
  MYSQL_PORT w <> PortNotANumber ->
  ~ store_accepts args w ->
  fst (main args w) = 1%Z /\
  db (snd (main args w)) = db w /\
  appended w (snd (main args w))
    (Line (location_id args) (observation_date o) (lst o) (ndvi o)
          (failure_cause args w)).
Proof.
  intros Hb L X P N.
  destruct (main_cases args w) as [[F _]|(json' & o' & L' & X' & H)].
  - exfalso. destruct F as [F|[(j & L' & F)|[_ F]]].
    + apply (F json L).
    + rewrite L in L'. injection L' as <-. apply (F o X).
    + contradiction.
  - rewrite L in L'. injection L' as <-. rewrite X in X'. injection X' as <-.
    destruct H as [[Hb' _]|(_ & _ & [[_ E]|[(_ & _ & E)|[A _]]])];
      [congruence| | |contradiction]; rewrite E; cbn [fst snd].
    + destruct (save_to_csv_backup_appended w o (location_id args)
                  (Some (failure_cause args w))) as (A & B & _). auto.
    + destruct (save_to_csv_backup_appended (count_connect w) o (location_id args)
                  (Some (failure_cause args w))) as (A & B & _). auto.
Qed.

Lemma failed_upload_backed_up_witness :
  fst (main {| input := "data.json"; location_id := 1; backup_only := false |}
            world_failing_insert) = 1%Z /\
  lookup "backup_20260108_120000.csv"
    (backup_dir (snd (main {| input := "data.json"; location_id := 1;
                              backup_only := false |} world_failing_insert))) =
  Some [ Header fieldnames;
         Line 1 (VStr "2026-01-08") (VFloat 17.85) (VFloat 0.654)
              "データ挿入に失敗しました" ].
Proof.
  destruct (failed_upload_backed_up
              {| input := "data.json"; location_id := 1; backup_only := false |}
              world_failing_insert
              (Document.to_json example_record) example_observation)
    as (A & _ & B & _).
  - reflexivity.
  - reflexivity.
  - vm_compute. reflexivity.
  - discriminate.
  - unfold store_accepts. intros (_ & _ & _ & _ & E & _). discriminate.
  - split; [exact A | exact B].
Defined.

(** *** What a run leaves alone *)

(** X20. No run changes the locations table or the input files; a run
    connects at most once, and a backup-only run not at all; the observations
    table changes only in a run that exits with status 0 and is not
    backup-only, and such a run writes no backup; backup files other than the
    run's own are untouched, and the run's own file keeps the lines it had,
    with at most one line added after them. *)
Theorem run_frame args w :
  locations (db (snd (main args w))) = locations (db w) /\
  json_files (snd (main args w)) = json_files w /\
  (connects (snd (main args w)) = connects w \/
   (backup_only args = false /\ connects (snd (main args w)) = S (connects w))) /\
  (backup_only args = true -> connects (snd (main args w)) = connects w) /\
  (fst (main args w) <> 0%Z \/ backup_only args = true ->
   db (snd (main args w)) = db w) /\
  (fst (main args w) = 0%Z -> backup_only args = false ->
   backup_dir (snd (main args w)) = backup_dir w) /\
  (forall f, f <> backup_file w ->
     lookup f (backup_dir (snd (main args w))) = lookup f (backup_dir w)) /\
  (forall lines, lookup (backup_file w) (backup_dir w) = Some lines ->
     exists more,
       lookup (backup_file w) (backup_dir (snd (main args w))) = Some (lines ++ more) /\
       length more <= 1).
Proof.
  assert (Sv : forall w0 o l e,
    backup_file w0 = backup_file w -> backup_dir w0 = backup_dir w ->
    (forall f, f <> backup_file w ->
       lookup f (backup_dir (save_to_csv_backup w0 o l e)) = lookup f (backup_dir w)) /\
    (forall lines, lookup (backup_file w) (backup_dir w) = Some lines ->
       exists more,
         lookup (backup_file w) (backup_dir (save_to_csv_backup w0 o l e)) =
           Some (lines ++ more) /\ length more <= 1)).
  { intros w0 o l e Ef Ed.
    destruct (save_to_csv_backup_appended w0 o l e) as (AB & _).
    unfold appended in AB. destruct AB as [A B].
    unfold backup_before in A. rewrite Ef, Ed in A. rewrite Ef, Ed in B. split.
    - exact B.
    - intros lines El. rewrite El in A. eexists. split; [exact A|]. cbn. lia. }
  assert (K : forall lines : list csv_line, exists more,
    Some lines = Some (lines ++ more) /\ length more <= 1).
  { intros lines. exists []. rewrite app_nil_r. cbn. split; [reflexivity|lia]. }
  destruct (main_cases args w) as [[_ E]|(json & o & _ & _ & H)].
  { rewrite E. cbn [fst snd]. repeat split; auto. intros lines ->. apply K. }
  destruct H as [[Hb E]|(Hb & _ & [[_ E]|[(_ & _ & E)|[_ E]]])]; rewrite E; cbn [fst snd].
  - destruct (Sv w o (location_id args) None eq_refl eq_refl) as [A B].
    repeat split; auto. intros _ Hb'. congruence.
  - destruct (Sv w o (location_id args) (Some (failure_cause args w)) eq_refl eq_refl)
      as [A B].
    repeat split; auto. discriminate.
  - destruct (Sv (count_connect w) o (location_id args) (Some (failure_cause args w))
                eq_refl eq_refl) as [A B].
    repeat split; auto; try discriminate. intros Hb'. congruence.
  - unfold uploaded.
    cbn [db set_db count_connect locations json_files connects backup_dir].
    repeat split; auto.
    + intros Hb'. congruence.
    + intros [A|A]; congruence.
    + intros lines ->. apply K.
Qed.

(** *** The form of a backup file *)

(** X21. A run keeps the backup directory well formed: if every backup file
    is the header followed by data lines before the run, so is every backup
    file after it, the one the run creates included. *)
Theorem backup_files_well_formed args w :
  (forall f lines, lookup f (backup_dir w) = Some lines -> backup_well_formed lines) ->
  forall f lines,
    lookup f (backup_dir (snd (main args w))) = Some lines -> backup_well_formed lines.
Proof.
  intros W.
  assert (Sv : forall w0 o l e,
    backup_file w0 = backup_file w -> backup_dir w0 = backup_dir w ->
    forall f lines,
      lookup f (backup_dir (save_to_csv_backup w0 o l e)) = Some lines ->
      backup_well_formed lines).
  { intros w0 o l e Ef Ed f lines.
    destruct (save_to_csv_backup_appended w0 o l e) as (AB & _).
    unfold appended in AB. destruct AB as [A B].
    unfold backup_before in A. rewrite Ef, Ed in A. rewrite Ef, Ed in B.
    destruct (string_dec f (backup_file w)) as [->|N].
    - rewrite A. intros E. injection E as <-.
      destruct (lookup (backup_file w) (backup_dir w)) as [old|] eqn:El.
      + destruct (W _ _ El) as (rows & -> & F).
        exists (rows ++ [Line l (observation_date o) (lst o) (ndvi o)
                           match e with Some m => m | None => "" end]).
        split; [reflexivity|]. apply Forall_app. split; [exact F|]. repeat constructor.
      + eexists. split; [reflexivity|]. repeat constructor.
    - rewrite (B f N). apply W. }
  destruct (main_cases args w) as [[_ E]|(json & o & _ & _ & H)].
  { rewrite E. exact W. }
  destruct H as [[Hb E]|(Hb & _ & [[_ E]|[(_ & _ & E)|[_ E]]])]; rewrite E; cbn [fst snd].
  - apply (Sv w); reflexivity.
  - apply (Sv w); reflexivity.
  - apply (Sv (count_connect w)); reflexivity.
  - exact W.
Qed.

Lemma backup_files_well_formed_witness :
  backup_well_formed
    [ Header fieldnames;
      Line 7 (VStr "2026-01-08") (VFloat 12.5) (VFloat 0.5) "";
      Line 99 (VStr "2026-01-08") (VFloat 17.85) (VFloat 0.654)
           (unknown_location_message 99) ].
Proof.
  apply (backup_files_well_formed args_unknown_location world_with_backup)
    with (f := "backup_20260108_120000.csv").
  - intros f lines. cbn [world_with_backup backup_dir set_backup_dir lookup].
    destruct (String.eqb f "backup_20260108_120000.csv"); [|discriminate].
    intros E. injection E as <-. eexists. split; [reflexivity|]. repeat constructor.
  - vm_compute. reflexivity.
Defined.

(** *** Running the same upload again *)

Lemma same_key_updated location_id date r lst_value ndvi_value :
  same_key location_id date
    {| row_location_id := row_location_id r;
       row_observation_date := row_observation_date r;
       row_lst := lst_value; row_ndvi := ndvi_value |} =
  same_key location_id date r.
Proof. reflexivity. Qed.

Lemma upsert_idempotent location_id date lst_value ndvi_value rows :
  upsert location_id (VStr date) lst_value ndvi_value
    (upsert location_id (VStr date) lst_value ndvi_value rows) =
  upsert location_id (VStr date) lst_value ndvi_value rows.
Proof.
  induction rows as [|r rows IH]; cbn [upsert].
  - rewrite same_key_own. reflexivity.
  - destruct (same_key location_id (VStr date) r) eqn:K; cbn [upsert].
    + rewrite same_key_updated, K. reflexivity.
    + rewrite K, IH. reflexivity.
Qed.

Lemma main_accepted args w json o :
  backup_only args = false ->
  load_json_data w (input args) = Ok json ->
  extract_observation_data json = Ok o ->
  MYSQL_PORT w <> PortNotANumber ->
  store_accepts args w ->
  main args w = (0%Z, uploaded args w o).
Proof.
  intros Hb L X P A.
  destruct (main_cases args w) as [[F _]|(json' & o' & L' & X' & H)].
  - exfalso. destruct F as [F|[(j & L' & F)|[_ F]]].
    + apply (F json L).
    + rewrite L in L'. injection L' as <-. apply (F o X).
    + contradiction.
  - rewrite L in L'. injection L' as <-. rewrite X in X'. injection X' as <-.
    destruct H as [[Hb' _]|(_ & _ & [[Hp _]|[(_ & N & _)|[_ E]]])].
    + congruence.
    + destruct A as (A & _). congruence.
    + contradiction.
    + exact E.
Qed.

(** X22. Uploading the same document again changes nothing in the store:
    after a run that exits with status 0 on a document whose date is a
    string, a second run with the same arguments exits with status 0 too and
    leaves the observations table as the first run left it. *)
Theorem rerun_changes_nothing args w json o date :
  backup_only args = false ->
  load_json_data w (input args) = Ok json ->
  extract_observation_data json = Ok o ->
  observation_date o = VStr date ->
  fst (main args w) = 0%Z ->
  fst (main args (snd (main args w))) = 0%Z /\
  db (snd (main args (snd (main args w)))) = db (snd (main args w)).
Proof.
  intros Hb L X D S0.
  destruct (main_cases args w) as [[_ E]|(json' & o' & L' & X' & H)].
  { rewrite E in S0. discriminate. }
  rewrite L in L'. injection L' as <-. rewrite X in X'. injection X' as <-.
  destruct H as [[Hb' _]|(_ & P & [[_ E]|[(_ & _ & E)|[A E]]])];
    try congruence; try (rewrite E in S0; discriminate).
  rewrite E. cbn [snd].
  rewrite (main_accepted args (uploaded args w o) json o) by auto.
  cbn [fst snd]. split; [reflexivity|].
  unfold uploaded. cbn [db set_db count_connect locations observations].
  rewrite D, upsert_idempotent. reflexivity.
Qed.

Lemma rerun_changes_nothing_witness :
  db (snd (main {| input := "data.json"; location_id := 1; backup_only := false |}
             (snd (main {| input := "data.json"; location_id := 1; backup_only := false |}
                        world_store)))) =
  db (snd (main {| input := "data.json"; location_id := 1; backup_only := false |}
                world_store)).
Proof.
  apply (rerun_changes_nothing
           {| input := "data.json"; location_id := 1; backup_only := false |}
           world_store (Document.to_json example_record) example_observation
           "2026-01-08").
  - reflexivity.
  - reflexivity.
  - vm_compute. reflexivity.
  - reflexivity.
  - vm_compute. reflexivity.
Defined.

(** *** Two runs, and a record with failed products *)

Lemma two_runs_one_row_witness :
  rows_of 1 "2026-01-08"
    (observations (db (snd
       (main {| input := "data.json"; location_id := 1; backup_only := false |}
          (snd (main {| input := "data.json"; location_id := 1; backup_only := false |}
                     world_store)))))) =
  [ {| row_location_id := 1; row_observation_date := VStr "2026-01-08";
       row_lst := VFloat 17.85; row_ndvi := VFloat 0.654 |} ].
Proof.
  apply (two_runs_one_row
           {| input := "data.json"; location_id := 1; backup_only := false |}
           {| input := "data.json"; location_id := 1; backup_only := false |}
           world_store (Document.to_json example_record) (Document.to_json example_record)
           example_observation example_observation "2026-01-08").
  - intros loc date. unfold rows_of.
    etransitivity; [apply filter_length_le | cbn; lia].
  - reflexivity.
  - reflexivity.
  - reflexivity.
  - reflexivity.
  - vm_compute. reflexivity.
  - reflexivity.
  - reflexivity.
  - vm_compute. reflexivity.
  - reflexivity.
  - vm_compute. reflexivity.
  - vm_compute. reflexivity.
Defined.

(** X24. After a successful upload of a serialized record into a store that
    respects the unique key, the store holds exactly one row for the location
    and the record's date, with LST rounded to 2 decimals and NDVI to 3; a
    product whose acquisition failed is stored as NULL, replacing whatever
    value the row held before. *)
Theorem uploaded_row_of_record args w r :
  load_json_data w (input args) = Ok (Document.to_json r) ->
  backup_only args = false ->
  fst (main args w) = 0%Z ->
  unique_key (observations (db w)) ->
  rows_of (location_id args) (Document.observation_date r)
    (observations (db (snd (main args w)))) =
  [ {| row_location_id := location_id args;
       row_observation_date := VStr (Document.observation_date r);
       row_lst := Document.stored_lst r; row_ndvi := Document.stored_ndvi r |} ].
Proof.
  intros L Hb S0 U.
  destruct (main_uploaded args w Hb S0) as (json & o & L' & X & R & _).
  rewrite L in L'. injection L' as <-.
  assert (Eo : o = {| observation_date := VStr (Document.observation_date r);
                      lst := Document.stored_lst r; ndvi := Document.stored_ndvi r |}).
  { revert X. unfold Document.stored_lst, Document.stored_ndvi.
    destruct r as [la lo nm d t src l n]. unfold Document.to_json.
    cbn [Document.lst Document.ndvi Document.observation_date].
    destruct l as [[ds pv [c|] loc ws]|e], n as [[ds' pv' [c'|] loc' ws']|e'];
      intros X; injection X as <-; reflexivity. }
  rewrite R, Eo. cbn [observation_date lst ndvi].
  apply upsert_rows_of. apply U.
Qed.

Lemma uploaded_row_of_record_witness :
  rows_of 1 "2026-01-08"
    (observations (db (snd
       (main {| input := "failed.json"; location_id := 1; backup_only := false |}
             world_with_values)))) =
  [ {| row_location_id := 1; row_observation_date := VStr "2026-01-08";
       row_lst := VNone; row_ndvi := VNone |} ].
Proof.
  apply (uploaded_row_of_record
           {| input := "failed.json"; location_id := 1; backup_only := false |}
           world_with_values failed_record).
  - reflexivity.
  - reflexivity.
  - vm_compute. reflexivity.
  - intros loc date. unfold rows_of.
    etransitivity; [apply filter_length_le | cbn; lia].
Defined.

End IngestFacts.
